(** * auth-code-pkce: the OAuth 2.0 Authorization Code + PKCE engine

    A shallow embedding of [packages/core/src]: the state validator
    ([crypto/state.ts]), the URL helpers ([utils/url.ts]), the JWT helpers
    ([utils/jwt.ts]), the storage adapters ([storage/memory.ts],
    [storage/session.ts], [storage/local.ts], [storage/index.ts]), the
    provider presets ([providers]), the authorization-request builder
    ([oauth/authorize.ts]), the token exchange and refresh engine
    ([oauth/token.ts]), the logout flow ([oauth/logout.ts]) and the client
    orchestrator ([oauth/client.ts]); and of the authorization-code grant of
    the mock server the end-to-end tests run against.

    Conventions of the embedding.
    - A JavaScript [string] is a [string]; [string | null] and optional
      fields are [option string]; a [number] is an integer of [Z].
    - A [Map] or a plain object used as a dictionary is a [gmap]; an object
      whose key order reaches the wire (query parameters) is an association
      list.
    - The platform's built-ins ([new URL], [JSON.stringify], [JSON.parse],
      the [jwt-decode] package) are the fields of a [Platform] record that
      the definitions take as a parameter.
    - An [async] function is run to completion: its suspension points (the
      HTTP request, the user fetch) are answered by oracles of the
      environment, and a rejected promise is an exception.  Overlapping
      calls are modelled for the refresh coordinator, in
      [Module Coordinator].
    - Randomness and the clock are inputs: the values [generatePKCEPair()]
      and [generateState()] draw, and the readings of [Date.now()].
    - A storage object of the browser is a state of its own: its entries,
      and whether it lets the page read and write. *)

From Stdlib Require Import ZArith String Ascii List Bool Lia.
From stdpp Require Import base option list gmap strings pretty.

Local Open Scope Z_scope.
Local Open Scope string_scope.

(* ===================================================================== *)
(** ** JavaScript values *)
(* ===================================================================== *)

(** Truthiness of a [string | null]: [null] and the empty string are falsy. *)
Definition truthy (s : option string) : bool :=
  match s with
  | Some EmptyString => false
  | Some _ => true
  | None => false
  end.

(** Truthiness of a [number | null]: [null] and [0] are falsy. *)
Definition truthyZ (n : option Z) : bool :=
  match n with
  | Some 0 => false
  | Some _ => true
  | None => false
  end.

(** [a ?? b]: the nullish coalescing operator. *)
Definition nullish {A : Type} (a : option A) (b : A) : A :=
  match a with
  | Some x => x
  | None => b
  end.

(** [s.charCodeAt(i)]; out of range JavaScript answers [NaN], which the
    bitwise operators read as [0]. *)
Definition charCodeAt (s : string) (i : nat) : Z :=
  match String.get i s with
  | Some c => Z.of_N (N_of_ascii c)
  | None => 0
  end.

(** [hay.includes(needle)]. *)
Fixpoint includes (needle hay : string) : bool :=
  String.prefix needle hay ||
  match hay with
  | EmptyString => false
  | String _ rest => includes needle rest
  end.

(* ===================================================================== *)
(** ** crypto/state.ts *)
(* ===================================================================== *)

(** The body of the comparison loop,
    [result |= receivedState.charCodeAt(i) ^ storedState.charCodeAt(i)],
    run for [i = 0 .. receivedState.length - 1] with no early exit.  Code
    units stay below [2^16], so the 32-bit wrap of [|] and [^] never
    applies. *)
Definition xor_accumulate (receivedState storedState : string) : Z :=
  fold_left
    (fun result i =>
       Z.lor result (Z.lxor (charCodeAt receivedState i) (charCodeAt storedState i)))
    (seq 0 (String.length receivedState)) 0.

Definition validateState (receivedState storedState : option string) : bool :=
  if negb (truthy receivedState) || negb (truthy storedState) then false
  else
    match receivedState, storedState with
    | Some r, Some s =>
        if negb (Nat.eqb (String.length r) (String.length s)) then false
        else Z.eqb (xor_accumulate r s) 0
    | _, _ => false
    end.

(* ===================================================================== *)
(** ** Completions and the state-and-exception monad *)
(* ===================================================================== *)

(** How a call ends: it returns a value or throws (for an [async] function:
    its promise is fulfilled or rejected). *)
Inductive completion (A : Type) : Type :=
  | Returned (a : A)
  | Thrown (reason : string).
Arguments Returned {A} a.
Arguments Thrown {A} reason.

(** Code that mutates a state [S] and may throw. *)
Definition M (S A : Type) : Type := S -> S * completion A.

Definition ret {S A : Type} (a : A) : M S A := fun s => (s, Returned a).

Definition throw {S A : Type} (reason : string) : M S A := fun s => (s, Thrown reason).

Definition bind {S A B : Type} (m : M S A) (k : A -> M S B) : M S B :=
  fun s =>
    match m s with
    | (s', Returned a) => k a s'
    | (s', Thrown reason) => (s', Thrown reason)
    end.

(** [try { m } catch (err) { handler err }]. *)
Definition try_catch {S A : Type} (m : M S A) (handler : string -> M S A) : M S A :=
  fun s =>
    match m s with
    | (s', Returned a) => (s', Returned a)
    | (s', Thrown reason) => handler reason s'
    end.

(** A statement that only changes the state. *)
Definition modify {S : Type} (f : S -> S) : M S unit := fun s => (f s, Returned tt).

(** Reading the state. *)
Definition gets {S A : Type} (f : S -> A) : M S A := fun s => (s, Returned (f s)).

(** Calling an optional callback or a value that already completed. *)
Definition complete {S A : Type} (c : completion A) : M S A := fun s => (s, c).

Declare Scope js_scope.
Delimit Scope js_scope with js.
Notation "'let!' x ':=' m 'in' k" := (bind m (fun x => k))
  (at level 10, x name, m at level 100, k at level 200) : js_scope.
Notation "m ';;' k" := (bind m (fun _ => k))
  (at level 100, k at level 200, right associativity) : js_scope.

(* ===================================================================== *)
(** ** types/oauth.ts, types/provider.ts, types/http.ts *)
(* ===================================================================== *)

Record TokenResponse : Type := mkTokenResponse {
  access_token : string;
  token_type : string;
  expires_in : option Z;
  refresh_token : option string;
  id_token : option string;
  scope : option string
}.

(** The field [scope] of the source is [tokenScope] here ([scope] is taken by
    [TokenResponse]). *)
Record TokenState : Type := mkTokenState {
  accessToken : string;
  refreshToken : option string;
  idToken : option string;
  expiresAt : option Z;
  tokenScope : option string
}.

Inductive AuthErrorCode : Type :=
  | invalid_state
  | token_exchange_failed
  | token_refresh_failed
  | invalid_token
  | network_error
  | storage_error
  | configuration_error
  | callback_error.

(** The [details?: unknown] of an [AuthError], by the values the code puts
    there. *)
Inductive ErrorDetails : Type :=
  | NoDetails
  | CallbackDetails (error : string) (errorDescription : option string)
  | ResponseDetails (data : TokenResponse)
  | CaughtDetails (err : string).

Record AuthError : Type := mkAuthError {
  code : AuthErrorCode;
  message : string;
  details : ErrorDetails
}.

Definition createAuthError (c : AuthErrorCode) (msg : string) (d : ErrorDetails) : AuthError :=
  {| code := c; message := msg; details := d |}.

Record ProviderEndpoints : Type := mkProviderEndpoints {
  authorizationEndpoint : string;
  tokenEndpoint : string;
  logoutEndpoint : option string;
  userInfoEndpoint : option string;
  revocationEndpoint : option string
}.

Record ProviderConfig : Type := mkProviderConfig {
  issuer : string;
  clientId : string;
  redirectUri : string;
  scopes : list string;
  endpoints : ProviderEndpoints;
  postLogoutRedirectUri : option string;
  additionalAuthParams : option (list (string * string))
}.

Inductive HttpMethod : Type := GET | POST.

(** [body] is the [URLSearchParams] the engine builds: its pairs in order. *)
Record HttpRequest : Type := mkHttpRequest {
  url : string;
  method : HttpMethod;
  headers : list (string * string);
  body : list (string * string)
}.

(** [HttpResponse<TokenResponse>], the type at which the engine calls
    [request]. *)
Record HttpResponse : Type := mkHttpResponse {
  status : Z;
  data : TokenResponse
}.

(** What awaiting [httpClient.request(req)] gives: a response, or the
    rejection of the promise. *)
Inductive HttpOutcome : Type :=
  | Resolves (response : HttpResponse)
  | Rejects (err : string).

Definition HttpClient : Type := HttpRequest -> HttpOutcome.

(* ===================================================================== *)
(** ** The platform *)
(* ===================================================================== *)

(** A parsed [URL]: what the engine reads of it and its query parameters,
    decoded, in order. *)
Record URL : Type := mkURL {
  origin : string;
  pathname : string;
  searchParams : list (string * string)
}.

(** [window.location]. *)
Record Location : Type := mkLocation {
  href : string;
  location_origin : string;
  location_pathname : string;
  location_search : string;
  location_hash : string
}.

(** The built-ins the engine calls.  [URL_new u base] is [new URL(u, base)],
    [None] when it throws.  [JSON_parse] is [JSON.parse] read at the type
    [TokenState | null] the engine casts it to: [None] when it throws and
    when the text is the JSON [null]. *)
Record Platform : Type := mkPlatform {
  URL_new : string -> option string -> option URL;
  JSON_stringify : TokenState -> string;
  JSON_parse : string -> option TokenState
}.

(* ===================================================================== *)
(** ** storage/memory.ts and types/storage.ts *)
(* ===================================================================== *)

Module Storage.

(** The [Map<string, string>] of [createMemoryStorageAdapter] and its four
    methods. *)
Definition get (key : string) (store : gmap string string) : option string :=
  store !! key.

Definition set (key value : string) (store : gmap string string) : gmap string string :=
  <[key := value]> store.

Definition remove (key : string) (store : gmap string string) : gmap string string :=
  delete key store.

Definition clear (store : gmap string string) : gmap string string := ∅.

End Storage.

Module STORAGE_KEYS.
Definition TOKENS : string := "tokens".
Definition CODE_VERIFIER : string := "codeVerifier".
Definition STATE : string := "state".
Definition REDIRECT_URI : string := "redirectUri".
Definition PRE_AUTH_PATH : string := "preAuthPath".
Definition PREVIOUS_AUTH_CODE : string := "previousAuthCode".
End STORAGE_KEYS.

Record StorageConfig : Type := mkStorageConfig {
  tokenStorage : gmap string string;
  flowStorage : gmap string string
}.

Definition set_tokenStorage (f : gmap string string -> gmap string string)
    (s : StorageConfig) : StorageConfig :=
  {| tokenStorage := f (tokenStorage s); flowStorage := flowStorage s |}.

Definition set_flowStorage (f : gmap string string -> gmap string string)
    (s : StorageConfig) : StorageConfig :=
  {| tokenStorage := tokenStorage s; flowStorage := f (flowStorage s) |}.

(** [createMemoryStorageConfig()]: two fresh in-memory adapters. *)
Definition createMemoryStorageConfig : StorageConfig :=
  {| tokenStorage := ∅; flowStorage := ∅ |}.

(** A navigation asked of the browser: [window.location.replace(url)], the
    URL kept in parsed form, and [window.history.replaceState(null, "", url)]. *)
Inductive NavEvent : Type :=
  | LocationReplace (target : URL)
  | HistoryReplaceState (target : string).

(** What the engine acts on besides its arguments: the two storages, the
    requests handed to [httpClient.request] so far (oldest first), and the
    navigations asked of the browser (oldest first). *)
Record World : Type := mkWorld {
  storage : StorageConfig;
  requests : list HttpRequest;
  navigation : list NavEvent
}.

Definition set_storage (f : StorageConfig -> StorageConfig) (w : World) : World :=
  {| storage := f (storage w); requests := requests w; navigation := navigation w |}.

Definition log_request (req : HttpRequest) (w : World) : World :=
  {| storage := storage w; requests := requests w ++ [req]; navigation := navigation w |}.

Definition log_navigation (e : NavEvent) (w : World) : World :=
  {| storage := storage w; requests := requests w; navigation := navigation w ++ [e] |}.

(** [await httpClient.request(req)]: the request leaves, the oracle answers;
    a rejected promise is an exception at the [await]. *)
Definition request (httpClient : HttpClient) (req : HttpRequest) : M World HttpResponse :=
  fun w =>
    (log_request req w,
     match httpClient req with
     | Resolves response => Returned response
     | Rejects err => Thrown err
     end).

(* ===================================================================== *)
(** ** utils/url.ts *)
(* ===================================================================== *)

(** [searchParams.get(key)]: the first value under [key]. *)
Fixpoint searchParams_get (key : string) (params : list (string * string)) : option string :=
  match params with
  | [] => None
  | (k, v) :: rest => if String.eqb k key then Some v else searchParams_get key rest
  end.

(** [searchParams.set(key, value)]: the first pair under [key] takes the
    value and the others are removed; without one the pair is appended. *)
Fixpoint searchParams_set (key value : string) (params : list (string * string))
    : list (string * string) :=
  match params with
  | [] => [(key, value)]
  | (k, v) :: rest =>
      if String.eqb k key
      then (k, value) :: filter (fun p => negb (String.eqb (fst p) key)) rest
      else (k, v) :: searchParams_set key value rest
  end.

Record CallbackParams : Type := mkCallbackParams {
  cb_code : option string;
  cb_state : option string;
  cb_error : option string;
  cb_errorDescription : option string
}.

Section Url.

Variable P : Platform.
(** [window], [None] where [typeof window === "undefined"]. *)
Variable window : option Location.

Definition current_href : string :=
  match window with
  | Some location => href location
  | None => ""
  end.

Definition parseCallbackUrl (url : option string) : CallbackParams :=
  let urlToParse := nullish url current_href in
  match URL_new P urlToParse None with
  | Some parsedUrl =>
      let params := searchParams parsedUrl in
      {| cb_code := searchParams_get "code" params;
         cb_state := searchParams_get "state" params;
         cb_error := searchParams_get "error" params;
         cb_errorDescription := searchParams_get "error_description" params |}
  | None =>
      {| cb_code := None; cb_state := None; cb_error := None;
         cb_errorDescription := None |}
  end.

Definition isCallbackUrl (redirectUri : string) (url : option string) : bool :=
  let urlToCheck := nullish url current_href in
  match URL_new P urlToCheck None with
  | Some parsedUrl =>
      let params := parseCallbackUrl (Some urlToCheck) in
      match URL_new P redirectUri (Some (origin parsedUrl)) with
      | Some redirect =>
          String.eqb (pathname parsedUrl) (pathname redirect)
          && (bool_decide (is_Some (cb_code params))
              || bool_decide (is_Some (cb_error params)))
      | None => false
      end
  | None => false
  end.

(** [buildUrl]: the parameters are the entries of the object in order, a
    value [None] being [undefined].  The result is the [URL] whose
    [toString()] the source returns. *)
Definition buildUrl {S : Type} (baseUrl : string)
    (params : list (string * option string)) : M S URL :=
  match URL_new P baseUrl None with
  | None => throw "TypeError: Invalid URL"
  | Some u =>
      ret {| origin := origin u;
             pathname := pathname u;
             searchParams :=
               fold_left
                 (fun sp entry =>
                    match snd entry with
                    | Some value => searchParams_set (fst entry) value sp
                    | None => sp
                    end)
                 params (searchParams u) |}
  end.

Definition getCurrentPath : string :=
  match window with
  | None => "/"
  | Some location =>
      location_pathname location +:+ location_search location +:+ location_hash location
  end.

Definition getCurrentOrigin : string :=
  match window with
  | None => ""
  | Some location => location_origin location
  end.

End Url.

(* ===================================================================== *)
(** ** oauth/token.ts: parsing, storing, exchanging, refreshing *)
(* ===================================================================== *)

(** The tagged result of [exchangeCodeForTokens]:
    [{ tokens, preAuthPath } | { error }]. *)
Inductive ExchangeResult : Type :=
  | ExchangeOk (tokens : TokenState) (preAuthPath : string)
  | ExchangeError (error : AuthError).

(** [parseTokenResponse]; [now] is what [Date.now()] reads. *)
Definition parseTokenResponse (now : Z) (response : TokenResponse) : TokenState :=
  {| accessToken := access_token response;
     refreshToken := refresh_token response;
     idToken := id_token response;
     expiresAt :=
       match expires_in response with
       | Some seconds =>
           if truthyZ (Some seconds) then Some (now + seconds * 1000) else None
       | None => None
       end;
     tokenScope := scope response |}.

Section Token.

Variable P : Platform.
Variable window : option Location.

Definition storeTokens (tokens : TokenState) (s : StorageConfig) : StorageConfig :=
  set_tokenStorage (Storage.set STORAGE_KEYS.TOKENS (JSON_stringify P tokens)) s.

Definition getStoredTokens (s : StorageConfig) : option TokenState :=
  let stored := Storage.get STORAGE_KEYS.TOKENS (tokenStorage s) in
  if negb (truthy stored) then None
  else
    match stored with
    | Some text => JSON_parse P text
    | None => None
    end.

Definition clearTokens (s : StorageConfig) : StorageConfig :=
  set_flowStorage Storage.clear (set_tokenStorage Storage.clear s).

Definition flow_get (key : string) : M World (option string) :=
  gets (fun w => Storage.get key (flowStorage (storage w))).

Definition flow_set (key value : string) : M World unit :=
  modify (set_storage (set_flowStorage (Storage.set key value))).

Definition flow_remove (key : string) : M World unit :=
  modify (set_storage (set_flowStorage (Storage.remove key))).

Definition form_headers : list (string * string) :=
  [("Content-Type", "application/x-www-form-urlencoded")].

(** The token request of the authorization-code grant. *)
Definition exchange_request (provider : ProviderConfig)
    (redirect code codeVerifier : string) : HttpRequest :=
  {| url := tokenEndpoint (endpoints provider);
     method := POST;
     headers := form_headers;
     body := [("grant_type", "authorization_code");
              ("client_id", clientId provider);
              ("redirect_uri", redirect);
              ("code", code);
              ("code_verifier", codeVerifier)] |}.

Definition exchangeCodeForTokens (now : Z) (provider : ProviderConfig)
    (httpClient : HttpClient) (url : option string) : M World ExchangeResult :=
  (let params := parseCallbackUrl P window url in
   (* Check for OAuth error *)
   if truthy (cb_error params) then
     let error := nullish (cb_error params) "" in
     ret (ExchangeError
            (createAuthError callback_error
               (nullish (cb_errorDescription params) error)
               (CallbackDetails error (cb_errorDescription params))))
   (* Validate code exists *)
   else if negb (truthy (cb_code params)) then
     ret (ExchangeError
            (createAuthError callback_error
               "No authorization code in callback URL" NoDetails))
   else
     let code := nullish (cb_code params) "" in
     (* Validate state *)
     let! storedState := flow_get STORAGE_KEYS.STATE in
     if negb (validateState (cb_state params) storedState) then
       ret (ExchangeError
              (createAuthError invalid_state
                 "State parameter mismatch - possible CSRF attack" NoDetails))
     else
       (* Get stored code verifier *)
       let! codeVerifier := flow_get STORAGE_KEYS.CODE_VERIFIER in
       if negb (truthy codeVerifier) then
         ret (ExchangeError
                (createAuthError token_exchange_failed
                   "Code verifier not found in storage" NoDetails))
       else
         let! storedRedirect := flow_get STORAGE_KEYS.REDIRECT_URI in
         let redirect := nullish storedRedirect (redirectUri provider) in
         let! storedPath := flow_get STORAGE_KEYS.PRE_AUTH_PATH in
         let preAuthPath := nullish storedPath "/" in
         (* Check for repeated auth code (prevents replay) *)
         let! previousCode := flow_get STORAGE_KEYS.PREVIOUS_AUTH_CODE in
         if bool_decide (previousCode = Some code) then
           ret (ExchangeError
                  (createAuthError token_exchange_failed
                     "Authorization code already exchanged" NoDetails))
         else
           (* Store current code to prevent replay *)
           flow_set STORAGE_KEYS.PREVIOUS_AUTH_CODE code ;;
           try_catch
             (let! response :=
                request httpClient
                  (exchange_request provider redirect code (nullish codeVerifier "")) in
              if negb (Z.eqb (status response) 200) then
                ret (ExchangeError
                       (createAuthError token_exchange_failed
                          ("Token exchange failed with status " +:+ pretty (status response))
                          (ResponseDetails (data response))))
              else
                let tokens := parseTokenResponse now (data response) in
                modify (set_storage (storeTokens tokens)) ;;
                (* Clear flow state (except previous auth code) *)
                flow_remove STORAGE_KEYS.CODE_VERIFIER ;;
                flow_remove STORAGE_KEYS.STATE ;;
                flow_remove STORAGE_KEYS.REDIRECT_URI ;;
                flow_remove STORAGE_KEYS.PRE_AUTH_PATH ;;
                ret (ExchangeOk tokens preAuthPath))
             (fun err =>
                ret (ExchangeError
                       (createAuthError network_error
                          "Failed to exchange authorization code"
                          (CaughtDetails err)))))%js.

(** The token request of the refresh-token grant. *)
Definition refresh_request (provider : ProviderConfig) (refresh : string) : HttpRequest :=
  {| url := tokenEndpoint (endpoints provider);
     method := POST;
     headers := form_headers;
     body := [("grant_type", "refresh_token");
              ("client_id", clientId provider);
              ("refresh_token", refresh);
              ("scope", String.concat " " (scopes provider))] |}.

Definition refreshAccessToken (now : Z) (provider : ProviderConfig)
    (httpClient : HttpClient) : M World (option TokenState) :=
  (let! currentTokens := gets (fun w => getStoredTokens (storage w)) in
   if negb (truthy (currentTokens ≫= refreshToken)) then ret None
   else
     let refresh := nullish (currentTokens ≫= refreshToken) "" in
     try_catch
       (let! response := request httpClient (refresh_request provider refresh) in
        if negb (Z.eqb (status response) 200) then ret None
        else
          let tokens := parseTokenResponse now (data response) in
          modify (set_storage (storeTokens tokens)) ;;
          ret (Some tokens))
       (fun _ => ret None))%js.

End Token.

(* ===================================================================== *)
(** ** oauth/authorize.ts *)
(* ===================================================================== *)

Record PKCEPair : Type := mkPKCEPair {
  codeVerifier : string;
  codeChallenge : string
}.

Definition PKCE_CHALLENGE_METHOD : string := "S256".

(** The values [generatePKCEPair()] and [generateState()] draw from the
    random source in one call of [buildAuthorizationUrl]. *)
Record Entropy : Type := mkEntropy {
  fresh_pkce : PKCEPair;
  fresh_state : string
}.

Inductive Prompt : Type := prompt_login | prompt_consent | prompt_none.

Definition prompt_value (p : Prompt) : string :=
  match p with
  | prompt_login => "login"
  | prompt_consent => "consent"
  | prompt_none => "none"
  end.

Record AuthorizeOptions : Type := mkAuthorizeOptions {
  preservePath : option bool;
  prompt : option Prompt;
  additionalParams : option (list (string * string))
}.

(** [o[key] = value] on a plain object: an own key keeps its place. *)
Fixpoint obj_set (key : string) (value : option string)
    (o : list (string * option string)) : list (string * option string) :=
  match o with
  | [] => [(key, value)]
  | (k, v) :: rest =>
      if String.eqb k key then (k, value) :: rest
      else (k, v) :: obj_set key value rest
  end.

(** [{ ...o, ...src }] for an optional [Record<string, string>]. *)
Definition obj_spread (o : list (string * option string))
    (src : option (list (string * string))) : list (string * option string) :=
  fold_left (fun acc entry => obj_set (fst entry) (Some (snd entry)) acc) (nullish src []) o.

(** [o[key]]. *)
Fixpoint obj_get (key : string) (o : list (string * option string)) : option string :=
  match o with
  | [] => None
  | (k, v) :: rest => if String.eqb k key then v else obj_get key rest
  end.

Section Authorize.

Variable P : Platform.
Variable window : option Location.

Definition authorization_params (entropy : Entropy) (provider : ProviderConfig)
    (options : AuthorizeOptions) : list (string * option string) :=
  obj_spread
    (obj_spread
       [("client_id", Some (clientId provider));
        ("response_type", Some "code");
        ("scope", Some (String.concat " " (scopes provider)));
        ("redirect_uri", Some (redirectUri provider));
        ("code_challenge", Some (codeChallenge (fresh_pkce entropy)));
        ("code_challenge_method", Some PKCE_CHALLENGE_METHOD);
        ("state", Some (fresh_state entropy));
        ("prompt", prompt_value <$> prompt options)]
       (additionalAuthParams provider))
    (additionalParams options).

Definition buildAuthorizationUrl (entropy : Entropy) (provider : ProviderConfig)
    (options : AuthorizeOptions) : M World URL :=
  (let preAuthPath :=
     if nullish (preservePath options) false then Some (getCurrentPath window) else None in
   flow_set STORAGE_KEYS.CODE_VERIFIER (codeVerifier (fresh_pkce entropy)) ;;
   flow_set STORAGE_KEYS.STATE (fresh_state entropy) ;;
   flow_set STORAGE_KEYS.REDIRECT_URI (redirectUri provider) ;;
   (if truthy preAuthPath
    then flow_set STORAGE_KEYS.PRE_AUTH_PATH (nullish preAuthPath "")
    else ret tt) ;;
   buildUrl P (authorizationEndpoint (endpoints provider))
     (authorization_params entropy provider options))%js.

Definition authorize (entropy : Entropy) (provider : ProviderConfig)
    (options : AuthorizeOptions) : M World unit :=
  (let! authUrl := buildAuthorizationUrl entropy provider options in
   if bool_decide (is_Some window)
   then modify (log_navigation (LocationReplace authUrl))
   else ret tt)%js.

Definition getAndClearPreAuthPath : M World string :=
  (let! stored := flow_get STORAGE_KEYS.PRE_AUTH_PATH in
   flow_remove STORAGE_KEYS.PRE_AUTH_PATH ;;
   ret (nullish stored "/"))%js.

End Authorize.

(* ===================================================================== *)
(** ** oauth/logout.ts *)
(* ===================================================================== *)

Record LogoutOptions : Type := mkLogoutOptions {
  redirect : option bool;
  localOnly : option bool
}.

Section Logout.

Variable P : Platform.
Variable window : option Location.

Definition buildLogoutUrl (provider : ProviderConfig) (idToken : option string)
    : M World (option URL) :=
  (if negb (truthy (logoutEndpoint (endpoints provider))) then ret None
   else
     let params :=
       [("post_logout_redirect_uri",
         Some (nullish (postLogoutRedirectUri provider) (getCurrentOrigin window)))] in
     let params :=
       if truthy idToken then obj_set "id_token_hint" idToken params else params in
     let! u := buildUrl P (nullish (logoutEndpoint (endpoints provider)) "") params in
     ret (Some u))%js.

Definition logout (provider : ProviderConfig) (options : LogoutOptions) : M World unit :=
  (let! tokens := gets (fun w => getStoredTokens P (storage w)) in
   let idToken := tokens ≫= idToken in
   modify (set_storage clearTokens) ;;
   if nullish (redirect options) true && negb (nullish (localOnly options) false)
      && bool_decide (is_Some window)
   then
     let! logoutUrl := buildLogoutUrl provider idToken in
     match logoutUrl with
     | Some target => modify (log_navigation (LocationReplace target))
     | None => ret tt
     end
   else ret tt)%js.

End Logout.

(* ===================================================================== *)
(** ** oauth/token.ts: TokenRefreshCoordinator *)
(* ===================================================================== *)

(** The coordinator under overlapping calls.  The event loop is modelled by
    its two kinds of events: a caller invokes [refresh(refreshFn)], and the
    promise of the running [refreshFn()] settles.  On settlement the
    [finally] callback clears [refreshPromise] and the promise that
    [finally] made, the one every overlapping caller was handed, settles the
    same way; these are taken as one step.  A refresh function has the type
    [() => Promise<TokenState | null>]: calling it gives a promise. *)
Module Coordinator.

Inductive settlement : Type :=
  | Fulfilled (value : option TokenState)
  | Rejected (reason : string).

Section WithRefreshFn.

(** The refresh functions callers pass, by identity. *)
Variable F : Type.

(** [refreshPromise] is the field of the class, [null] as [None], a
    promise being named by its index in [promises], the promises made by
    [refreshFn().finally(...)] so far ([None]: pending).  [invoked] logs
    the refresh functions that were called, [handed] the promise each
    call of [refresh] returned, both oldest first. *)
Record t : Type := mk {
  refreshPromise : option nat;
  promises : list (option settlement);
  invoked : list F;
  handed : list nat
}.

(** [new TokenRefreshCoordinator()]. *)
Definition create : t :=
  {| refreshPromise := None; promises := []; invoked := []; handed := [] |}.

Definition refresh (refreshFn : F) (c : t) : t :=
  match refreshPromise c with
  | Some p =>
      (* If refresh is already in progress, wait for it *)
      {| refreshPromise := refreshPromise c;
         promises := promises c;
         invoked := invoked c;
         handed := handed c ++ [p] |}
  | None =>
      (* Start refresh and store promise *)
      let p := length (promises c) in
      {| refreshPromise := Some p;
         promises := promises c ++ [None];
         invoked := invoked c ++ [refreshFn];
         handed := handed c ++ [p] |}
  end.

Definition isRefreshing (c : t) : bool :=
  bool_decide (refreshPromise c ≠ None).

(** The promise of the running refresh function settles. *)
Definition settle (o : settlement) (c : t) : t :=
  match refreshPromise c with
  | Some p =>
      {| refreshPromise := None;
         promises := <[p := Some o]> (promises c);
         invoked := invoked c;
         handed := handed c |}
  | None => c
  end.

Inductive event : Type :=
  | Call (refreshFn : F)
  | Settle (o : settlement).

Definition step (c : t) (e : event) : t :=
  match e with
  | Call refreshFn => refresh refreshFn c
  | Settle o => settle o c
  end.

Definition run (trace : list event) (c : t) : t := fold_left step trace c.

(** What the [k]-th call of [refresh] resolved to, [None] while its
    promise is pending. *)
Definition result_of (c : t) (k : nat) : option settlement :=
  p ← handed c !! k; mjoin (promises c !! p).

(** A refresh is outstanding: some promise of the coordinator is pending. *)
Definition outstanding (c : t) : Prop := None ∈ promises c.

Definition reachable (c : t) : Prop := ∃ trace, c = run trace create.

End WithRefreshFn.

Arguments refreshPromise {F} _.
Arguments promises {F} _.
Arguments invoked {F} _.
Arguments handed {F} _.
Arguments create {F}.
Arguments refresh {F} _ _.
Arguments isRefreshing {F} _.
Arguments settle {F} _ _.
Arguments Call {F} _.
Arguments Settle {F} _.
Arguments step {F} _ _.
Arguments run {F} _ _.
Arguments result_of {F} _ _.
Arguments outstanding {F} _.
Arguments reachable {F} _.

End Coordinator.

(* ===================================================================== *)
(** ** utils/jwt.ts and oauth/client.ts *)
(* ===================================================================== *)

Record AuthState (TJwt TUser : Type) : Type := mkAuthState {
  isAuthenticated : bool;
  isLoading : bool;
  jwt : option TJwt;
  user : option TUser;
  error : option AuthError
}.
Arguments mkAuthState {TJwt TUser} _ _ _ _ _.
Arguments isAuthenticated {TJwt TUser} _.
Arguments isLoading {TJwt TUser} _.
Arguments jwt {TJwt TUser} _.
Arguments user {TJwt TUser} _.
Arguments error {TJwt TUser} _.

(** [Partial<AuthState>]: the keys an update carries. *)
Record AuthStateUpdate (TJwt TUser : Type) : Type := mkAuthStateUpdate {
  upd_isAuthenticated : option bool;
  upd_isLoading : option bool;
  upd_jwt : option (option TJwt);
  upd_user : option (option TUser);
  upd_error : option (option AuthError)
}.
Arguments mkAuthStateUpdate {TJwt TUser} _ _ _ _ _.
Arguments upd_isAuthenticated {TJwt TUser} _.
Arguments upd_isLoading {TJwt TUser} _.
Arguments upd_jwt {TJwt TUser} _.
Arguments upd_user {TJwt TUser} _.
Arguments upd_error {TJwt TUser} _.

(** [{ ...state, ...updates }]. *)
Definition apply_updates {TJwt TUser : Type} (state : AuthState TJwt TUser)
    (updates : AuthStateUpdate TJwt TUser) : AuthState TJwt TUser :=
  {| isAuthenticated := nullish (upd_isAuthenticated updates) (isAuthenticated state);
     isLoading := nullish (upd_isLoading updates) (isLoading state);
     jwt := nullish (upd_jwt updates) (jwt state);
     user := nullish (upd_user updates) (user state);
     error := nullish (upd_error updates) (error state) |}.

(** The configuration of a client, without the storage (the shared objects
    of [World]) and without [httpClient] and [getUser] (oracles of [Env]).
    A callback returns or throws. *)
Record OAuthClientConfig (TJwt TUser : Type) : Type := mkOAuthClientConfig {
  provider : ProviderConfig;
  onAuthStateChange : option (AuthState TJwt TUser -> completion unit);
  onTokenRefresh : option (TokenState -> completion unit);
  onError : option (AuthError -> completion unit)
}.
Arguments mkOAuthClientConfig {TJwt TUser} _ _ _ _.
Arguments provider {TJwt TUser} _.
Arguments onAuthStateChange {TJwt TUser} _.
Arguments onTokenRefresh {TJwt TUser} _.
Arguments onError {TJwt TUser} _.

(** What the surroundings answer during one operation of the client: the
    browser's location, the HTTP client, [getUser] ([None] when the
    configuration has none), the two readings of [Date.now()] (at an expiry
    check, and later when a token response is parsed) and the random values
    of an authorization request. *)
Record Env (TJwt TUser : Type) : Type := mkEnv {
  window : option Location;
  httpClient : HttpClient;
  getUser : option (string -> option TJwt -> completion (option TUser));
  now : Z;
  now_parse : Z;
  entropy : Entropy
}.
Arguments mkEnv {TJwt TUser} _ _ _ _ _ _.
Arguments window {TJwt TUser} _.
Arguments httpClient {TJwt TUser} _.
Arguments getUser {TJwt TUser} _.
Arguments now {TJwt TUser} _.
Arguments now_parse {TJwt TUser} _.
Arguments entropy {TJwt TUser} _.

(** The variables a client closes over.  [listeners] is the [Set] of
    subscribers in insertion order, a listener being identified by a number.
    The three in-flight markers ([initializePromise], [handleCallbackPromise],
    the coordinator's [refreshPromise]) are [null] whenever no operation is
    running, which is when the operations below start. *)
Record Client (TJwt TUser : Type) : Type := mkClient {
  world : World;
  state : AuthState TJwt TUser;
  listeners : list (nat * (AuthState TJwt TUser -> completion unit));
  isInitialized : bool
}.
Arguments mkClient {TJwt TUser} _ _ _ _.
Arguments world {TJwt TUser} _.
Arguments state {TJwt TUser} _.
Arguments listeners {TJwt TUser} _.
Arguments isInitialized {TJwt TUser} _.

(** [optional?.(argument)]. *)
Definition call_optional {A : Type} (callback : option (A -> completion unit)) (a : A)
    : completion unit :=
  match callback with
  | Some f => f a
  | None => Returned tt
  end.

(** [for (const listener of listeners) listener(state)]. *)
Fixpoint call_all {A : Type} (callbacks : list (A -> completion unit)) (a : A)
    : completion unit :=
  match callbacks with
  | [] => Returned tt
  | f :: rest =>
      match f a with
      | Returned _ => call_all rest a
      | Thrown reason => Thrown reason
      end
  end.

Module OAuthClient.

Section ClientOperations.

Context {TJwt TUser : Type}.
Variable P : Platform.
(** [jwtDecode] of the jwt-decode package. *)
Variable jwtDecode : string -> completion TJwt.
Variable config : OAuthClientConfig TJwt TUser.

Abbreviation State := (AuthState TJwt TUser).
Abbreviation Update := (AuthStateUpdate TJwt TUser).
Abbreviation client := (Client TJwt TUser).

Definition decodeJwt (token : string) : option TJwt :=
  match jwtDecode token with
  | Returned payload => Some payload
  | Thrown _ => None
  end.

(** [createOAuthClient(config)] over the given storage. *)
Definition createOAuthClient (s : StorageConfig) : client :=
  {| world := {| storage := s; requests := []; navigation := [] |};
     state := {| isAuthenticated := false; isLoading := true; jwt := None;
                 user := None; error := None |};
     listeners := [];
     isInitialized := false |}.

Definition set_world (f : World -> World) (c : client) : client :=
  {| world := f (world c); state := state c; listeners := listeners c;
     isInitialized := isInitialized c |}.

Definition set_state (f : State -> State) (c : client) : client :=
  {| world := world c; state := f (state c); listeners := listeners c;
     isInitialized := isInitialized c |}.

Definition set_listeners
    (f : list (nat * (State -> completion unit)) -> list (nat * (State -> completion unit)))
    (c : client) : client :=
  {| world := world c; state := state c; listeners := f (listeners c);
     isInitialized := isInitialized c |}.

Definition set_isInitialized (b : bool) (c : client) : client :=
  {| world := world c; state := state c; listeners := listeners c;
     isInitialized := b |}.

(** Code of [token.ts], [authorize.ts] and [logout.ts] run by the client. *)
Definition lift {A : Type} (m : M World A) : M client A :=
  fun c =>
    match m (world c) with
    | (w, result) => (set_world (fun _ => w) c, result)
    end.

Definition no_update : Update :=
  {| upd_isAuthenticated := None; upd_isLoading := None; upd_jwt := None;
     upd_user := None; upd_error := None |}.

(** Helper to update state and notify listeners. *)
Definition setState (updates : Update) : M client unit :=
  (modify (set_state (fun s => apply_updates s updates)) ;;
   let! c := gets (fun c => c) in
   complete (call_all (map snd (listeners c)) (state c)) ;;
   complete (call_optional (onAuthStateChange config) (state c)))%js.

(** Helper to handle errors. *)
Definition handleError (err : AuthError) : M client unit :=
  (setState {| upd_isAuthenticated := None; upd_isLoading := Some false;
               upd_jwt := None; upd_user := None; upd_error := Some (Some err) |} ;;
   complete (call_optional (onError config) err))%js.

Section Operations.

Variable env : Env TJwt TUser.

(** Load user from tokens. *)
Definition loadUserFromTokens (tokens : TokenState) : M client unit :=
  let jwt :=
    if truthy (idToken tokens) then decodeJwt (nullish (idToken tokens) "") else None in
  let user :=
    match getUser env with
    | Some fetch =>
        match fetch (accessToken tokens) jwt with
        | Returned u => u
        | Thrown _ => None   (* User fetch failed, but we still have tokens *)
        end
    | None => None
    end in
  setState {| upd_isAuthenticated := Some true; upd_isLoading := Some false;
              upd_jwt := Some jwt; upd_user := Some user; upd_error := Some None |}.

Definition handleCallback (url : option string) : M client unit :=
  (let! authenticated := gets (fun c => isAuthenticated (state c)) in
   (* Idempotency: if already authenticated, skip *)
   if (authenticated : bool) then ret tt
   else
     setState {| upd_isAuthenticated := None; upd_isLoading := Some true;
                 upd_jwt := None; upd_user := None; upd_error := None |} ;;
     let! result :=
       lift (exchangeCodeForTokens P (window env) (now_parse env)
               (provider config) (httpClient env) url) in
     match result with
     | ExchangeError err => handleError err
     | ExchangeOk tokens preAuthPath =>
         loadUserFromTokens tokens ;;
         (* Redirect to pre-auth path *)
         if bool_decide (is_Some (window env)) then
           let redirectPath :=
             if truthy (Some preAuthPath) then preAuthPath else "/" in
           lift (modify (log_navigation
                   (HistoryReplaceState (getCurrentOrigin (window env) +:+ redirectPath))))
         else ret tt
     end)%js.

(** [refreshCoordinator.refresh(...)] finds no refresh in flight, so it
    runs [refreshAccessToken] and hands back its result. *)
Definition refreshToken : M client bool :=
  (let! tokens :=
     lift (refreshAccessToken P (now_parse env) (provider config) (httpClient env)) in
   match tokens with
   | Some fresh =>
       loadUserFromTokens fresh ;;
       complete (call_optional (onTokenRefresh config) fresh) ;;
       ret true
   | None => ret false
   end)%js.

Definition stop_loading : Update :=
  {| upd_isAuthenticated := None; upd_isLoading := Some false; upd_jwt := None;
     upd_user := None; upd_error := None |}.

Definition initialize : M client unit :=
  (let! initialized := gets isInitialized in
   (* Idempotency: if already initialized, return immediately *)
   if (initialized : bool) then ret tt
   else
     (* Check if this is a callback URL *)
     (if isCallbackUrl P (window env) (redirectUri (provider config)) None
      then handleCallback None
      else
        (* Check for existing tokens *)
        let! tokens := gets (fun c => getStoredTokens P (storage (world c))) in
        match tokens with
        | Some stored =>
            (* Check if access token is expired *)
            if truthyZ (expiresAt stored)
               && Z.ltb (nullish (expiresAt stored) 0) (now env)
            then
              let! refreshed := refreshToken in
              if negb refreshed then
                (* Refresh failed, clear tokens *)
                lift (modify (set_storage clearTokens)) ;;
                setState stop_loading
              else setState stop_loading
            else
              (* Tokens are valid *)
              loadUserFromTokens stored
        | None => setState stop_loading
        end) ;;
     modify (set_isInitialized true))%js.

Definition authorize (options : AuthorizeOptions) : M client unit :=
  lift (authorize P (window env) (entropy env) (provider config) options).

Definition getAccessToken : M client (option string) :=
  (let! tokens := gets (fun c => getStoredTokens P (storage (world c))) in
   match tokens with
   | None => ret None
   | Some stored =>
       (* Check if token is expired or about to expire (within 60 seconds) *)
       let expirationBuffer := 60 * 1000 in
       if truthyZ (expiresAt stored)
          && Z.ltb (nullish (expiresAt stored) 0 - expirationBuffer) (now env)
       then
         let! refreshed := refreshToken in
         if negb refreshed then ret None
         else
           let! newTokens := gets (fun c => getStoredTokens P (storage (world c))) in
           ret (accessToken <$> newTokens)
       else ret (Some (accessToken stored))
   end)%js.

Definition logout (options : LogoutOptions) : M client unit :=
  (lift (logout P (window env) (provider config) options) ;;
   setState {| upd_isAuthenticated := Some false; upd_isLoading := None;
               upd_jwt := Some None; upd_user := Some None;
               upd_error := Some None |})%js.

End Operations.

(** [subscribe(listener)]: a [Set] keeps one copy of a function. *)
Definition subscribe (id : nat) (listener : State -> completion unit) : M client unit :=
  modify (set_listeners (fun ls =>
    if bool_decide (id ∈ map fst ls) then ls else (ls ++ [(id, listener)])%list)).

(** The function [subscribe] returns. *)
Definition unsubscribe (id : nat) : M client unit :=
  modify (set_listeners (filter (fun l => fst l ≠ id))).

(** The public surface: one call of a method of the client. *)
Inductive operation : Type :=
  | Initialize
  | Authorize (options : AuthorizeOptions)
  | HandleCallback (url : option string)
  | RefreshToken
  | GetAccessToken
  | Logout (options : LogoutOptions)
  | Subscribe (id : nat) (listener : State -> completion unit)
  | Unsubscribe (id : nat).

(** The client after the call, whether the call returned or threw. *)
Definition perform (env : Env TJwt TUser) (op : operation) (c : client) : client :=
  match op with
  | Initialize => fst (initialize env c)
  | Authorize options => fst (authorize env options c)
  | HandleCallback url => fst (handleCallback env url c)
  | RefreshToken => fst (refreshToken env c)
  | GetAccessToken => fst (getAccessToken env c)
  | Logout options => fst (logout env options c)
  | Subscribe id listener => fst (subscribe id listener c)
  | Unsubscribe id => fst (unsubscribe id c)
  end.

(** The clients a program can see: a fresh client over some storage, then
    any sequence of calls, each in its own surroundings. *)
Inductive reachable : client -> Prop :=
  | reachable_create (s : StorageConfig) : reachable (createOAuthClient s)
  | reachable_perform (env : Env TJwt TUser) (op : operation) (c : client) :
      reachable c -> reachable (perform env op c).

End ClientOperations.

End OAuthClient.

(* ===================================================================== *)
(** ** utils/jwt.ts: isTokenExpired *)
(* ===================================================================== *)

Section Jwt.

Context {TJwt : Type}.
Variable jwtDecode : string -> completion TJwt.
(** [payload.exp]: the optional expiry claim of a [JwtPayload], in seconds. *)
Variable exp : TJwt -> option Z.



End Jwt.

(* ===================================================================== *)
(** ** storage/session.ts, storage/local.ts and storage/index.ts *)
(* ===================================================================== *)

(** A [Storage] object of the browser ([sessionStorage], [localStorage]):
    its entries; whether the page may touch it (where storage is disabled
    every access throws a [SecurityError]); and whether it takes a write,
    given what it holds (a full storage throws a [QuotaExceededError]). *)
Record WebStorage : Type := mkWebStorage {
  items : gmap string string;
  permitted : bool;
  accepts : gmap string string -> string -> string -> bool
}.

Module Web.

Definition set_items (f : gmap string string -> gmap string string) (st : WebStorage)
    : WebStorage :=
  {| items := f (items st); permitted := permitted st; accepts := accepts st |}.

Definition getItem (key : string) : M WebStorage (option string) :=
  fun st =>
    if permitted st then (st, Returned (items st !! key))
    else (st, Thrown "SecurityError").

Definition setItem (key value : string) : M WebStorage unit :=
  fun st =>
    if negb (permitted st) then (st, Thrown "SecurityError")
    else if accepts st (items st) key value
    then (set_items (insert key value) st, Returned tt)
    else (st, Thrown "QuotaExceededError").

Definition removeItem (key : string) : M WebStorage unit :=
  fun st =>
    if permitted st then (set_items (delete key) st, Returned tt)
    else (st, Thrown "SecurityError").

(** [Object.keys(storage)].  The loop that reads it removes entries, and
    removals commute, so the order of the keys has no effect. *)
Definition keys : M WebStorage (list string) :=
  fun st =>
    if permitted st then (st, Returned (map fst (map_to_list (items st))))
    else (st, Thrown "SecurityError").

End Web.

(** [for (const x of xs) body(x)]. *)
Fixpoint for_of {S A : Type} (xs : list A) (body : A -> M S unit) : M S unit :=
  match xs with
  | [] => ret tt
  | x :: rest => (body x ;; for_of rest body)%js
  end.

Definition DEFAULT_NAMESPACE : string := "@auth-code-pkce".

(** The four methods of a [StorageAdapter], over a state [S]. *)
Record StorageAdapter (S : Type) : Type := mkStorageAdapter {
  adapter_get : string -> M S (option string);
  adapter_set : string -> string -> M S unit;
  adapter_remove : string -> M S unit;
  adapter_clear : M S unit
}.
Arguments mkStorageAdapter {S} _ _ _ _.
Arguments adapter_get {S} _ _.
Arguments adapter_set {S} _ _ _.
Arguments adapter_remove {S} _ _.
Arguments adapter_clear {S} _.

(** The object [createSessionStorageAdapter] and [createLocalStorageAdapter]
    return: [session.ts] and [local.ts] are the same text but for the
    storage object they name, which is the state here. *)
Module NamespacedAdapter.

Section WithNamespace.

Variable namespace : string.

Definition getKey (key : string) : string := namespace +:+ "::" +:+ key.

Definition get (key : string) : M WebStorage (option string) :=
  try_catch (Web.getItem (getKey key)) (fun _ => ret None).

Definition set (key value : string) : M WebStorage unit :=
  try_catch (Web.setItem (getKey key) value)
    (fun _ => ret tt (* Storage may be full or disabled *)).

Definition remove (key : string) : M WebStorage unit :=
  try_catch (Web.removeItem (getKey key)) (fun _ => ret tt (* Ignore errors *)).

Definition clear : M WebStorage unit :=
  try_catch
    (let prefix := namespace +:+ "::" in
     let! keys := Web.keys in
     for_of keys
       (fun key => if String.prefix prefix key then Web.removeItem key else ret tt))%js
    (fun _ => ret tt (* Ignore errors *)).

Definition adapter : StorageAdapter WebStorage :=
  {| adapter_get := get; adapter_set := set; adapter_remove := remove;
     adapter_clear := clear |}.

End WithNamespace.

End NamespacedAdapter.

(** The two storages of a page. *)
Record Browser : Type := mkBrowser {
  sessionStorage : WebStorage;
  localStorage : WebStorage
}.

Definition on_sessionStorage {A : Type} (m : M WebStorage A) : M Browser A :=
  fun b =>
    match m (sessionStorage b) with
    | (st, result) => ({| sessionStorage := st; localStorage := localStorage b |}, result)
    end.

Definition on_localStorage {A : Type} (m : M WebStorage A) : M Browser A :=
  fun b =>
    match m (localStorage b) with
    | (st, result) => ({| sessionStorage := sessionStorage b; localStorage := st |}, result)
    end.

Definition createSessionStorageAdapter (namespace : option string) : StorageAdapter Browser :=
  let namespace := nullish namespace DEFAULT_NAMESPACE in
  {| adapter_get := fun key => on_sessionStorage (NamespacedAdapter.get namespace key);
     adapter_set :=
       fun key value => on_sessionStorage (NamespacedAdapter.set namespace key value);
     adapter_remove := fun key => on_sessionStorage (NamespacedAdapter.remove namespace key);
     adapter_clear := on_sessionStorage (NamespacedAdapter.clear namespace) |}.

Definition createLocalStorageAdapter (namespace : option string) : StorageAdapter Browser :=
  let namespace := nullish namespace DEFAULT_NAMESPACE in
  {| adapter_get := fun key => on_localStorage (NamespacedAdapter.get namespace key);
     adapter_set :=
       fun key value => on_localStorage (NamespacedAdapter.set namespace key value);
     adapter_remove := fun key => on_localStorage (NamespacedAdapter.remove namespace key);
     adapter_clear := on_localStorage (NamespacedAdapter.clear namespace) |}.

(** [createDefaultStorageConfig()]: tokens in [sessionStorage], the flow
    state in [localStorage]. *)
Record AdapterConfig : Type := mkAdapterConfig {
  tokenAdapter : StorageAdapter Browser;
  flowAdapter : StorageAdapter Browser
}.

Definition createDefaultStorageConfig : AdapterConfig :=
  {| tokenAdapter := createSessionStorageAdapter None;
     flowAdapter := createLocalStorageAdapter None |}.

(* ===================================================================== *)
(** ** providers: keycloak.ts, auth0.ts, okta.ts, authentik.ts, generic.ts *)
(* ===================================================================== *)

(** [s.replace(/\/$/, "")]: a slash that ends the string is removed. *)
Fixpoint replace_trailing_slash (s : string) : string :=
  match s with
  | EmptyString => EmptyString
  | String c rest =>
      if Ascii.eqb c "/" && String.eqb rest "" then EmptyString
      else String c (replace_trailing_slash rest)
  end.

(** [s.replace(/\/[^/]+$/, "")]: the first slash that is followed, up to
    the end of the string, by one or more characters other than slashes is
    removed together with them. *)
Fixpoint replace_last_segment (s : string) : string :=
  match s with
  | EmptyString => EmptyString
  | String c rest =>
      if Ascii.eqb c "/" && negb (String.eqb rest "") && negb (includes "/" rest)
      then EmptyString
      else String c (replace_last_segment rest)
  end.

Module ProviderPresetConfig.

Record t : Type := mk {
  issuer : string;
  clientId : string;
  redirectUri : string;
  scopes : option (list string);
  postLogoutRedirectUri : option string
}.

End ProviderPresetConfig.

(** Each preset file has the same [DEFAULT_SCOPES]. *)
Definition DEFAULT_SCOPES : list string := ["openid"; "profile"; "email"; "offline_access"].

Definition keycloak (config : ProviderPresetConfig.t) : ProviderConfig :=
  (* Normalize issuer URL *)
  let normalizedIssuer := replace_trailing_slash (ProviderPresetConfig.issuer config) in
  {| issuer := normalizedIssuer;
     clientId := ProviderPresetConfig.clientId config;
     redirectUri := ProviderPresetConfig.redirectUri config;
     scopes := nullish (ProviderPresetConfig.scopes config) DEFAULT_SCOPES;
     postLogoutRedirectUri := ProviderPresetConfig.postLogoutRedirectUri config;
     endpoints :=
       {| authorizationEndpoint := normalizedIssuer +:+ "/protocol/openid-connect/auth";
          tokenEndpoint := normalizedIssuer +:+ "/protocol/openid-connect/token";
          logoutEndpoint := Some (normalizedIssuer +:+ "/protocol/openid-connect/logout");
          userInfoEndpoint := Some (normalizedIssuer +:+ "/protocol/openid-connect/userinfo");
          revocationEndpoint :=
            Some (normalizedIssuer +:+ "/protocol/openid-connect/revoke") |};
     additionalAuthParams := None |}.

Definition auth0 (config : ProviderPresetConfig.t) : ProviderConfig :=
  (* Normalize issuer URL *)
  let normalizedIssuer := replace_trailing_slash (ProviderPresetConfig.issuer config) in
  {| issuer := normalizedIssuer;
     clientId := ProviderPresetConfig.clientId config;
     redirectUri := ProviderPresetConfig.redirectUri config;
     scopes := nullish (ProviderPresetConfig.scopes config) DEFAULT_SCOPES;
     postLogoutRedirectUri := ProviderPresetConfig.postLogoutRedirectUri config;
     endpoints :=
       {| authorizationEndpoint := normalizedIssuer +:+ "/authorize";
          tokenEndpoint := normalizedIssuer +:+ "/oauth/token";
          logoutEndpoint := Some (normalizedIssuer +:+ "/v2/logout");
          userInfoEndpoint := Some (normalizedIssuer +:+ "/userinfo");
          revocationEndpoint := Some (normalizedIssuer +:+ "/oauth/revoke") |};
     (* Auth0 uses returnTo instead of post_logout_redirect_uri *)
     additionalAuthParams :=
       if truthy (ProviderPresetConfig.postLogoutRedirectUri config) then None else None |}.

Definition okta (config : ProviderPresetConfig.t) : ProviderConfig :=
  (* Normalize issuer URL *)
  let normalizedIssuer := replace_trailing_slash (ProviderPresetConfig.issuer config) in
  (* Check if custom authorization server is specified *)
  let hasCustomAuthServer := includes "/oauth2/" normalizedIssuer in
  (* Build base URL for endpoints *)
  let baseUrl :=
    if hasCustomAuthServer then normalizedIssuer
    else normalizedIssuer +:+ "/oauth2/default" in
  {| issuer := normalizedIssuer;
     clientId := ProviderPresetConfig.clientId config;
     redirectUri := ProviderPresetConfig.redirectUri config;
     scopes := nullish (ProviderPresetConfig.scopes config) DEFAULT_SCOPES;
     postLogoutRedirectUri := ProviderPresetConfig.postLogoutRedirectUri config;
     endpoints :=
       {| authorizationEndpoint := baseUrl +:+ "/v1/authorize";
          tokenEndpoint := baseUrl +:+ "/v1/token";
          logoutEndpoint := Some (baseUrl +:+ "/v1/logout");
          userInfoEndpoint := Some (baseUrl +:+ "/v1/userinfo");
          revocationEndpoint := Some (baseUrl +:+ "/v1/revoke") |};
     additionalAuthParams := None |}.

Definition authentik (config : ProviderPresetConfig.t) : ProviderConfig :=
  (* Normalize issuer URL (e.g., http://localhost:9024/application/o/my-app) *)
  let normalizedIssuer := replace_trailing_slash (ProviderPresetConfig.issuer config) in
  (* Authentik uses global endpoints for auth/token but per-app for end-session *)
  let baseUrl := replace_last_segment normalizedIssuer in
  {| issuer := normalizedIssuer;
     clientId := ProviderPresetConfig.clientId config;
     redirectUri := ProviderPresetConfig.redirectUri config;
     scopes := nullish (ProviderPresetConfig.scopes config) DEFAULT_SCOPES;
     postLogoutRedirectUri := ProviderPresetConfig.postLogoutRedirectUri config;
     endpoints :=
       {| (* Global endpoints (not per-application) *)
          authorizationEndpoint := baseUrl +:+ "/authorize/";
          tokenEndpoint := baseUrl +:+ "/token/";
          userInfoEndpoint := Some (baseUrl +:+ "/userinfo/");
          revocationEndpoint := Some (baseUrl +:+ "/revoke/");
          (* Per-application endpoint *)
          logoutEndpoint := Some (normalizedIssuer +:+ "/end-session/") |};
     additionalAuthParams := None |}.

(** Generic provider: the configuration is passed through. *)
Definition generic (config : ProviderConfig) : ProviderConfig := config.

(* ===================================================================== *)
(** ** e2e/mock-server: MockOAuthServer *)
(* ===================================================================== *)

(** The authorization server of the end-to-end tests, by its two handlers
    of the authorization-code grant.  A handler takes the request and the
    server and gives the server afterwards and the response it wrote.  The
    readings of [Date.now()] within one call are taken to be one value, and
    [randomBytes(32).toString('hex')] is an input. *)
Module MockOAuthServer.

(** [a || b] on strings. *)
Definition or_else (a : option string) (b : string) : string :=
  if truthy a then nullish a "" else b.

(** [a || undefined]. *)
Definition or_undefined (a : option string) : option string :=
  if truthy a then a else None.

Module AuthCode.

Record t : Type := mk {
  code : string;
  codeChallenge : string;
  codeChallengeMethod : string;
  redirectUri : string;
  clientId : string;
  scope : string;
  nonce : option string;
  state : option string;
  userId : string;
  createdAt : Z;
  used : bool
}.

(** [authCode.used = true]. *)
Definition set_used (a : t) : t :=
  {| code := code a; codeChallenge := codeChallenge a;
     codeChallengeMethod := codeChallengeMethod a; redirectUri := redirectUri a;
     clientId := clientId a; scope := scope a; nonce := nonce a; state := state a;
     userId := userId a; createdAt := createdAt a; used := true |}.

End AuthCode.

Module RefreshToken.

Record t : Type := mk {
  token : string;
  userId : string;
  clientId : string;
  scope : string;
  createdAt : Z;
  expiresAt : Z
}.

End RefreshToken.

Record User : Type := mkUser {
  user_sub : string;
  user_name : string;
  user_email : string;
  email_verified : bool
}.

(** The [users] map of the class. *)
Definition users (id : string) : option User :=
  if String.eqb id "user-123" then
    Some {| user_sub := "user-123"; user_name := "Test User";
            user_email := "test@example.com"; email_verified := true |}
  else if String.eqb id "user-456" then
    Some {| user_sub := "user-456"; user_name := "Admin User";
            user_email := "admin@example.com"; email_verified := true |}
  else None.

(** The payload handed to [createJwt]; a key that is [undefined] is [None]. *)
Record Claims : Type := mkClaims {
  claim_sub : string;
  claim_iss : string;
  claim_aud : string;
  claim_iat : Z;
  claim_exp : Z;
  claim_scope : option string;
  claim_nonce : option string;
  claim_email : option string;
  claim_name : option string
}.

Record t : Type := mk {
  port : Z;
  issuer : string;
  accessTokenTtl : Z;
  refreshTokenTtl : Z;
  autoApprove : bool;
  authCodes : gmap string AuthCode.t;
  refreshTokens : gmap string RefreshToken.t
}.

Definition set_authCodes (f : gmap string AuthCode.t -> gmap string AuthCode.t) (s : t) : t :=
  {| port := port s; issuer := issuer s; accessTokenTtl := accessTokenTtl s;
     refreshTokenTtl := refreshTokenTtl s; autoApprove := autoApprove s;
     authCodes := f (authCodes s); refreshTokens := refreshTokens s |}.

Definition set_refreshTokens
    (f : gmap string RefreshToken.t -> gmap string RefreshToken.t) (s : t) : t :=
  {| port := port s; issuer := issuer s; accessTokenTtl := accessTokenTtl s;
     refreshTokenTtl := refreshTokenTtl s; autoApprove := autoApprove s;
     authCodes := authCodes s; refreshTokens := f (refreshTokens s) |}.

(** What a handler wrote: the status, the [Location] header, the body. *)
Inductive Body : Type :=
  | NoBody
  | ErrorBody (error error_description : string)
  | TokenBody (response : TokenResponse)
  | LoginForm (hidden_inputs : list (string * string)).

Record Response : Type := mkResponse {
  status : Z;
  location : option URL;
  body : Body
}.

Definition bad_request (error error_description : string) : Response :=
  {| status := 400; location := None; body := ErrorBody error error_description |}.

Section Handlers.

Variable P : Platform.
(** [createHash('sha256').update(text).digest('base64url')]. *)
Variable sha256_base64url : string -> string.
(** [createJwt(payload)]. *)
Variable createJwt : Claims -> string.

(** [handleAuthorize]: [params] are [url.searchParams], [fresh] the code
    drawn when the request is approved. *)
Definition handleAuthorize (params : list (string * string)) (fresh : string)
    (date_now : Z) : M t Response :=
  let clientId := searchParams_get "client_id" params in
  let redirectUri := searchParams_get "redirect_uri" params in
  let responseType := searchParams_get "response_type" params in
  let scope := or_else (searchParams_get "scope" params) "openid" in
  let state := searchParams_get "state" params in
  let codeChallenge := searchParams_get "code_challenge" params in
  let codeChallengeMethod :=
    or_else (searchParams_get "code_challenge_method" params) "plain" in
  let nonce := searchParams_get "nonce" params in
  (* Validate required params *)
  if negb (truthy clientId) || negb (truthy redirectUri)
     || negb (bool_decide (responseType = Some "code"))
  then ret (bad_request "invalid_request" "Missing required parameters")
  (* Validate PKCE (required for public clients) *)
  else if negb (truthy codeChallenge)
  then ret (bad_request "invalid_request" "code_challenge required for public clients")
  else if negb (String.eqb codeChallengeMethod "S256")
          && negb (String.eqb codeChallengeMethod "plain")
  then ret (bad_request "invalid_request" "Invalid code_challenge_method")
  else
    (let! autoApprove := gets autoApprove in
     (* Auto-approve and generate authorization code *)
     if (autoApprove : bool) then
       let code := fresh in
       let userId := "user-123" in
       let authCode :=
         {| AuthCode.code := code;
            AuthCode.codeChallenge := nullish codeChallenge "";
            AuthCode.codeChallengeMethod := codeChallengeMethod;
            AuthCode.redirectUri := nullish redirectUri "";
            AuthCode.clientId := nullish clientId "";
            AuthCode.scope := scope;
            AuthCode.nonce := or_undefined nonce;
            AuthCode.state := or_undefined state;
            AuthCode.userId := userId;
            AuthCode.createdAt := date_now;
            AuthCode.used := false |} in
       modify (set_authCodes (insert code authCode)) ;;
       (* Redirect with code *)
       match URL_new P (nullish redirectUri "") None with
       | None => throw "TypeError: Invalid URL"
       | Some redirectUrl =>
           let query := searchParams_set "code" code (searchParams redirectUrl) in
           let query :=
             if truthy state then searchParams_set "state" (nullish state "") query
             else query in
           ret {| status := 302;
                  location :=
                    Some {| origin := origin redirectUrl;
                            pathname := pathname redirectUrl;
                            searchParams := query |};
                  body := NoBody |}
       end
     else
       (* Return a simple HTML login form *)
       ret {| status := 200;
              location := None;
              body :=
                LoginForm
                  [("client_id", nullish clientId "");
                   ("redirect_uri", nullish redirectUri "");
                   ("scope", scope);
                   ("state", or_else state "");
                   ("code_challenge", nullish codeChallenge "");
                   ("code_challenge_method", codeChallengeMethod);
                   ("nonce", or_else nonce "")] |})%js.

(** [handleAuthCodeExchange]: [params] are the parameters of the request
    body, [fresh] the refresh token drawn when one is issued. *)
Definition handleAuthCodeExchange (params : list (string * string)) (fresh : string)
    (date_now : Z) : M t Response :=
  let code := searchParams_get "code" params in
  let redirectUri := searchParams_get "redirect_uri" params in
  let clientId := searchParams_get "client_id" params in
  let codeVerifier := searchParams_get "code_verifier" params in
  if negb (truthy code) || negb (truthy redirectUri) || negb (truthy clientId)
     || negb (truthy codeVerifier)
  then ret (bad_request "invalid_request" "Missing required parameters")
  else
    let code := nullish code "" in
    let redirectUri := nullish redirectUri "" in
    let clientId := nullish clientId "" in
    let codeVerifier := nullish codeVerifier "" in
    (let! found := gets (fun s => authCodes s !! code) in
     match found with
     | None => ret (bad_request "invalid_grant" "Authorization code not found")
     | Some authCode =>
         (* Check if code was already used (replay attack prevention) *)
         if AuthCode.used authCode
         then ret (bad_request "invalid_grant" "Authorization code already used")
         (* Validate redirect_uri *)
         else if negb (String.eqb (AuthCode.redirectUri authCode) redirectUri)
         then ret (bad_request "invalid_grant" "redirect_uri mismatch")
         (* Validate client_id *)
         else if negb (String.eqb (AuthCode.clientId authCode) clientId)
         then ret (bad_request "invalid_grant" "client_id mismatch")
         else
           (* Validate PKCE code_verifier *)
           let calculatedChallenge :=
             if String.eqb (AuthCode.codeChallengeMethod authCode) "S256"
             then sha256_base64url codeVerifier
             else codeVerifier in
           if negb (String.eqb calculatedChallenge (AuthCode.codeChallenge authCode))
           then ret (bad_request "invalid_grant" "PKCE verification failed")
           (* Check code expiration (5 minutes) *)
           else if Z.ltb (5 * 60 * 1000) (date_now - AuthCode.createdAt authCode)
           then ret (bad_request "invalid_grant" "Authorization code expired")
           else
             (* Mark code as used *)
             modify (set_authCodes (insert code (AuthCode.set_used authCode))) ;;
             (* Generate tokens *)
             let! server := gets (fun s => s) in
             let now := date_now / 1000 in
             let user := users (AuthCode.userId authCode) in
             let accessToken :=
               createJwt
                 {| claim_sub := AuthCode.userId authCode;
                    claim_iss := issuer server;
                    claim_aud := clientId;
                    claim_iat := now;
                    claim_exp := now + accessTokenTtl server;
                    claim_scope := Some (AuthCode.scope authCode);
                    claim_nonce := None;
                    claim_email := None;
                    claim_name := None |} in
             let idToken :=
               createJwt
                 {| claim_sub := AuthCode.userId authCode;
                    claim_iss := issuer server;
                    claim_aud := clientId;
                    claim_iat := now;
                    claim_exp := now + accessTokenTtl server;
                    claim_scope := None;
                    claim_nonce := AuthCode.nonce authCode;
                    claim_email := user_email <$> user;
                    claim_name := user_name <$> user |} in
             (* Create refresh token if offline_access scope requested *)
             let refreshToken :=
               if includes "offline_access" (AuthCode.scope authCode)
               then Some fresh else None in
             match refreshToken with
             | Some issued =>
                 modify (set_refreshTokens
                   (insert issued
                      {| RefreshToken.token := issued;
                         RefreshToken.userId := AuthCode.userId authCode;
                         RefreshToken.clientId := clientId;
                         RefreshToken.scope := AuthCode.scope authCode;
                         RefreshToken.createdAt := date_now;
                         RefreshToken.expiresAt :=
                           date_now + refreshTokenTtl server * 1000 |}))
             | None => ret tt
             end ;;
             ret {| status := 200;
                    location := None;
                    body :=
                      TokenBody
                        {| access_token := accessToken;
                           token_type := "Bearer";
                           expires_in := Some (accessTokenTtl server);
                           id_token := Some idToken;
                           scope := Some (AuthCode.scope authCode);
                           refresh_token :=
                             if truthy refreshToken then refreshToken else None |} |}
     end)%js.

End Handlers.

End MockOAuthServer.

(* ===================================================================== *)
(** ** A platform for the examples *)
(* ===================================================================== *)

(** The built-ins on the values the examples below use: the URLs of the
    repository's tests as the URL parser reads them, a JSON printer and
    reader for token states, and a decoder for two ID tokens. *)
Module Mock.

Definition quote : string := String (ascii_of_nat 34) "".
Definition backslash : ascii := ascii_of_nat 92.

Fixpoint escape (s : string) : string :=
  match s with
  | EmptyString => ""
  | String c rest =>
      if Ascii.eqb c (ascii_of_nat 34) || Ascii.eqb c backslash
      then String backslash (String c (escape rest))
      else String c (escape rest)
  end.

Definition json_string (s : string) : string := quote +:+ escape s +:+ quote.

Definition json_nullable (o : option string) : string :=
  match o with
  | Some text => text
  | None => "null"
  end.

Definition JSON_stringify (t : TokenState) : string :=
  "{" +:+ json_string "accessToken" +:+ ":" +:+ json_string (accessToken t)
  +:+ "," +:+ json_string "refreshToken" +:+ ":"
  +:+ json_nullable (json_string <$> refreshToken t)
  +:+ "," +:+ json_string "idToken" +:+ ":" +:+ json_nullable (json_string <$> idToken t)
  +:+ "," +:+ json_string "expiresAt" +:+ ":"
  +:+ json_nullable ((fun n : Z => pretty n) <$> expiresAt t)
  +:+ "," +:+ json_string "scope" +:+ ":" +:+ json_nullable (json_string <$> tokenScope t)
  +:+ "}".

(** [expect prefix s]: [s] without its prefix. *)
Fixpoint expect (prefix s : string) : option string :=
  match prefix, s with
  | EmptyString, _ => Some s
  | String p prefix', String c s' => if Ascii.eqb p c then expect prefix' s' else None
  | String _ _, EmptyString => None
  end.

(** The characters of a string literal after its opening quote. *)
Fixpoint read_chars (s : string) : option (string * string) :=
  match s with
  | EmptyString => None
  | String c rest =>
      if Ascii.eqb c (ascii_of_nat 34) then Some ("", rest)
      else if Ascii.eqb c backslash then
        match rest with
        | String c' rest' =>
            match read_chars rest' with
            | Some (text, after) => Some (String c' text, after)
            | None => None
            end
        | EmptyString => None
        end
      else
        match read_chars rest with
        | Some (text, after) => Some (String c text, after)
        | None => None
        end
  end.

Definition read_string (s : string) : option (string * string) :=
  rest ← expect quote s; read_chars rest.

Definition read_nullable_string (s : string) : option (option string * string) :=
  match expect "null" s with
  | Some rest => Some (None, rest)
  | None => '(text, rest) ← read_string s; Some (Some text, rest)
  end.

Fixpoint read_digits (acc : Z) (seen : bool) (s : string) : option (Z * string) :=
  match s with
  | String c rest =>
      let d := Z.of_N (N_of_ascii c) - 48 in
      if Z.leb 0 d && Z.leb d 9 then read_digits (10 * acc + d) true rest
      else if seen then Some (acc, s) else None
  | EmptyString => if seen then Some (acc, s) else None
  end.

Definition read_nullable_number (s : string) : option (option Z * string) :=
  match expect "null" s with
  | Some rest => Some (None, rest)
  | None =>
      match expect "-" s with
      | Some rest => '(n, rest') ← read_digits 0 false rest; Some (Some (- n), rest')
      | None => '(n, rest) ← read_digits 0 false s; Some (Some n, rest)
      end
  end.

Definition key (name : string) : string := json_string name +:+ ":".

Definition JSON_parse (s : string) : option TokenState :=
  s ← expect ("{" +:+ key "accessToken") s;
  '(access, s) ← read_string s;
  s ← expect ("," +:+ key "refreshToken") s;
  '(refresh, s) ← read_nullable_string s;
  s ← expect ("," +:+ key "idToken") s;
  '(id, s) ← read_nullable_string s;
  s ← expect ("," +:+ key "expiresAt") s;
  '(expires, s) ← read_nullable_number s;
  s ← expect ("," +:+ key "scope") s;
  '(granted, s) ← read_nullable_string s;
  if String.eqb s "}"
  then Some {| accessToken := access; refreshToken := refresh; idToken := id;
               expiresAt := expires; tokenScope := granted |}
  else None.

Definition callback_url (query : list (string * string)) : URL :=
  {| origin := "http://localhost:3000"; pathname := "/callback"; searchParams := query |}.

Definition urls : list (string * URL) :=
  [ ("http://localhost:3000/callback?code=auth-code-123&state=test-state",
     callback_url [("code", "auth-code-123"); ("state", "test-state")]);
    ("http://localhost:3000/callback?error=&code=auth-code-123&state=test-state",
     callback_url [("error", ""); ("code", "auth-code-123"); ("state", "test-state")]);
    ("http://localhost:3000/callback?error=access_denied&code=auth-code-123&state=other-state",
     callback_url [("error", "access_denied"); ("code", "auth-code-123");
                   ("state", "other-state")]);
    ("http://localhost:3000/callback?error=access_denied&error_description=User%20denied",
     callback_url [("error", "access_denied"); ("error_description", "User denied")]);
    ("http://localhost:3000/callback?state=test-state",
     callback_url [("state", "test-state")]);
    ("http://localhost:3000/callback", callback_url []);
    ("http://localhost:3000/dashboard",
     {| origin := "http://localhost:3000"; pathname := "/dashboard"; searchParams := [] |});
    ("https://auth.example.com/authorize",
     {| origin := "https://auth.example.com"; pathname := "/authorize"; searchParams := [] |});
    ("https://auth.example.com/logout",
     {| origin := "https://auth.example.com"; pathname := "/logout"; searchParams := [] |}) ].

Fixpoint lookup_url (u : string) (table : list (string * URL)) : option URL :=
  match table with
  | [] => None
  | (text, parsed) :: rest => if String.eqb text u then Some parsed else lookup_url u rest
  end.

(** Every URL of the table is absolute, so a base is not consulted. *)
Definition URL_new (u : string) (base : option string) : option URL := lookup_url u urls.

Definition platform : Platform :=
  mkPlatform URL_new JSON_stringify JSON_parse.

(** [jwtDecode] on the ID token of the examples; a payload is read as its
    [sub] claim. *)
Definition jwtDecode (token : string) : completion string :=
  if String.eqb token "mock-id-token" then Returned "user-123"
  else Thrown "InvalidTokenError".

End Mock.

(* ===================================================================== *)
(** ** The values of the repository's tests *)
(* ===================================================================== *)

Module Fixture.

(** [mockProvider] of [token.test.ts]. *)
Definition mockProvider : ProviderConfig :=
  {| issuer := "https://auth.example.com";
     clientId := "test-client-id";
     redirectUri := "http://localhost:3000/callback";
     scopes := ["openid"; "profile"; "email"];
     endpoints :=
       {| authorizationEndpoint := "https://auth.example.com/authorize";
          tokenEndpoint := "https://auth.example.com/token";
          logoutEndpoint := None;
          userInfoEndpoint := None;
          revocationEndpoint := None |};
     postLogoutRedirectUri := None;
     additionalAuthParams := None |}.

(** [mockWindowLocation] at the callback URL of [token.test.ts]. *)
Definition callback_href : string :=
  "http://localhost:3000/callback?code=auth-code-123&state=test-state".

Definition at_callback : option Location :=
  Some {| href := callback_href;
          location_origin := "http://localhost:3000";
          location_pathname := "/callback";
          location_search := "?code=auth-code-123&state=test-state";
          location_hash := "" |}.

(** [mockTokenResponse] of [__mocks__/http.ts], the ID token shortened. *)
Definition mockTokenResponse : TokenResponse :=
  {| access_token := "mock-access-token";
     token_type := "Bearer";
     expires_in := Some 3600;
     refresh_token := Some "mock-refresh-token";
     id_token := Some "mock-id-token";
     scope := Some "openid profile email" |}.

(** [createMockHttpClient] answering every request with [response]. *)
Definition answering (st : Z) (response : TokenResponse) : HttpClient :=
  fun _ => Resolves {| status := st; data := response |}.

(** An HTTP client whose promise is rejected. *)
Definition rejecting : HttpClient := fun _ => Rejects "Network error".

(** The body of an error response, at the type the engine reads it. *)
Definition error_body : TokenResponse :=
  {| access_token := ""; token_type := ""; expires_in := None; refresh_token := None;
     id_token := None; scope := None |}.

(** Flow storage as [buildAuthorizationUrl] leaves it before the redirect. *)
Definition flow_ready : World :=
  {| storage :=
       {| tokenStorage := ∅;
          flowStorage :=
            <[STORAGE_KEYS.CODE_VERIFIER := "test-verifier"]>
              (<[STORAGE_KEYS.STATE := "test-state"]> ∅) |};
     requests := [];
     navigation := [] |}.

(** The same with a stored state that is not the one of the callback. *)
Definition flow_other_state : World :=
  {| storage :=
       {| tokenStorage := ∅;
          flowStorage :=
            <[STORAGE_KEYS.CODE_VERIFIER := "test-verifier"]>
              (<[STORAGE_KEYS.STATE := "different-state"]> ∅) |};
     requests := [];
     navigation := [] |}.

(** The clock of the examples. *)
Definition today : Z := 1700000000000.

(** An empty storage and the values one call draws from the random source. *)
Definition fresh_world : World :=
  {| storage := createMemoryStorageConfig; requests := []; navigation := [] |}.

Definition drawn : Entropy :=
  {| fresh_pkce :=
       {| codeVerifier := "AQIDBAUGBwgJCgsMDQ4PEBESExQVFhcYGRobHB0eHyA";
          codeChallenge := "challenge-of-the-verifier" |};
     fresh_state := "generated-state" |}.

(** [authorize.test.ts]: provider-level and call-level additional
    parameters. *)
Definition provider_with_audience : ProviderConfig :=
  {| issuer := issuer mockProvider;
     clientId := clientId mockProvider;
     redirectUri := redirectUri mockProvider;
     scopes := scopes mockProvider;
     endpoints := endpoints mockProvider;
     postLogoutRedirectUri := None;
     additionalAuthParams := Some [("audience", "https://api.example.com")] |}.

Definition options_with_hints : AuthorizeOptions :=
  {| preservePath := None;
     prompt := Some prompt_login;
     additionalParams := Some [("acr_values", "mfa"); ("login_hint", "user@example.com")] |}.

(** Call-level additional parameters that name [state] and [response_type]. *)
Definition options_naming_state : AuthorizeOptions :=
  {| preservePath := None;
     prompt := None;
     additionalParams := Some [("state", "chosen-by-caller"); ("response_type", "token")] |}.

(** A client configuration without callbacks; JWT payloads and users are
    strings in the examples. *)
Definition config : OAuthClientConfig string string :=
  {| provider := mockProvider; onAuthStateChange := None; onTokenRefresh := None;
     onError := None |}.

(** The surroundings of a call: the page at [window], [http] answering. *)
Definition surroundings (location : option Location) (http : HttpClient)
    : Env string string :=
  {| window := location; httpClient := http; getUser := None;
     now := today; now_parse := today + 200; entropy := drawn |}.

(** A token response without an ID token. *)
Definition response_without_id_token : TokenResponse :=
  {| access_token := "mock-access-token"; token_type := "Bearer";
     expires_in := Some 3600; refresh_token := Some "mock-refresh-token";
     id_token := None; scope := Some "openid profile email" |}.

(** A token response whose [expires_in] is zero. *)
Definition response_expiring_at_once : TokenResponse :=
  {| access_token := "mock-access-token"; token_type := "Bearer";
     expires_in := Some 0; refresh_token := None; id_token := None; scope := None |}.

(** A token response whose [expires_in] is negative. *)
Definition response_already_expired : TokenResponse :=
  {| access_token := "mock-access-token"; token_type := "Bearer";
     expires_in := Some (-5); refresh_token := Some "mock-refresh-token";
     id_token := None; scope := None |}.

(** [client.test.ts]: stored tokens that expired a second ago, with a
    refresh token. *)
Definition expired_tokens : TokenState :=
  {| accessToken := "old-access"; refreshToken := Some "refresh-token"; idToken := None;
     expiresAt := Some (today - 1000); tokenScope := None |}.

Definition storage_with_expired_tokens : StorageConfig :=
  storeTokens Mock.platform expired_tokens createMemoryStorageConfig.

(** [logout.test.ts]: a provider with a logout endpoint, and stored tokens
    that carry an ID token. *)
Definition provider_with_logout : ProviderConfig :=
  {| issuer := issuer mockProvider;
     clientId := clientId mockProvider;
     redirectUri := redirectUri mockProvider;
     scopes := scopes mockProvider;
     endpoints :=
       {| authorizationEndpoint := "https://auth.example.com/authorize";
          tokenEndpoint := "https://auth.example.com/token";
          logoutEndpoint := Some "https://auth.example.com/logout";
          userInfoEndpoint := None;
          revocationEndpoint := None |};
     postLogoutRedirectUri := Some "http://localhost:3000";
     additionalAuthParams := None |}.

Definition config_with_logout : OAuthClientConfig string string :=
  {| provider := provider_with_logout; onAuthStateChange := None;
     onTokenRefresh := None; onError := None |}.

Definition tokens_with_id_token : TokenState :=
  {| accessToken := "access"; refreshToken := Some "refresh-token";
     idToken := Some "mock-id-token"; expiresAt := None; tokenScope := None |}.

Definition at_dashboard : option Location :=
  Some {| href := "http://localhost:3000/dashboard";
          location_origin := "http://localhost:3000";
          location_pathname := "/dashboard";
          location_search := "";
          location_hash := "" |}.

Definition default_logout : LogoutOptions := {| redirect := None; localOnly := None |}.

(** A subscriber that throws. *)
Definition failing_listener : AuthState string string -> completion unit :=
  fun _ => Thrown "listener failed".

(** Flow storage after [authorize] with [preservePath] from the page
    [/dashboard?tab=settings]. *)
Definition flow_with_path : World :=
  set_storage
    (set_flowStorage (Storage.set STORAGE_KEYS.PRE_AUTH_PATH "/dashboard?tab=settings"))
    flow_ready.

(** The world after the first, successful exchange of [token.test.ts]. *)
Definition exchanged_once : World :=
  fst (exchangeCodeForTokens Mock.platform at_callback today mockProvider
         (answering 200 mockTokenResponse) None flow_ready).

(** The random values of a test whose callback URL carries the state
    [test-state]. *)
Definition drawn_for_callback : Entropy :=
  {| fresh_pkce := {| codeVerifier := "test-verifier"; codeChallenge := "test-challenge" |};
     fresh_state := "test-state" |}.

Definition options_preserving_path : AuthorizeOptions :=
  {| preservePath := Some true; prompt := None; additionalParams := None |}.

(** A provider whose logout endpoint is not an absolute URL. *)
Definition provider_with_relative_logout : ProviderConfig :=
  {| issuer := issuer mockProvider;
     clientId := clientId mockProvider;
     redirectUri := redirectUri mockProvider;
     scopes := scopes mockProvider;
     endpoints :=
       {| authorizationEndpoint := "https://auth.example.com/authorize";
          tokenEndpoint := "https://auth.example.com/token";
          logoutEndpoint := Some "/logout";
          userInfoEndpoint := None;
          revocationEndpoint := None |};
     postLogoutRedirectUri := None;
     additionalAuthParams := None |}.

Definition config_with_relative_logout : OAuthClientConfig string string :=
  {| provider := provider_with_relative_logout; onAuthStateChange := None;
     onTokenRefresh := None; onError := None |}.

(** [logout.test.ts]: [{ localOnly: true }]. *)
Definition local_logout : LogoutOptions := {| redirect := None; localOnly := Some true |}.

Definition storage_with_tokens : StorageConfig :=
  storeTokens Mock.platform tokens_with_id_token createMemoryStorageConfig.

Definition world_with_tokens : World :=
  {| storage := storage_with_tokens; requests := []; navigation := [] |}.

(** A usable [localStorage] that holds two entries of the library and one
    of another application. *)
Definition page_storage : WebStorage :=
  {| items :=
       <["@auth-code-pkce::state" := "test-state"]>
         (<["@auth-code-pkce::codeVerifier" := "test-verifier"]>
            (<["other-app::theme" := "dark"]> ∅));
     permitted := true;
     accepts := fun _ _ _ => true |}.

(** The preset configuration of the examples in the provider files. *)
Definition preset_config : ProviderPresetConfig.t :=
  {| ProviderPresetConfig.issuer := "https://keycloak.example.com/realms/myrealm";
     ProviderPresetConfig.clientId := "your-client-id";
     ProviderPresetConfig.redirectUri := "https://yourapp.com/callback";
     ProviderPresetConfig.scopes := None;
     ProviderPresetConfig.postLogoutRedirectUri := None |}.

(** The mock server as its constructor makes it, and an authorization
    request with an S256 challenge. *)
Definition mock_server : MockOAuthServer.t :=
  {| MockOAuthServer.port := 3456;
     MockOAuthServer.issuer := "http://localhost:3456";
     MockOAuthServer.accessTokenTtl := 3600;
     MockOAuthServer.refreshTokenTtl := 86400;
     MockOAuthServer.autoApprove := true;
     MockOAuthServer.authCodes := ∅;
     MockOAuthServer.refreshTokens := ∅ |}.

Definition authorization_request : list (string * string) :=
  [("client_id", "test-client-id"); ("response_type", "code");
   ("scope", "openid offline_access");
   ("redirect_uri", "http://localhost:3000/callback");
   ("code_challenge", "hash-of-test-verifier"); ("code_challenge_method", "S256");
   ("state", "test-state")].

Definition token_request : list (string * string) :=
  [("grant_type", "authorization_code"); ("client_id", "test-client-id");
   ("redirect_uri", "http://localhost:3000/callback"); ("code", "issued-code");
   ("code_verifier", "test-verifier")].

(** A stand-in for the hash and for [createJwt]. *)
Definition hash_of (text : string) : string := "hash-of-" +:+ text.

Definition jwt_of (claims : MockOAuthServer.Claims) : string :=
  "jwt-of-" +:+ MockOAuthServer.claim_sub claims.

End Fixture.

(* ===================================================================== *)
(** ** Vocabulary of the properties *)
(* ===================================================================== *)

(** The messages of the five validation failures and of the two failures
    of the request. *)
Definition callback_failure (params : CallbackParams) : AuthError :=
  createAuthError callback_error
    (nullish (cb_errorDescription params) (nullish (cb_error params) ""))
    (CallbackDetails (nullish (cb_error params) "") (cb_errorDescription params)).

Definition no_code_failure : AuthError :=
  createAuthError callback_error "No authorization code in callback URL" NoDetails.

Definition state_failure : AuthError :=
  createAuthError invalid_state "State parameter mismatch - possible CSRF attack" NoDetails.

Definition verifier_failure : AuthError :=
  createAuthError token_exchange_failed "Code verifier not found in storage" NoDetails.

Definition replay_failure : AuthError :=
  createAuthError token_exchange_failed "Authorization code already exchanged" NoDetails.

Definition status_failure (response : HttpResponse) : AuthError :=
  createAuthError token_exchange_failed
    ("Token exchange failed with status " +:+ pretty (status response))
    (ResponseDetails (data response)).

Definition network_failure (err : string) : AuthError :=
  createAuthError network_error "Failed to exchange authorization code" (CaughtDetails err).

(** The world once the replay guard is written. *)
Definition guard_written (code : string) (w : World) : World :=
  set_storage (set_flowStorage (Storage.set STORAGE_KEYS.PREVIOUS_AUTH_CODE code)) w.

(** The world after a successful exchange: the request left, the tokens
    are stored and the four flow keys are removed. *)
Definition exchanged (P : Platform) (req : HttpRequest) (tokens : TokenState)
    (code : string) (w : World) : World :=
  set_storage (set_flowStorage (Storage.remove STORAGE_KEYS.PRE_AUTH_PATH))
    (set_storage (set_flowStorage (Storage.remove STORAGE_KEYS.REDIRECT_URI))
       (set_storage (set_flowStorage (Storage.remove STORAGE_KEYS.STATE))
          (set_storage (set_flowStorage (Storage.remove STORAGE_KEYS.CODE_VERIFIER))
             (set_storage (storeTokens P tokens)
                (log_request req (guard_written code w)))))).

(** The value the loop of [buildUrl] leaves under [key]: the last entry of
    the object with that key and a defined value, else what was there. *)
Fixpoint last_defined (key : string) (entries : list (string * option string))
    (init : option string) : option string :=
  match entries with
  | [] => init
  | (k, v) :: rest =>
      last_defined key rest
        (if String.eqb k key then match v with Some x => Some x | None => init end
         else init)
  end.

(** The keys of an optional [Record<string, string>]. *)
Definition keys_of (src : option (list (string * string))) : list string :=
  map fst (nullish src []).

(** The pending promise of a coordinator is the one in [refreshPromise]. *)
Definition pending_is_current {F : Type} (c : Coordinator.t F) : Prop :=
  forall q, Coordinator.promises c !! q = Some None <-> Coordinator.refreshPromise c = Some q.

(** A decoded JWT is only present in an authenticated state. *)
Definition jwt_implies_authenticated {TJwt TUser : Type} (s : AuthState TJwt TUser) : Prop :=
  jwt s <> None -> isAuthenticated s = true.

(** A computation keeps a property of the authentication state, whether it
    returns or throws. *)
Definition keeps {TJwt TUser A : Type} (I : AuthState TJwt TUser -> Prop)
    (m : M (Client TJwt TUser) A) : Prop :=
  forall c, I (state c) -> I (state (fst (m c))).

(** No subscriber and no callback of the configuration throws. *)
Definition quiet {TJwt TUser : Type} (config : OAuthClientConfig TJwt TUser)
    (c : Client TJwt TUser) : Prop :=
  (forall l s, l ∈ map snd (listeners c) -> l s = Returned tt)
  /\ (forall s, call_optional (onAuthStateChange config) s = Returned tt)
  /\ (forall t, call_optional (onTokenRefresh config) t = Returned tt).

(** The state [loadUserFromTokens] sets. *)
Definition loaded {TJwt TUser : Type} (jwtDecode : string -> completion TJwt)
    (env : Env TJwt TUser) (tokens : TokenState) (c : Client TJwt TUser)
    : Client TJwt TUser :=
  OAuthClient.set_state
    (fun s =>
       apply_updates s
         {| upd_isAuthenticated := Some true;
            upd_isLoading := Some false;
            upd_jwt :=
              Some (if truthy (idToken tokens)
                    then OAuthClient.decodeJwt jwtDecode (nullish (idToken tokens) "")
                    else None);
            upd_user :=
              Some match getUser env with
                   | Some fetch =>
                       match fetch (accessToken tokens)
                               (if truthy (idToken tokens)
                                then OAuthClient.decodeJwt jwtDecode
                                       (nullish (idToken tokens) "")
                                else None) with
                       | Returned u => u
                       | Thrown _ => None
                       end
                   | None => None
                   end;
            upd_error := Some None |}) c.

(** The callbacks a successful refresh runs, in order. *)
Definition refresh_callbacks {TJwt TUser : Type} (config : OAuthClientConfig TJwt TUser)
    (fresh : TokenState) (c : Client TJwt TUser) : completion unit :=
  match call_all (map snd (listeners c)) (state c) with
  | Thrown reason => Thrown reason
  | Returned _ =>
      match call_optional (onAuthStateChange config) (state c) with
      | Thrown reason => Thrown reason
      | Returned _ => call_optional (onTokenRefresh config) fresh
      end
  end.

(** How many pairs of a query have the key. *)
Fixpoint count_key (key : string) (params : list (string * string)) : nat :=
  match params with
  | [] => 0%nat
  | (k, _) :: rest => ((if String.eqb k key then 1 else 0) + count_key key rest)%nat
  end.

(** The world once [buildAuthorizationUrl] has written the flow state. *)
Definition flow_written (window : option Location) (entropy : Entropy)
    (provider : ProviderConfig) (options : AuthorizeOptions) (w : World) : World :=
  let written :=
    set_storage
      (set_flowStorage (Storage.set STORAGE_KEYS.REDIRECT_URI (redirectUri provider)))
      (set_storage
         (set_flowStorage (Storage.set STORAGE_KEYS.STATE (fresh_state entropy)))
         (set_storage
            (set_flowStorage
               (Storage.set STORAGE_KEYS.CODE_VERIFIER (codeVerifier (fresh_pkce entropy))))
            w)) in
  if nullish (preservePath options) false && truthy (Some (getCurrentPath window))
  then set_storage
         (set_flowStorage (Storage.set STORAGE_KEYS.PRE_AUTH_PATH (getCurrentPath window)))
         written
  else written.

(** What the adapter of a namespace shows under a key: the entry of the
    browser's storage under the prefixed key. *)
Definition shown (namespace : string) (st : WebStorage) (key : string) : option string :=
  items st !! NamespacedAdapter.getKey namespace key.

(** A preset configuration with another issuer. *)
Definition with_issuer (url : string) (config : ProviderPresetConfig.t)
    : ProviderPresetConfig.t :=
  {| ProviderPresetConfig.issuer := url;
     ProviderPresetConfig.clientId := ProviderPresetConfig.clientId config;
     ProviderPresetConfig.redirectUri := ProviderPresetConfig.redirectUri config;
     ProviderPresetConfig.scopes := ProviderPresetConfig.scopes config;
     ProviderPresetConfig.postLogoutRedirectUri :=
       ProviderPresetConfig.postLogoutRedirectUri config |}.

(** The calls of [refresh] and the settlements in a trace of events. *)
Fixpoint count_calls {F : Type} (trace : list (Coordinator.event F)) : nat :=
  match trace with
  | [] => 0%nat
  | Coordinator.Call _ :: rest => S (count_calls rest)
  | Coordinator.Settle _ :: rest => count_calls rest
  end.

Fixpoint count_settlements {F : Type} (trace : list (Coordinator.event F)) : nat :=
  match trace with
  | [] => 0%nat
  | Coordinator.Call _ :: rest => count_settlements rest
  | Coordinator.Settle _ :: rest => S (count_settlements rest)
  end.

(* ===================================================================== *)
(** ** Properties of crypto/state.ts *)
(* ===================================================================== *)

Section StateValidator.

Lemma charCodeAt_inj_at (a b : string) (i : nat) :
  (i < String.length a)%nat -> (i < String.length b)%nat ->
  charCodeAt a i = charCodeAt b i -> String.get i a = String.get i b.
Proof.
  unfold charCodeAt. revert b i.
  induction a as [|x a IH]; intros [|y b] i Ha Hb; simpl in *; try lia.
  destruct i as [|i]; simpl.
  - intros H. apply N2Z.inj in H.
    rewrite <- (ascii_N_embedding x), <- (ascii_N_embedding y), H. reflexivity.
  - apply IH; lia.
Qed.

Lemma get_beyond (a : string) (i : nat) :
  (String.length a <= i)%nat -> String.get i a = None.
Proof.
  revert i. induction a as [|x a IH]; intros i H; simpl in *.
  - reflexivity.
  - destruct i as [|i]; [lia|]. apply IH. lia.
Qed.

Lemma fold_lor_zero (f : nat -> Z) (l : list nat) (acc : Z) :
  fold_left (fun result i => Z.lor result (f i)) l acc = 0 <->
  acc = 0 /\ Forall (fun i => f i = 0) l.
Proof.
  revert acc. induction l as [|i l IH]; intros acc; simpl.
  - split; [intros ->; split; [reflexivity|constructor] | intros [-> _]; reflexivity].
  - rewrite IH, Z.lor_eq_0_iff. split.
    + intros [[Ha Hi] Hl]. split; [exact Ha|]. constructor; assumption.
    + intros [Ha Hl]. inversion Hl; subst. repeat split; assumption.
Qed.

Lemma xor_accumulate_zero (a b : string) :
  String.length a = String.length b ->
  (xor_accumulate a b = 0 <-> a = b).
Proof.
  intros Hlen. unfold xor_accumulate.
  rewrite (fold_lor_zero (fun i => Z.lxor (charCodeAt a i) (charCodeAt b i))).
  split.
  - intros [_ Hall]. apply String.get_correct. intros i.
    destruct (Nat.lt_ge_cases i (String.length a)) as [Hi|Hi].
    + apply charCodeAt_inj_at; [exact Hi | rewrite <- Hlen; exact Hi |].
      rewrite Forall_forall in Hall.
      apply Z.lxor_eq, Hall, elem_of_seq. lia.
    + rewrite !get_beyond; [reflexivity | rewrite <- Hlen; exact Hi | exact Hi].
  - intros ->. split; [reflexivity|].
    apply Forall_forall. intros i _. apply Z.lxor_nilpotent.
Qed.

(** Full characterisation of [validateState]. *)
Lemma truthy_true (o : option string) :
  truthy o = true <-> exists s, s <> "" /\ o = Some s.
Proof.
  destruct o as [s|]; simpl.
  - split.
    + intros H. exists s. split; [|reflexivity]. destruct s; congruence.
    + intros (x & Hx & [= ->]). destruct x; congruence.
  - split; [discriminate | intros (x & _ & H); discriminate].
Qed.

(** Full characterisation of [validateState]. *)
Lemma validateState_true_iff (a b : option string) :
  validateState a b = true <-> exists s, s <> "" /\ a = Some s /\ b = Some s.
Proof.
  unfold validateState.
  destruct (truthy a) eqn:Ha; cbn [negb orb].
  2:{ split; [discriminate|]. intros (x & Hx & -> & _).
      assert (truthy (Some x) = true) by (apply truthy_true; eauto). congruence. }
  destruct (truthy b) eqn:Hb; cbn [negb orb].
  2:{ split; [discriminate|]. intros (x & Hx & _ & ->).
      assert (truthy (Some x) = true) by (apply truthy_true; eauto). congruence. }
  apply truthy_true in Ha as (r & Hr & ->). apply truthy_true in Hb as (s & Hs & ->).
  destruct (Nat.eqb_spec (String.length r) (String.length s)) as [Hlen|Hlen]; cbn [negb].
  - rewrite Z.eqb_eq, (xor_accumulate_zero r s Hlen). split.
    + intros ->. exists s. auto.
    + intros (x & _ & H1 & H2). congruence.
  - split; [discriminate|]. intros (x & _ & H1 & H2).
    exfalso. apply Hlen. congruence.
Qed.

Lemma validateState_ne (a b : option string) : a <> b -> validateState a b = false.
Proof.
  intros Hab. apply not_true_is_false. rewrite validateState_true_iff.
  intros (x & _ & -> & ->). congruence.
Qed.

Lemma validateState_null_r (a : option string) : validateState a None = false.
Proof.
  apply not_true_is_false. rewrite validateState_true_iff.
  intros (x & _ & _ & H). discriminate.
Qed.

End StateValidator.


(** C5.  [validateState] answers [false] when an argument is [null] or empty
    and when the lengths differ; on two non-empty strings of one length it
    answers whether the accumulated XOR of the loop is zero, which is so
    exactly when the strings are equal.  So [validateState s s] holds for
    every non-empty [s], and [validateState a b] fails whenever [a] and [b]
    differ. *)
Theorem validateState_spec (a b : option string) :
  (a = None \/ a = Some "" \/ b = None \/ b = Some "" -> validateState a b = false)
  /\ (forall r s, a = Some r -> b = Some s ->
        String.length r <> String.length s -> validateState a b = false)
  /\ (forall r s, a = Some r -> b = Some s -> r <> "" -> s <> "" ->
        String.length r = String.length s ->
        validateState a b = Z.eqb (xor_accumulate r s) 0
        /\ (xor_accumulate r s = 0 <-> r = s)
        /\ (validateState a b = true <-> r = s))
  /\ (forall s, s <> "" -> validateState (Some s) (Some s) = true)
  /\ (a <> b -> validateState a b = false).
Proof.
  repeat split.
  - intros H. apply not_true_is_false. rewrite validateState_true_iff.
    intros (x & Hx & -> & ->). destruct H as [H|[H|[H|H]]]; congruence.
  - intros r s -> -> Hlen. apply not_true_is_false. rewrite validateState_true_iff.
    intros (x & Hx & [= ->] & [= ->]). congruence.
  - subst a b. unfold validateState.
    assert (truthy (Some r) = true) as -> by (apply truthy_true; eauto).
    assert (truthy (Some s) = true) as -> by (apply truthy_true; eauto).
    rewrite H3, Nat.eqb_refl. reflexivity.
  - apply xor_accumulate_zero; assumption.
  - apply xor_accumulate_zero; assumption.
  - rewrite validateState_true_iff. intros (x & _ & H5 & H6). congruence.
  - intros ->. rewrite validateState_true_iff. subst a b. eauto.
  - intros s Hs. apply validateState_true_iff. eauto.
  - intros Hab. apply not_true_is_false. rewrite validateState_true_iff.
    intros (x & _ & -> & ->). congruence.
Qed.

(** The tests of [state.test.ts] on concrete strings. *)
Example validateState_tests :
  validateState (Some "test-state-123") (Some "test-state-123") = true
  /\ validateState (Some "state-1") (Some "state-2") = false
  /\ validateState None (Some "stored") = false
  /\ validateState (Some "short") (Some "much-longer-state") = false
  /\ validateState (Some "") (Some "") = false.
Proof. repeat split. Qed.

(** C5 on two strings of [state.test.ts]. *)
Lemma validateState_spec_witness :
  validateState (Some "test-state-123") (Some "test-state-123") = true
  /\ validateState (Some "state-1") (Some "state-2") = false
  /\ (xor_accumulate "state-1" "state-2" = 0 <-> "state-1" = "state-2").
Proof.
  destruct (validateState_spec (Some "state-1") (Some "state-2"))
    as (_ & _ & Hloop & Hsame & Hdiffer).
  split; [apply Hsame; discriminate|].
  split; [apply Hdiffer; discriminate|].
  apply (Hloop "state-1" "state-2"); (reflexivity || discriminate).
Defined.

(* ===================================================================== *)
(** ** Properties of oauth/token.ts *)
(* ===================================================================== *)

(** C9.  The expiry of a parsed token response is the reading of the clock
    plus [expires_in] seconds in milliseconds when the server provided a
    non-zero [expires_in], and it is [null] exactly when [expires_in] is
    absent or zero. *)
Theorem parseTokenResponse_expiresAt (now : Z) (response : TokenResponse) :
  (forall seconds, expires_in response = Some seconds -> seconds <> 0 ->
     expiresAt (parseTokenResponse now response) = Some (now + seconds * 1000))
  /\ (expiresAt (parseTokenResponse now response) = None <->
      expires_in response = None \/ expires_in response = Some 0).
Proof.
  unfold parseTokenResponse; simpl. split.
  - intros seconds -> Hnz. destruct seconds; [congruence | reflexivity | reflexivity].
  - destruct (expires_in response) as [[| |]|]; simpl; split; intros H;
      try reflexivity; try discriminate; auto; destruct H; discriminate.
Qed.

(** C9 on the responses of [token.test.ts]: [expires_in] of 3600 seconds,
    and of zero. *)
Lemma parseTokenResponse_expiresAt_witness :
  expiresAt (parseTokenResponse Fixture.today Fixture.mockTokenResponse)
    = Some (Fixture.today + 3600 * 1000)
  /\ expiresAt (parseTokenResponse Fixture.today Fixture.response_expiring_at_once) = None.
Proof.
  split.
  - apply (proj1 (parseTokenResponse_expiresAt Fixture.today Fixture.mockTokenResponse));
      [reflexivity | discriminate].
  - apply (proj2 (parseTokenResponse_expiresAt Fixture.today
                    Fixture.response_expiring_at_once)).
    right. reflexivity.
Defined.

(** The other fields of a parsed response are those of the response. *)
Lemma parseTokenResponse_fields (now : Z) (response : TokenResponse) :
  accessToken (parseTokenResponse now response) = access_token response
  /\ refreshToken (parseTokenResponse now response) = refresh_token response
  /\ idToken (parseTokenResponse now response) = id_token response
  /\ tokenScope (parseTokenResponse now response) = scope response.
Proof. repeat split. Qed.

Ltac unfold_monad :=
  unfold flow_get, flow_set, flow_remove, request in *;
  unfold bind, ret, gets, modify, try_catch, complete, throw in *;
  cbv beta iota in *.

Section TokenProperties.

Variable P : Platform.
Variable window : option Location.

Lemma truthy_false_cases (o : option string) :
  truthy o = false <-> o = None \/ o = Some "".
Proof.
  destruct o as [[|c s]|]; simpl; split; intros H; auto; try discriminate;
    destruct H; discriminate.
Qed.

(** [refreshAccessToken] without a usable refresh token: nothing happens. *)
Lemma refreshAccessToken_no_refresh_token now provider httpClient w :
  truthy (getStoredTokens P (storage w) ≫= refreshToken) = false ->
  refreshAccessToken P now provider httpClient w = (w, Returned None).
Proof.
  intros H. unfold refreshAccessToken. unfold_monad. rewrite H. reflexivity.
Qed.

(** [refreshAccessToken] with a refresh token: one request, and the state
    that follows from its answer. *)
Lemma refreshAccessToken_with_refresh_token now provider httpClient w refresh :
  getStoredTokens P (storage w) ≫= refreshToken = Some refresh -> refresh <> "" ->
  refreshAccessToken P now provider httpClient w =
    let req := refresh_request provider refresh in
    match httpClient req with
    | Resolves response =>
        if Z.eqb (status response) 200
        then
          let tokens := parseTokenResponse now (data response) in
          (set_storage (storeTokens P tokens) (log_request req w), Returned (Some tokens))
        else (log_request req w, Returned None)
    | Rejects _ => (log_request req w, Returned None)
    end.
Proof.
  intros H Hne. unfold refreshAccessToken. unfold_monad. rewrite H.
  assert (truthy (Some refresh) = true) as -> by (apply truthy_true; eauto).
  cbn [negb nullish].
  destruct (httpClient (refresh_request provider refresh)) as [response|err]; [|reflexivity].
  destruct (Z.eqb (status response) 200); reflexivity.
Qed.

(** [exchangeCodeForTokens] as a decision list over the callback parameters
    and flow storage. *)
Lemma exchangeCodeForTokens_unfold now provider httpClient url w :
  exchangeCodeForTokens P window now provider httpClient url w =
    let params := parseCallbackUrl P window url in
    let flow := flowStorage (storage w) in
    let code := nullish (cb_code params) "" in
    if truthy (cb_error params) then (w, Returned (ExchangeError (callback_failure params)))
    else if negb (truthy (cb_code params)) then (w, Returned (ExchangeError no_code_failure))
    else if negb (validateState (cb_state params) (flow !! STORAGE_KEYS.STATE))
    then (w, Returned (ExchangeError state_failure))
    else if negb (truthy (flow !! STORAGE_KEYS.CODE_VERIFIER))
    then (w, Returned (ExchangeError verifier_failure))
    else if bool_decide (flow !! STORAGE_KEYS.PREVIOUS_AUTH_CODE = Some code)
    then (w, Returned (ExchangeError replay_failure))
    else
      let req :=
        exchange_request provider
          (nullish (flow !! STORAGE_KEYS.REDIRECT_URI) (redirectUri provider))
          code (nullish (flow !! STORAGE_KEYS.CODE_VERIFIER) "") in
      match httpClient req with
      | Resolves response =>
          if negb (Z.eqb (status response) 200)
          then (log_request req (guard_written code w),
                Returned (ExchangeError (status_failure response)))
          else
            let tokens := parseTokenResponse now (data response) in
            (exchanged P req tokens code w,
             Returned (ExchangeOk tokens (nullish (flow !! STORAGE_KEYS.PRE_AUTH_PATH) "/")))
      | Rejects err =>
          (log_request req (guard_written code w),
           Returned (ExchangeError (network_failure err)))
      end.
Proof.
  unfold exchangeCodeForTokens. cbn zeta.
  destruct (truthy (cb_error (parseCallbackUrl P window url))); [reflexivity|].
  destruct (negb (truthy (cb_code (parseCallbackUrl P window url)))); [reflexivity|].
  unfold_monad. unfold Storage.get.
  destruct (negb (validateState _ _)); [reflexivity|].
  destruct (negb (truthy (flowStorage (storage w) !! STORAGE_KEYS.CODE_VERIFIER)));
    [reflexivity|].
  destruct (bool_decide _); [reflexivity|].
  cbn [storage flowStorage guard_written set_storage set_flowStorage].
  match goal with |- context [httpClient ?r] => destruct (httpClient r) as [response|err] end;
    [|reflexivity].
  destruct (negb (Z.eqb (status response) 200)); reflexivity.
Qed.

(** The third validation. *)
Lemma exchangeCodeForTokens_invalid_state now provider httpClient url w :
  truthy (cb_error (parseCallbackUrl P window url)) = false ->
  truthy (cb_code (parseCallbackUrl P window url)) = true ->
  validateState (cb_state (parseCallbackUrl P window url))
    (flowStorage (storage w) !! STORAGE_KEYS.STATE) = false ->
  exchangeCodeForTokens P window now provider httpClient url w
    = (w, Returned (ExchangeError state_failure)).
Proof.
  intros Herr Hcode Hstate. rewrite exchangeCodeForTokens_unfold. cbn zeta.
  rewrite Herr, Hcode, Hstate. reflexivity.
Qed.

(** What a successful exchange tells about the call. *)
Lemma exchangeCodeForTokens_ok_inv now provider httpClient url w w1 tokens path :
  exchangeCodeForTokens P window now provider httpClient url w
    = (w1, Returned (ExchangeOk tokens path)) ->
  exists c verifier response,
    truthy (cb_error (parseCallbackUrl P window url)) = false
    /\ cb_code (parseCallbackUrl P window url) = Some c /\ c <> ""
    /\ validateState (cb_state (parseCallbackUrl P window url))
         (flowStorage (storage w) !! STORAGE_KEYS.STATE) = true
    /\ flowStorage (storage w) !! STORAGE_KEYS.CODE_VERIFIER = Some verifier
    /\ verifier <> ""
    /\ flowStorage (storage w) !! STORAGE_KEYS.PREVIOUS_AUTH_CODE <> Some c
    /\ httpClient
         (exchange_request provider
            (nullish (flowStorage (storage w) !! STORAGE_KEYS.REDIRECT_URI)
               (redirectUri provider)) c verifier) = Resolves response
    /\ status response = 200
    /\ tokens = parseTokenResponse now (data response)
    /\ path = nullish (flowStorage (storage w) !! STORAGE_KEYS.PRE_AUTH_PATH) "/"
    /\ w1 = exchanged P
              (exchange_request provider
                 (nullish (flowStorage (storage w) !! STORAGE_KEYS.REDIRECT_URI)
                    (redirectUri provider)) c verifier) tokens c w.
Proof.
  rewrite exchangeCodeForTokens_unfold. cbn zeta.
  destruct (truthy (cb_error _)) eqn:Herr; [discriminate|].
  destruct (truthy (cb_code _)) eqn:Hcode; cbn [negb]; [|discriminate].
  destruct (validateState _ _) eqn:Hstate; cbn [negb]; [|discriminate].
  destruct (truthy (flowStorage (storage w) !! STORAGE_KEYS.CODE_VERIFIER)) eqn:Hver;
    cbn [negb]; [|discriminate].
  apply truthy_true in Hcode as (c & Hc & Hcode).
  apply truthy_true in Hver as (verifier & Hv & Hver).
  rewrite Hcode, Hver. cbn [nullish].
  case_bool_decide as Hprev; [discriminate|].
  destruct (httpClient _) as [response|err] eqn:Hreq; [|discriminate].
  destruct (Z.eqb_spec (status response) 200) as [H200|H200]; cbn [negb]; [|discriminate].
  intros [= <- <- <-].
  exists c, verifier, response. repeat split; auto.
Qed.

(** The replay guard: with the state and a verifier in flow storage, a code
    equal to the recorded one is refused and the world is left as it is. *)
Lemma exchangeCodeForTokens_replay now provider httpClient url w c :
  truthy (cb_error (parseCallbackUrl P window url)) = false ->
  cb_code (parseCallbackUrl P window url) = Some c -> c <> "" ->
  validateState (cb_state (parseCallbackUrl P window url))
    (flowStorage (storage w) !! STORAGE_KEYS.STATE) = true ->
  truthy (flowStorage (storage w) !! STORAGE_KEYS.CODE_VERIFIER) = true ->
  flowStorage (storage w) !! STORAGE_KEYS.PREVIOUS_AUTH_CODE = Some c ->
  exchangeCodeForTokens P window now provider httpClient url w
    = (w, Returned (ExchangeError replay_failure)).
Proof.
  intros Herr Hcode Hc Hstate Hver Hprev.
  rewrite exchangeCodeForTokens_unfold. cbn zeta.
  rewrite Herr, Hcode, Hstate, Hver, Hprev.
  assert (truthy (Some c) = true) as -> by (apply truthy_true; eauto).
  cbn [negb nullish]. rewrite bool_decide_eq_true_2; reflexivity.
Qed.

(** All five validations pass: the guard is written and the request leaves;
    a rejected request and a status other than 200 change nothing else. *)
Lemma exchangeCodeForTokens_failed_request now provider httpClient url w c verifier :
  truthy (cb_error (parseCallbackUrl P window url)) = false ->
  cb_code (parseCallbackUrl P window url) = Some c -> c <> "" ->
  validateState (cb_state (parseCallbackUrl P window url))
    (flowStorage (storage w) !! STORAGE_KEYS.STATE) = true ->
  flowStorage (storage w) !! STORAGE_KEYS.CODE_VERIFIER = Some verifier -> verifier <> "" ->
  flowStorage (storage w) !! STORAGE_KEYS.PREVIOUS_AUTH_CODE <> Some c ->
  (forall response,
     httpClient
       (exchange_request provider
          (nullish (flowStorage (storage w) !! STORAGE_KEYS.REDIRECT_URI)
             (redirectUri provider)) c verifier) = Resolves response ->
     status response <> 200) ->
  exists err,
    exchangeCodeForTokens P window now provider httpClient url w
      = (log_request
           (exchange_request provider
              (nullish (flowStorage (storage w) !! STORAGE_KEYS.REDIRECT_URI)
                 (redirectUri provider)) c verifier)
           (guard_written c w),
         Returned (ExchangeError err))
    /\ (code err = token_exchange_failed \/ code err = network_error).
Proof.
  intros Herr Hcode Hc Hstate Hver Hv Hprev Hfail.
  rewrite exchangeCodeForTokens_unfold. cbn zeta.
  rewrite Herr, Hcode, Hstate, Hver.
  assert (truthy (Some c) = true) as -> by (apply truthy_true; eauto).
  assert (truthy (Some verifier) = true) as -> by (apply truthy_true; eauto).
  cbn [negb nullish]. rewrite bool_decide_eq_false_2 by exact Hprev.
  destruct (httpClient _) as [response|err] eqn:Hreq.
  - specialize (Hfail response eq_refl).
    destruct (Z.eqb_spec (status response) 200) as [H200|H200]; [contradiction|].
    cbn [negb]. eexists. split; [reflexivity|]. left. reflexivity.
  - eexists. split; [reflexivity|]. right. reflexivity.
Qed.

End TokenProperties.

(** C6.  [refreshAccessToken] always returns.  Without stored tokens or
    without a refresh token in them it returns [null] at once: the world is
    untouched and no request leaves.  Otherwise one refresh request leaves;
    a rejected request and a status other than 200 give [null] and leave
    both storages as they were; status 200 gives the parsed response, and
    the entry of token storage becomes the serialisation of that new token
    state alone, every field of which comes from the response. *)
Theorem refreshAccessToken_spec (P : Platform) (now : Z) (provider : ProviderConfig)
    (httpClient : HttpClient) (w : World) :
  exists w' result,
    refreshAccessToken P now provider httpClient w = (w', Returned result)
    /\ (getStoredTokens P (storage w) = None -> w' = w /\ result = None)
    /\ (forall current, getStoredTokens P (storage w) = Some current ->
          refreshToken current = None \/ refreshToken current = Some "" ->
          w' = w /\ result = None)
    /\ (forall current refresh, getStoredTokens P (storage w) = Some current ->
          refreshToken current = Some refresh -> refresh <> "" ->
          let req := refresh_request provider refresh in
          requests w' = (requests w ++ [req])%list
          /\ navigation w' = navigation w
          /\ flowStorage (storage w') = flowStorage (storage w)
          /\ (forall err, httpClient req = Rejects err ->
                result = None /\ storage w' = storage w)
          /\ (forall response, httpClient req = Resolves response ->
                status response <> 200 -> result = None /\ storage w' = storage w)
          /\ (forall response, httpClient req = Resolves response ->
                status response = 200 ->
                let fresh := parseTokenResponse now (data response) in
                result = Some fresh
                /\ tokenStorage (storage w') =
                     <[STORAGE_KEYS.TOKENS := JSON_stringify P fresh]> (tokenStorage (storage w))
                /\ accessToken fresh = access_token (data response)
                /\ refreshToken fresh = refresh_token (data response)
                /\ idToken fresh = id_token (data response)
                /\ tokenScope fresh = scope (data response)
                /\ expiresAt fresh =
                     match expires_in (data response) with
                     | Some seconds =>
                         if Z.eqb seconds 0 then None else Some (now + seconds * 1000)
                     | None => None
                     end)).
Proof.
  destruct (truthy (getStoredTokens P (storage w) ≫= refreshToken)) eqn:Hrt.
  - apply truthy_true in Hrt as (refresh & Hne & Hrt).
    rewrite (refreshAccessToken_with_refresh_token P now provider httpClient w refresh Hrt Hne).
    cbn zeta.
    assert (Hnone : getStoredTokens P (storage w) <> None)
      by (intros H; rewrite H in Hrt; discriminate).
    assert (Hsome : forall current, getStoredTokens P (storage w) = Some current ->
              refreshToken current = Some refresh)
      by (intros current H; rewrite H in Hrt; exact Hrt).
    destruct (httpClient (refresh_request provider refresh)) as [response|err] eqn:Hreq;
      [destruct (Z.eqb_spec (status response) 200) as [H200|H200]|];
      (eexists _, _; split; [reflexivity|]; split; [|split];
       [ intros H; contradiction
       | intros current Hcur [Hno|Hno]; apply Hsome in Hcur; split; congruence
       | intros current refresh' Hcur Hrefresh _;
         assert (refresh' = refresh) as -> by (apply Hsome in Hcur; congruence);
         rewrite Hreq ]).
    + split; [reflexivity|]. split; [reflexivity|]. split; [reflexivity|].
      split; [discriminate|]. split; [intros response' [= <-] Hs; contradiction|].
      intros response' [= <-] _.
      split; [reflexivity|]. split; [reflexivity|]. split; [reflexivity|].
      split; [reflexivity|]. split; [reflexivity|]. split; [reflexivity|].
      unfold parseTokenResponse; simpl.
      destruct (expires_in (data response)) as [[| |]|]; reflexivity.
    + split; [reflexivity|]. split; [reflexivity|]. split; [reflexivity|].
      split; [discriminate|]. split; [intros response' [= <-] _; auto|].
      intros response' [= <-] Hs; contradiction.
    + split; [reflexivity|]. split; [reflexivity|]. split; [reflexivity|].
      split; [intros; auto|]. split; discriminate.
  - rewrite (refreshAccessToken_no_refresh_token P now provider httpClient w Hrt).
    eexists _, _. split; [reflexivity|]. split; [|split].
    + auto.
    + auto.
    + intros current refresh Hcur Hrefresh Hne. rewrite Hcur in Hrt. simpl in Hrt.
      rewrite Hrefresh in Hrt.
      assert (truthy (Some refresh) = true) by (apply truthy_true; eauto). congruence.
Qed.

(** C6 on [token.test.ts]: stored tokens with a refresh token, the token
    endpoint answering 200. *)
Lemma refreshAccessToken_spec_witness :
  exists w',
    refreshAccessToken Mock.platform Fixture.today Fixture.mockProvider
      (Fixture.answering 200 Fixture.mockTokenResponse)
      {| storage := Fixture.storage_with_expired_tokens; requests := []; navigation := [] |}
    = (w', Returned (Some (parseTokenResponse Fixture.today Fixture.mockTokenResponse)))
    /\ tokenStorage (storage w') !! STORAGE_KEYS.TOKENS
       = Some (Mock.JSON_stringify
                 (parseTokenResponse Fixture.today Fixture.mockTokenResponse))
    /\ requests w' = [refresh_request Fixture.mockProvider "refresh-token"].
Proof.
  destruct (refreshAccessToken_spec Mock.platform Fixture.today Fixture.mockProvider
              (Fixture.answering 200 Fixture.mockTokenResponse)
              {| storage := Fixture.storage_with_expired_tokens; requests := [];
                 navigation := [] |})
    as (w' & result & Hrun & _ & _ & Hrefresh).
  destruct (Hrefresh Fixture.expired_tokens "refresh-token")
    as (Hreq & _ & _ & _ & _ & Hok).
  - vm_compute. reflexivity.
  - reflexivity.
  - discriminate.
  - destruct (Hok {| status := 200; data := Fixture.mockTokenResponse |})
      as (-> & Hstored & _); [reflexivity | reflexivity |].
    exists w'. split; [exact Hrun|]. split; [|exact Hreq].
    rewrite Hstored. apply lookup_insert_eq.
Defined.

(** C2 (amended).  The validations run in a fixed order and the first
    failure wins, leaving the world, its request log included, untouched: a
    non-empty [error] parameter gives [callback_error]; else a missing or
    empty [code] gives [callback_error]; else a failing [validateState]
    (a missing or empty state on either side, or two different states) gives
    [invalid_state]; else a missing or empty stored code verifier gives
    [token_exchange_failed].  In particular a callback with no non-empty
    [error], a non-empty [code] and a state other than the stored one gives
    [invalid_state] whatever the HTTP client would answer. *)
Theorem exchangeCodeForTokens_validation_order (P : Platform) (window : option Location)
    (now : Z) (provider : ProviderConfig) (httpClient : HttpClient) (url : option string)
    (w : World) :
  let params := parseCallbackUrl P window url in
  let flow := flowStorage (storage w) in
  let result := exchangeCodeForTokens P window now provider httpClient url w in
  (truthy (cb_error params) = true ->
     result = (w, Returned (ExchangeError (callback_failure params))))
  /\ (truthy (cb_error params) = false -> truthy (cb_code params) = false ->
        result = (w, Returned (ExchangeError no_code_failure)))
  /\ (truthy (cb_error params) = false -> truthy (cb_code params) = true ->
        validateState (cb_state params) (flow !! STORAGE_KEYS.STATE) = false ->
        result = (w, Returned (ExchangeError state_failure)))
  /\ (truthy (cb_error params) = false -> truthy (cb_code params) = true ->
        validateState (cb_state params) (flow !! STORAGE_KEYS.STATE) = true ->
        truthy (flow !! STORAGE_KEYS.CODE_VERIFIER) = false ->
        result = (w, Returned (ExchangeError verifier_failure)))
  /\ (truthy (cb_error params) = false -> truthy (cb_code params) = true ->
        cb_state params <> flow !! STORAGE_KEYS.STATE ->
        result = (w, Returned (ExchangeError state_failure)))
  /\ code (callback_failure params) = callback_error
  /\ code no_code_failure = callback_error
  /\ code state_failure = invalid_state
  /\ code verifier_failure = token_exchange_failed.
Proof.
  cbn zeta. rewrite exchangeCodeForTokens_unfold. cbn zeta.
  repeat match goal with |- _ /\ _ => split end; try reflexivity.
  - intros ->. reflexivity.
  - intros -> ->. reflexivity.
  - intros -> -> ->. reflexivity.
  - intros -> -> -> ->. reflexivity.
  - intros -> -> Hne.
    rewrite (validateState_ne _ _ Hne). reflexivity.
Qed.

(** The tests of [token.test.ts] for the three validations that need no
    request: the HTTP client of each would reject any request. *)
Example exchangeCodeForTokens_validation_tests :
  exchangeCodeForTokens Mock.platform Fixture.at_callback Fixture.today Fixture.mockProvider
    Fixture.rejecting None Fixture.flow_other_state
  = (Fixture.flow_other_state, Returned (ExchangeError state_failure))
  /\ exchangeCodeForTokens Mock.platform None Fixture.today Fixture.mockProvider
       Fixture.rejecting
       (Some "http://localhost:3000/callback?error=access_denied&error_description=User%20denied")
       Fixture.flow_ready
     = (Fixture.flow_ready,
        Returned (ExchangeError
          (createAuthError callback_error "User denied"
             (CallbackDetails "access_denied" (Some "User denied")))))
  /\ exchangeCodeForTokens Mock.platform None Fixture.today Fixture.mockProvider
       Fixture.rejecting (Some "http://localhost:3000/callback?state=test-state")
       Fixture.flow_ready
     = (Fixture.flow_ready, Returned (ExchangeError no_code_failure)).
Proof. repeat split. Qed.

(** C2 on the test "should return error for invalid state": the stored
    state is not the one of the callback. *)
Lemma exchangeCodeForTokens_validation_order_witness :
  exchangeCodeForTokens Mock.platform Fixture.at_callback Fixture.today Fixture.mockProvider
    Fixture.rejecting None Fixture.flow_other_state
  = (Fixture.flow_other_state, Returned (ExchangeError state_failure))
  /\ code state_failure = invalid_state.
Proof.
  destruct (exchangeCodeForTokens_validation_order Mock.platform Fixture.at_callback
              Fixture.today Fixture.mockProvider Fixture.rejecting None
              Fixture.flow_other_state)
    as (_ & _ & _ & _ & Hmismatch & _ & _ & Hkind & _).
  split; [|exact Hkind].
  apply Hmismatch; [reflexivity | reflexivity | vm_compute; discriminate].
Defined.

(** C2, as stated, fails.  A callback that carries an [error] parameter
    with an empty value, a code and the stored state passes the first check
    and is exchanged for tokens; and a callback that carries a code, a state
    other than the stored one and an [error] is answered [callback_error],
    not [invalid_state]. *)
Lemma exchangeCodeForTokens_error_parameter_cases :
  cb_error (parseCallbackUrl Mock.platform None
              (Some "http://localhost:3000/callback?error=&code=auth-code-123&state=test-state"))
    = Some ""
  /\ snd (exchangeCodeForTokens Mock.platform None Fixture.today Fixture.mockProvider
            (Fixture.answering 200 Fixture.mockTokenResponse)
            (Some "http://localhost:3000/callback?error=&code=auth-code-123&state=test-state")
            Fixture.flow_ready)
     = Returned (ExchangeOk (parseTokenResponse Fixture.today Fixture.mockTokenResponse) "/")
  /\ length (requests (fst (exchangeCodeForTokens Mock.platform None Fixture.today
                              Fixture.mockProvider
                              (Fixture.answering 200 Fixture.mockTokenResponse)
                              (Some "http://localhost:3000/callback?error=&code=auth-code-123&state=test-state")
                              Fixture.flow_ready))) = 1%nat
  /\ cb_code (parseCallbackUrl Mock.platform None
                (Some "http://localhost:3000/callback?error=access_denied&code=auth-code-123&state=other-state"))
     = Some "auth-code-123"
  /\ cb_state (parseCallbackUrl Mock.platform None
                 (Some "http://localhost:3000/callback?error=access_denied&code=auth-code-123&state=other-state"))
     <> flowStorage (storage Fixture.flow_ready) !! STORAGE_KEYS.STATE
  /\ snd (exchangeCodeForTokens Mock.platform None Fixture.today Fixture.mockProvider
            Fixture.rejecting
            (Some "http://localhost:3000/callback?error=access_denied&code=auth-code-123&state=other-state")
            Fixture.flow_ready)
     = Returned (ExchangeError
                   (createAuthError callback_error "access_denied"
                      (CallbackDetails "access_denied" None))).
Proof.
  split; [reflexivity|]. split; [vm_compute; reflexivity|]. split; [vm_compute; reflexivity|].
  split; [reflexivity|]. split; [vm_compute; discriminate|]. vm_compute. reflexivity.
Qed.

(** C10.  When the five validations pass and the token request then fails
    (its promise is rejected, or the status is not 200), the call returns an
    error, the request has left, the replay guard holds the attempted code,
    token storage and the four other flow keys are as before; and a retry
    with the same callback URL is refused as already exchanged whatever the
    HTTP client would answer, the world, request log included, staying as it
    is. *)
Theorem exchangeCodeForTokens_failed_request_blocks_retry
    (P : Platform) (window : option Location) (now1 now2 : Z) (provider : ProviderConfig)
    (http1 http2 : HttpClient) (url : option string) (w : World) (c verifier : string) :
  truthy (cb_error (parseCallbackUrl P window url)) = false ->
  cb_code (parseCallbackUrl P window url) = Some c -> c <> "" ->
  validateState (cb_state (parseCallbackUrl P window url))
    (flowStorage (storage w) !! STORAGE_KEYS.STATE) = true ->
  flowStorage (storage w) !! STORAGE_KEYS.CODE_VERIFIER = Some verifier -> verifier <> "" ->
  flowStorage (storage w) !! STORAGE_KEYS.PREVIOUS_AUTH_CODE <> Some c ->
  (forall response,
     http1
       (exchange_request provider
          (nullish (flowStorage (storage w) !! STORAGE_KEYS.REDIRECT_URI)
             (redirectUri provider)) c verifier) = Resolves response ->
     status response <> 200) ->
  exists w1 err,
    exchangeCodeForTokens P window now1 provider http1 url w
      = (w1, Returned (ExchangeError err))
    /\ (code err = token_exchange_failed \/ code err = network_error)
    /\ requests w1 =
         (requests w ++
          [exchange_request provider
             (nullish (flowStorage (storage w) !! STORAGE_KEYS.REDIRECT_URI)
                (redirectUri provider)) c verifier])%list
    /\ flowStorage (storage w1) !! STORAGE_KEYS.PREVIOUS_AUTH_CODE = Some c
    /\ tokenStorage (storage w1) = tokenStorage (storage w)
    /\ (forall key, key <> STORAGE_KEYS.PREVIOUS_AUTH_CODE ->
          flowStorage (storage w1) !! key = flowStorage (storage w) !! key)
    /\ exchangeCodeForTokens P window now2 provider http2 url w1
         = (w1, Returned (ExchangeError replay_failure))
    /\ code replay_failure = token_exchange_failed
    /\ includes "already exchanged" (message replay_failure) = true.
Proof.
  intros Herr Hcode Hc Hstate Hver Hv Hprev Hfail.
  destruct (exchangeCodeForTokens_failed_request P window now1 provider http1 url w c verifier
              Herr Hcode Hc Hstate Hver Hv Hprev Hfail) as (err & Hrun & Hkind).
  eexists _, err. split; [exact Hrun|]. split; [exact Hkind|].
  split; [reflexivity|].
  split; [apply lookup_insert_eq|].
  split; [reflexivity|].
  split; [intros key Hkey; apply lookup_insert_ne; congruence|].
  split; [|split; reflexivity].
  apply exchangeCodeForTokens_replay with (c := c); auto.
  - cbn. rewrite lookup_insert_ne by discriminate. exact Hstate.
  - cbn. rewrite lookup_insert_ne by discriminate. rewrite Hver.
    apply truthy_true. eauto.
  - apply lookup_insert_eq.
Qed.

(** C10 at the values of [token.test.ts], the HTTP client rejecting. *)
Lemma exchangeCodeForTokens_failed_request_blocks_retry_witness :
  exists w1 err,
    exchangeCodeForTokens Mock.platform Fixture.at_callback Fixture.today
      Fixture.mockProvider Fixture.rejecting None Fixture.flow_ready
      = (w1, Returned (ExchangeError err))
    /\ exchangeCodeForTokens Mock.platform Fixture.at_callback Fixture.today
         Fixture.mockProvider (Fixture.answering 200 Fixture.mockTokenResponse) None w1
       = (w1, Returned (ExchangeError replay_failure)).
Proof.
  destruct (exchangeCodeForTokens_failed_request_blocks_retry
              Mock.platform Fixture.at_callback Fixture.today Fixture.today
              Fixture.mockProvider Fixture.rejecting
              (Fixture.answering 200 Fixture.mockTokenResponse) None Fixture.flow_ready
              "auth-code-123" "test-verifier")
    as (w1 & err & H1 & _ & _ & _ & _ & _ & H2 & _).
  - reflexivity.
  - reflexivity.
  - discriminate.
  - reflexivity.
  - reflexivity.
  - discriminate.
  - discriminate.
  - intros response H. discriminate H.
  - exists w1, err. split; [exact H1 | exact H2].
Defined.

(** C1 (amended).  After an exchange of the code [c] succeeded, the tokens
    are stored, the replay guard holds [c] and the state is gone from flow
    storage; a second call with the same callback URL returns an error of
    kind [invalid_state] and leaves the world, request log included, as it
    is, so [c] is not sent again.  The error "already exchanged", of kind
    [token_exchange_failed], is what a call returns, again without a
    request, whenever flow storage holds a verifier, the state of the
    callback and the replay guard [c]. *)
Theorem exchangeCodeForTokens_second_attempt
    (P : Platform) (window : option Location) (now1 now2 : Z) (provider : ProviderConfig)
    (http1 http2 : HttpClient) (url : option string) (w w1 : World)
    (tokens : TokenState) (path : string) :
  exchangeCodeForTokens P window now1 provider http1 url w
    = (w1, Returned (ExchangeOk tokens path)) ->
  exists c,
    cb_code (parseCallbackUrl P window url) = Some c
    /\ tokenStorage (storage w1) !! STORAGE_KEYS.TOKENS = Some (JSON_stringify P tokens)
    /\ flowStorage (storage w1) !! STORAGE_KEYS.PREVIOUS_AUTH_CODE = Some c
    /\ flowStorage (storage w1) !! STORAGE_KEYS.STATE = None
    /\ flowStorage (storage w1) !! STORAGE_KEYS.CODE_VERIFIER = None
    /\ length (requests w1) = S (length (requests w))
    /\ exchangeCodeForTokens P window now2 provider http2 url w1
         = (w1, Returned (ExchangeError state_failure))
    /\ code state_failure = invalid_state
    /\ (forall w2,
          validateState (cb_state (parseCallbackUrl P window url))
            (flowStorage (storage w2) !! STORAGE_KEYS.STATE) = true ->
          truthy (flowStorage (storage w2) !! STORAGE_KEYS.CODE_VERIFIER) = true ->
          flowStorage (storage w2) !! STORAGE_KEYS.PREVIOUS_AUTH_CODE = Some c ->
          exchangeCodeForTokens P window now2 provider http2 url w2
            = (w2, Returned (ExchangeError replay_failure)))
    /\ code replay_failure = token_exchange_failed
    /\ includes "already exchanged" (message replay_failure) = true.
Proof.
  intros Hok.
  apply exchangeCodeForTokens_ok_inv in Hok
    as (c & verifier & response & Herr & Hcode & Hc & Hstate & Hver & Hv & Hprev
        & Hreq & H200 & Htokens & Hpath & ->).
  exists c. split; [exact Hcode|].
  split; [apply lookup_insert_eq|].
  assert (Hguard : flowStorage (storage (exchanged P
            (exchange_request provider
               (nullish (flowStorage (storage w) !! STORAGE_KEYS.REDIRECT_URI)
                  (redirectUri provider)) c verifier) tokens c w))
            !! STORAGE_KEYS.PREVIOUS_AUTH_CODE = Some c).
  { cbn. unfold Storage.remove, Storage.set.
    rewrite !lookup_delete_ne by discriminate. apply lookup_insert_eq. }
  assert (Hgone : flowStorage (storage (exchanged P
            (exchange_request provider
               (nullish (flowStorage (storage w) !! STORAGE_KEYS.REDIRECT_URI)
                  (redirectUri provider)) c verifier) tokens c w))
            !! STORAGE_KEYS.STATE = None).
  { cbn. unfold Storage.remove, Storage.set.
    rewrite !lookup_delete_ne by discriminate. apply lookup_delete_eq. }
  split; [exact Hguard|]. split; [exact Hgone|].
  split.
  { cbn. unfold Storage.remove, Storage.set.
    rewrite !lookup_delete_ne by discriminate. apply lookup_delete_eq. }
  split; [cbn; rewrite length_app; cbn; lia|].
  split.
  { apply exchangeCodeForTokens_invalid_state.
    - exact Herr.
    - rewrite Hcode. apply truthy_true. eauto.
    - rewrite Hgone. apply validateState_null_r. }
  split; [reflexivity|].
  split; [|split; reflexivity].
  intros w2 Hstate2 Hver2 Hprev2.
  apply exchangeCodeForTokens_replay with (c := c); auto.
Qed.

(** C1 at the values of [token.test.ts]. *)
Lemma exchangeCodeForTokens_second_attempt_witness :
  exists w1 tokens path,
    exchangeCodeForTokens Mock.platform Fixture.at_callback Fixture.today
      Fixture.mockProvider (Fixture.answering 200 Fixture.mockTokenResponse) None
      Fixture.flow_ready = (w1, Returned (ExchangeOk tokens path))
    /\ flowStorage (storage w1) !! STORAGE_KEYS.PREVIOUS_AUTH_CODE = Some "auth-code-123"
    /\ exchangeCodeForTokens Mock.platform Fixture.at_callback Fixture.today
         Fixture.mockProvider (Fixture.answering 200 Fixture.mockTokenResponse) None w1
       = (w1, Returned (ExchangeError state_failure)).
Proof.
  exists Fixture.exchanged_once,
    (parseTokenResponse Fixture.today Fixture.mockTokenResponse), "/".
  split; [vm_compute; reflexivity|].
  destruct (exchangeCodeForTokens_second_attempt
              Mock.platform Fixture.at_callback Fixture.today Fixture.today
              Fixture.mockProvider (Fixture.answering 200 Fixture.mockTokenResponse)
              (Fixture.answering 200 Fixture.mockTokenResponse) None Fixture.flow_ready
              Fixture.exchanged_once
              (parseTokenResponse Fixture.today Fixture.mockTokenResponse) "/")
    as (c & Hcode & _ & Hguard & _ & _ & _ & Hsecond & _).
  - vm_compute. reflexivity.
  - injection Hcode as <-. split; [exact Hguard | exact Hsecond].
Defined.

(** C1, as stated, fails: in the scenario of [token.test.ts] the first
    exchange of [auth-code-123] succeeds, and the second call with the same
    callback is refused with [invalid_state] and a message that does not
    hold "already exchanged", the stored state being gone. *)
Lemma exchangeCodeForTokens_second_attempt_is_invalid_state :
  exists w1 tokens path,
    exchangeCodeForTokens Mock.platform Fixture.at_callback Fixture.today
      Fixture.mockProvider (Fixture.answering 200 Fixture.mockTokenResponse) None
      Fixture.flow_ready = (w1, Returned (ExchangeOk tokens path))
    /\ tokenStorage (storage w1) !! STORAGE_KEYS.TOKENS
       = Some (Mock.JSON_stringify tokens)
    /\ exchangeCodeForTokens Mock.platform Fixture.at_callback Fixture.today
         Fixture.mockProvider (Fixture.answering 200 Fixture.mockTokenResponse) None w1
       = (w1, Returned (ExchangeError state_failure))
    /\ code state_failure = invalid_state
    /\ invalid_state <> token_exchange_failed
    /\ includes "already exchanged" (message state_failure) = false.
Proof.
  exists Fixture.exchanged_once,
    (parseTokenResponse Fixture.today Fixture.mockTokenResponse), "/".
  split; [vm_compute; reflexivity|].
  split; [vm_compute; reflexivity|]. split; [vm_compute; reflexivity|].
  split; [reflexivity|]. split; [discriminate | reflexivity].
Qed.

(* ===================================================================== *)
(** ** Properties of utils/url.ts and oauth/authorize.ts *)
(* ===================================================================== *)

Section AuthorizeProperties.

Lemma searchParams_get_filter_ne (key other : string) (params : list (string * string)) :
  other <> key ->
  searchParams_get key (filter (fun p => negb (String.eqb (fst p) other)) params)
    = searchParams_get key params.
Proof.
  intros Hne. induction params as [|[k v] rest IH]; [reflexivity|].
  cbn [searchParams_get]. rewrite filter_cons. cbn [fst].
  destruct (String.eqb_spec k other) as [->|Hk]; cbn [negb].
  - rewrite decide_False by (cbn; auto).
    destruct (String.eqb_spec other key); [contradiction | exact IH].
  - rewrite decide_True by (cbn; auto). cbn [searchParams_get].
    destruct (String.eqb k key); [reflexivity | exact IH].
Qed.

(** Reading a parameter after [searchParams.set]. *)
Lemma searchParams_get_set (key other value : string) (params : list (string * string)) :
  searchParams_get key (searchParams_set other value params)
    = if String.eqb other key then Some value else searchParams_get key params.
Proof.
  induction params as [|[k v] rest IH]; cbn [searchParams_set searchParams_get].
  - destruct (String.eqb other key); reflexivity.
  - destruct (String.eqb_spec k other) as [->|Hk]; cbn [searchParams_get].
    + destruct (String.eqb_spec other key) as [->|Hne]; [reflexivity|].
      apply searchParams_get_filter_ne. exact Hne.
    + destruct (String.eqb_spec k key) as [->|Hkey].
      * destruct (String.eqb_spec other key); [congruence | reflexivity].
      * exact IH.
Qed.

Lemma buildUrl_loop_get (key : string) (entries : list (string * option string))
    (params : list (string * string)) :
  searchParams_get key
    (fold_left
       (fun sp entry =>
          match snd entry with
          | Some value => searchParams_set (fst entry) value sp
          | None => sp
          end) entries params)
  = last_defined key entries (searchParams_get key params).
Proof.
  revert params. induction entries as [|[k v] rest IH]; intros params; [reflexivity|].
  cbn [fold_left last_defined fst snd]. rewrite IH. f_equal.
  destruct v as [value|].
  - apply searchParams_get_set.
  - destruct (String.eqb k key); reflexivity.
Qed.

Lemma last_defined_obj_set_ne (key other : string) (value init : option string)
    (o : list (string * option string)) :
  other <> key -> last_defined key (obj_set other value o) init = last_defined key o init.
Proof.
  intros Hne. revert init. induction o as [|[k v] rest IH]; intros init.
  - cbn. destruct (String.eqb_spec other key); [contradiction | reflexivity].
  - cbn [obj_set]. destruct (String.eqb_spec k other) as [->|Hk].
    + cbn [last_defined]. destruct (String.eqb_spec other key); [contradiction | reflexivity].
    + cbn [last_defined]. apply IH.
Qed.

Lemma last_defined_obj_spread (key : string) (init : option string)
    (src : option (list (string * string))) (o : list (string * option string)) :
  key ∉ keys_of src -> last_defined key (obj_spread o src) init = last_defined key o init.
Proof.
  unfold obj_spread, keys_of. generalize (nullish src []). clear src.
  intros l. revert o. induction l as [|[k v] l IH]; intros o Hnot; [reflexivity|].
  cbn [fold_left fst snd]. rewrite IH.
  - apply last_defined_obj_set_ne. intros ->. apply Hnot. cbn. left.
  - intros Hin. apply Hnot. cbn. right. exact Hin.
Qed.

End AuthorizeProperties.

(** C7 (amended).  When the authorization endpoint is a URL and neither the
    provider-level nor the call-level additional parameters have one of the
    keys [response_type], [code_challenge_method] and [state],
    [buildAuthorizationUrl] returns a URL whose query holds
    [response_type=code], [code_challenge_method=S256] and, under [state],
    the state the same call wrote into flow storage. *)
Theorem buildAuthorizationUrl_required_params (P : Platform) (window : option Location)
    (entropy : Entropy) (provider : ProviderConfig) (options : AuthorizeOptions)
    (w : World) (endpoint : URL) :
  URL_new P (authorizationEndpoint (endpoints provider)) None = Some endpoint ->
  (forall key, key ∈ ["response_type"; "code_challenge_method"; "state"] ->
     (key ∉ keys_of (additionalAuthParams provider))
     /\ (key ∉ keys_of (additionalParams options))) ->
  exists w' target,
    buildAuthorizationUrl P window entropy provider options w = (w', Returned target)
    /\ searchParams_get "response_type" (searchParams target) = Some "code"
    /\ searchParams_get "code_challenge_method" (searchParams target) = Some "S256"
    /\ searchParams_get "state" (searchParams target)
       = flowStorage (storage w') !! STORAGE_KEYS.STATE
    /\ flowStorage (storage w') !! STORAGE_KEYS.STATE = Some (fresh_state entropy).
Proof.
  intros Hurl Hkeys.
  destruct (Hkeys "response_type") as [Hr1 Hr2]; [repeat constructor|].
  destruct (Hkeys "code_challenge_method") as [Hm1 Hm2]; [repeat constructor|].
  destruct (Hkeys "state") as [Hs1 Hs2]; [repeat constructor|].
  unfold buildAuthorizationUrl, buildUrl. rewrite Hurl. cbn zeta.
  unfold_monad.
  destruct (truthy (if nullish (preservePath options) false
                    then Some (getCurrentPath window) else None)) eqn:Hpath.
  all: eexists _, _; split; [reflexivity|]; cbn [searchParams];
    rewrite !buildUrl_loop_get; unfold authorization_params;
    rewrite !last_defined_obj_spread by assumption;
    cbn [storage flowStorage set_storage set_flowStorage];
    unfold Storage.set;
    rewrite ?(lookup_insert_ne _ STORAGE_KEYS.PRE_AUTH_PATH) by discriminate;
    rewrite ?(lookup_insert_ne _ STORAGE_KEYS.REDIRECT_URI) by discriminate;
    rewrite lookup_insert_eq;
    repeat split; reflexivity.
Qed.

(** C7 at the values of [authorize.test.ts], with additional parameters at
    both levels. *)
Lemma buildAuthorizationUrl_required_params_witness :
  exists w' target,
    buildAuthorizationUrl Mock.platform None Fixture.drawn Fixture.provider_with_audience
      Fixture.options_with_hints Fixture.fresh_world = (w', Returned target)
    /\ searchParams_get "response_type" (searchParams target) = Some "code"
    /\ searchParams_get "code_challenge_method" (searchParams target) = Some "S256"
    /\ searchParams_get "state" (searchParams target) = Some "generated-state"
    /\ searchParams_get "audience" (searchParams target) = Some "https://api.example.com"
    /\ searchParams_get "acr_values" (searchParams target) = Some "mfa".
Proof.
  destruct (buildAuthorizationUrl_required_params Mock.platform None Fixture.drawn
              Fixture.provider_with_audience Fixture.options_with_hints Fixture.fresh_world
              {| origin := "https://auth.example.com"; pathname := "/authorize";
                 searchParams := [] |})
    as (w' & target & Hrun & Hr & Hm & Hs & Hstored).
  - reflexivity.
  - apply Forall_forall.
    repeat (apply Forall_cons_2;
            [split; cbn; rewrite ?not_elem_of_cons;
             repeat split; try discriminate; apply not_elem_of_nil|]).
    apply Forall_nil_2.
  - exists w', target. rewrite Hstored in Hs.
    split; [exact Hrun|]. split; [exact Hr|]. split; [exact Hm|]. split; [exact Hs|].
    vm_compute in Hrun. injection Hrun as _ <-. split; reflexivity.
Defined.

(** C7, as stated, fails: call-level additional parameters with the keys
    [state] and [response_type] take the place of the generated state and
    of [code] in the URL, while flow storage holds the generated state. *)
Lemma buildAuthorizationUrl_state_overridden :
  exists w' target,
    buildAuthorizationUrl Mock.platform None Fixture.drawn Fixture.mockProvider
      Fixture.options_naming_state Fixture.fresh_world = (w', Returned target)
    /\ searchParams_get "state" (searchParams target) = Some "chosen-by-caller"
    /\ flowStorage (storage w') !! STORAGE_KEYS.STATE = Some "generated-state"
    /\ searchParams_get "response_type" (searchParams target) = Some "token".
Proof.
  exists (fst (buildAuthorizationUrl Mock.platform None Fixture.drawn Fixture.mockProvider
                 Fixture.options_naming_state Fixture.fresh_world)),
    {| origin := "https://auth.example.com"; pathname := "/authorize";
       searchParams :=
         [("client_id", "test-client-id"); ("response_type", "token");
          ("scope", "openid profile email");
          ("redirect_uri", "http://localhost:3000/callback");
          ("code_challenge", "challenge-of-the-verifier");
          ("code_challenge_method", "S256"); ("state", "chosen-by-caller")] |}.
  split; [vm_compute; reflexivity|].
  split; [reflexivity|]. split; [vm_compute; reflexivity | reflexivity].
Qed.

(* ===================================================================== *)
(** ** Properties of the TokenRefreshCoordinator *)
(* ===================================================================== *)

Section CoordinatorProperties.

Context {F : Type}.
Implicit Types (c : Coordinator.t F) (o : Coordinator.settlement).

Lemma pending_is_current_create : pending_is_current (@Coordinator.create F).
Proof. intros q. cbn. rewrite lookup_nil. split; discriminate. Qed.

Lemma pending_is_current_step c (e : Coordinator.event F) :
  pending_is_current c -> pending_is_current (Coordinator.step c e).
Proof.
  intros Hinv. destruct e as [fn|o]; cbn [Coordinator.step].
  - unfold Coordinator.refresh.
    destruct (Coordinator.refreshPromise c) as [p|] eqn:Hp; intros q; cbn.
    + rewrite <- Hp. apply Hinv.
    + destruct (Nat.lt_total q (length (Coordinator.promises c))) as [Hq|[->|Hq]].
      * rewrite lookup_app_l by exact Hq. rewrite (Hinv q), Hp.
        split; [discriminate|]. intros [= <-]. lia.
      * rewrite list_lookup_middle by reflexivity. split; reflexivity.
      * rewrite lookup_ge_None_2 by (rewrite length_app; cbn; lia).
        split; [discriminate|]. intros [= <-]. lia.
  - unfold Coordinator.settle.
    destruct (Coordinator.refreshPromise c) as [p|] eqn:Hp; [|exact Hinv].
    intros q; cbn. split; [|discriminate]. intros Hq. exfalso.
    destruct (decide (q = p)) as [->|Hne].
    + assert (p < length (Coordinator.promises c))%nat as Hlt
        by (apply lookup_lt_is_Some; rewrite (proj2 (Hinv p) Hp); eauto).
      rewrite list_lookup_insert_eq in Hq by exact Hlt. discriminate.
    + rewrite list_lookup_insert_ne in Hq by auto.
      apply Hinv in Hq. congruence.
Qed.

Lemma pending_is_current_reachable c : Coordinator.reachable c -> pending_is_current c.
Proof.
  intros [trace ->]. unfold Coordinator.run. rewrite <- fold_left_rev_right.
  induction (rev trace) as [|e rest IH]; cbn.
  - apply pending_is_current_create.
  - apply pending_is_current_step, IH.
Qed.

Lemma isRefreshing_outstanding c :
  pending_is_current c ->
  (Coordinator.isRefreshing c = true <-> Coordinator.outstanding c).
Proof.
  intros Hinv. unfold Coordinator.isRefreshing, Coordinator.outstanding.
  rewrite bool_decide_eq_true, list_elem_of_lookup. split.
  - intros Hp. destruct (Coordinator.refreshPromise c) as [p|] eqn:Heq; [|congruence].
    exists p. apply Hinv. exact Heq.
  - intros [q Hq]. apply Hinv in Hq. congruence.
Qed.

(** Calls that arrive while a refresh is in flight are handed its promise. *)
Lemma run_calls_in_flight c p (fns : list F) :
  Coordinator.refreshPromise c = Some p ->
  Coordinator.run (map Coordinator.Call fns) c
  = {| Coordinator.refreshPromise := Some p;
       Coordinator.promises := Coordinator.promises c;
       Coordinator.invoked := Coordinator.invoked c;
       Coordinator.handed := Coordinator.handed c ++ replicate (length fns) p |}.
Proof.
  revert c. induction fns as [|fn fns IH]; intros c Hp.
  - cbn. rewrite app_nil_r. destruct c; cbn in *; congruence.
  - cbn [map Coordinator.run fold_left Coordinator.step].
    fold (Coordinator.run (map Coordinator.Call fns) (Coordinator.refresh fn c)).
    rewrite IH by (unfold Coordinator.refresh; rewrite Hp; reflexivity).
    unfold Coordinator.refresh. rewrite Hp. cbn.
    rewrite <- app_assoc. reflexivity.
Qed.

(** A burst of calls on an idle coordinator. *)
Lemma run_calls_idle c (fn : F) (fns : list F) :
  Coordinator.refreshPromise c = None ->
  Coordinator.run (map Coordinator.Call (fn :: fns)) c
  = {| Coordinator.refreshPromise := Some (length (Coordinator.promises c));
       Coordinator.promises := Coordinator.promises c ++ [None];
       Coordinator.invoked := Coordinator.invoked c ++ [fn];
       Coordinator.handed :=
         Coordinator.handed c
         ++ replicate (S (length fns)) (length (Coordinator.promises c)) |}.
Proof.
  intros Hidle. cbn [map Coordinator.run fold_left Coordinator.step].
  fold (Coordinator.run (map Coordinator.Call fns) (Coordinator.refresh fn c)).
  rewrite (run_calls_in_flight _ (length (Coordinator.promises c)))
    by (unfold Coordinator.refresh; rewrite Hidle; reflexivity).
  unfold Coordinator.refresh. rewrite Hidle. cbn.
  rewrite <- app_assoc. reflexivity.
Qed.

Lemma isRefreshing_false c :
  Coordinator.isRefreshing c = false <-> Coordinator.refreshPromise c = None.
Proof.
  unfold Coordinator.isRefreshing. rewrite bool_decide_eq_false.
  destruct (Coordinator.refreshPromise c); split; auto; try congruence.
  intros H. exfalso. apply H. discriminate.
Qed.

End CoordinatorProperties.

(** C4.  On a coordinator with no refresh in flight, let one call of
    [refresh(fn)] be followed by any number of further calls before the
    promise settles.  Then [fn] is the only refresh function invoked, once;
    [isRefreshing()] answers [true] after each of the calls; every caller's
    promise is pending until the settlement and afterwards holds the one
    settled result, a value or a rejection alike; after the settlement
    [isRefreshing()] answers [false] and the next call invokes its function
    again.  In every state the coordinator can reach, [isRefreshing()] is
    [true] exactly while one of its promises is pending. *)
Theorem coordinator_single_flight {F : Type} (c : Coordinator.t F) (fn : F)
    (others : list F) (o : Coordinator.settlement) (next : F) :
  Coordinator.isRefreshing c = false ->
  let calls := map Coordinator.Call (fn :: others) in
  let busy := Coordinator.run calls c in
  let settled := Coordinator.settle o busy in
  Coordinator.invoked busy = (Coordinator.invoked c ++ [fn])%list
  /\ (forall k, (k <= length others)%nat ->
        Coordinator.isRefreshing (Coordinator.run (take (S k) calls) c) = true)
  /\ (forall k, (k <= length others)%nat ->
        Coordinator.result_of busy (length (Coordinator.handed c) + k) = None
        /\ Coordinator.result_of settled (length (Coordinator.handed c) + k) = Some o)
  /\ Coordinator.isRefreshing settled = false
  /\ Coordinator.invoked settled = (Coordinator.invoked c ++ [fn])%list
  /\ Coordinator.invoked (Coordinator.refresh next settled)
     = (Coordinator.invoked c ++ [fn; next])%list
  /\ Coordinator.isRefreshing (Coordinator.refresh next settled) = true
  /\ (forall c' : Coordinator.t F, Coordinator.reachable c' ->
        (Coordinator.isRefreshing c' = true <-> Coordinator.outstanding c')).
Proof.
  intros Hidle. apply isRefreshing_false in Hidle. cbn zeta.
  rewrite (run_calls_idle c fn others Hidle).
  unfold Coordinator.settle. cbn [Coordinator.refreshPromise Coordinator.promises
    Coordinator.invoked Coordinator.handed].
  split; [reflexivity|]. split; [|split; [|split; [|split; [|split; [|split]]]]].
  - intros k Hk.
    assert (take (S k) (map Coordinator.Call (fn :: others))
            = map Coordinator.Call (fn :: take k others)) as ->
      by (rewrite <- fmap_take; reflexivity).
    rewrite (run_calls_idle c fn (take k others) Hidle). reflexivity.
  - intros k Hk. unfold Coordinator.result_of.
    cbn [Coordinator.handed Coordinator.promises].
    rewrite !lookup_app_r by lia.
    replace (length (Coordinator.handed c) + k - length (Coordinator.handed c))%nat
      with k by lia.
    rewrite lookup_replicate_2 by lia. cbn [mbind option_bind].
    split.
    + rewrite list_lookup_middle by reflexivity. reflexivity.
    + rewrite list_lookup_insert_eq by (rewrite length_app; cbn; lia). reflexivity.
  - reflexivity.
  - reflexivity.
  - cbn. rewrite <- app_assoc. reflexivity.
  - reflexivity.
  - intros c' Hc'. apply isRefreshing_outstanding, pending_is_current_reachable, Hc'.
Qed.

(** C4 at the test of [token.test.ts]: three overlapping calls on a new
    coordinator, one invocation, one result for the three. *)
Lemma coordinator_single_flight_witness :
  let result := Coordinator.Fulfilled (Some (parseTokenResponse 0 Fixture.mockTokenResponse)) in
  let settled :=
    Coordinator.run
      [Coordinator.Call "refreshFn"; Coordinator.Call "refreshFn";
       Coordinator.Call "refreshFn"; Coordinator.Settle result]
      Coordinator.create in
  Coordinator.invoked settled = ["refreshFn"]
  /\ Coordinator.result_of settled 0 = Some result
  /\ Coordinator.result_of settled 1 = Some result
  /\ Coordinator.result_of settled 2 = Some result
  /\ Coordinator.invoked (Coordinator.refresh "refreshFn" settled) = ["refreshFn"; "refreshFn"].
Proof.
  cbn zeta.
  destruct (coordinator_single_flight (@Coordinator.create string) "refreshFn"
              ["refreshFn"; "refreshFn"]
              (Coordinator.Fulfilled (Some (parseTokenResponse 0 Fixture.mockTokenResponse)))
              "refreshFn")
    as (Hinvoked & _ & Hresults & _ & _ & Hnext & _).
  - reflexivity.
  - split; [exact Hinvoked|].
    split; [exact (proj2 (Hresults 0%nat ltac:(cbn; lia)))|].
    split; [exact (proj2 (Hresults 1%nat ltac:(cbn; lia)))|].
    split; [exact (proj2 (Hresults 2%nat ltac:(cbn; lia)))|].
    exact Hnext.
Defined.

(* ===================================================================== *)
(** ** Properties of oauth/client.ts: the authentication state *)
(* ===================================================================== *)

Section AuthStateInvariant.

Context {TJwt TUser : Type}.
Variable P : Platform.
Variable jwtDecode : string -> completion TJwt.
Variable config : OAuthClientConfig TJwt TUser.

Section Keeps.

Variable I : AuthState TJwt TUser -> Prop.

Lemma keeps_ret {A : Type} (a : A) : keeps I (ret a).
Proof. intros c H. exact H. Qed.

Lemma keeps_complete {A : Type} (r : completion A) : keeps I (complete r).
Proof. intros c H. exact H. Qed.

Lemma keeps_gets {A : Type} (f : Client TJwt TUser -> A) : keeps I (gets f).
Proof. intros c H. exact H. Qed.

Lemma keeps_bind {A B : Type} (m : M (Client TJwt TUser) A)
    (k : A -> M (Client TJwt TUser) B) :
  keeps I m -> (forall a, keeps I (k a)) -> keeps I (bind m k).
Proof.
  intros Hm Hk c H. unfold bind. specialize (Hm c H).
  destruct (m c) as [c' [a|reason]]; cbn in *.
  - apply Hk. exact Hm.
  - exact Hm.
Qed.

Lemma keeps_lift {A : Type} (m : M World A) : keeps I (OAuthClient.lift m).
Proof.
  intros c H. unfold OAuthClient.lift. destruct (m (world c)) as [w r]. exact H.
Qed.

Lemma keeps_modify_other (f : Client TJwt TUser -> Client TJwt TUser) :
  (forall c, state (f c) = state c) -> keeps I (modify f).
Proof. intros Hf c H. cbn. rewrite Hf. exact H. Qed.

Lemma keeps_if {A : Type} (b : bool) (m1 m2 : M (Client TJwt TUser) A) :
  keeps I m1 -> keeps I m2 -> keeps I (if b then m1 else m2).
Proof. destruct b; auto. Qed.

Lemma keeps_setState (updates : AuthStateUpdate TJwt TUser) :
  (forall s, I s -> I (apply_updates s updates)) ->
  keeps I (OAuthClient.setState config updates).
Proof.
  intros Hupd. unfold OAuthClient.setState.
  apply keeps_bind; [|intros _; apply keeps_bind; [apply keeps_gets|]].
  - intros c H. cbn. apply Hupd, H.
  - intros c'. apply keeps_bind; [apply keeps_complete | intros _; apply keeps_complete].
Qed.

End Keeps.

Lemma keeps_handleError (err : AuthError) :
  keeps jwt_implies_authenticated (OAuthClient.handleError config err).
Proof.
  unfold OAuthClient.handleError.
  apply keeps_bind; [|intros _; apply keeps_complete].
  apply keeps_setState. intros s H. exact H.
Qed.

Lemma keeps_stop_loading :
  keeps jwt_implies_authenticated (OAuthClient.setState config OAuthClient.stop_loading).
Proof. apply keeps_setState. intros s H. exact H. Qed.

Section PerOperation.

Variable env : Env TJwt TUser.

Lemma keeps_loadUserFromTokens (tokens : TokenState) :
  keeps jwt_implies_authenticated
    (OAuthClient.loadUserFromTokens jwtDecode config env tokens).
Proof.
  unfold OAuthClient.loadUserFromTokens. apply keeps_setState.
  intros s _ _. reflexivity.
Qed.

Lemma keeps_handleCallback (url : option string) :
  keeps jwt_implies_authenticated (OAuthClient.handleCallback P jwtDecode config env url).
Proof.
  unfold OAuthClient.handleCallback.
  apply keeps_bind; [apply keeps_gets|]. intros authenticated.
  apply keeps_if; [apply keeps_ret|].
  apply keeps_bind; [apply keeps_setState; intros s H; exact H|]. intros _.
  apply keeps_bind; [apply keeps_lift|]. intros [tokens path|err].
  - apply keeps_bind; [apply keeps_loadUserFromTokens|]. intros _.
    apply keeps_if; [apply keeps_lift | apply keeps_ret].
  - apply keeps_handleError.
Qed.

Lemma keeps_refreshToken :
  keeps jwt_implies_authenticated (OAuthClient.refreshToken P jwtDecode config env).
Proof.
  unfold OAuthClient.refreshToken.
  apply keeps_bind; [apply keeps_lift|]. intros [fresh|]; [|apply keeps_ret].
  apply keeps_bind; [apply keeps_loadUserFromTokens|]. intros _.
  apply keeps_bind; [apply keeps_complete | intros _; apply keeps_ret].
Qed.

Lemma keeps_initialize :
  keeps jwt_implies_authenticated (OAuthClient.initialize P jwtDecode config env).
Proof.
  unfold OAuthClient.initialize.
  apply keeps_bind; [apply keeps_gets|]. intros initialized.
  apply keeps_if; [apply keeps_ret|].
  apply keeps_bind; [|intros _; apply keeps_modify_other; reflexivity].
  apply keeps_if; [apply keeps_handleCallback|].
  apply keeps_bind; [apply keeps_gets|]. intros [stored|]; [|apply keeps_stop_loading].
  apply keeps_if; [|apply keeps_loadUserFromTokens].
  apply keeps_bind; [apply keeps_refreshToken|]. intros refreshed.
  apply keeps_if; [|apply keeps_stop_loading].
  apply keeps_bind; [apply keeps_lift | intros _; apply keeps_stop_loading].
Qed.

Lemma keeps_getAccessToken :
  keeps jwt_implies_authenticated (OAuthClient.getAccessToken P jwtDecode config env).
Proof.
  unfold OAuthClient.getAccessToken.
  apply keeps_bind; [apply keeps_gets|]. intros [stored|]; [|apply keeps_ret].
  cbn zeta. apply keeps_if; [|apply keeps_ret].
  apply keeps_bind; [apply keeps_refreshToken|]. intros refreshed.
  apply keeps_if; [apply keeps_ret|].
  apply keeps_bind; [apply keeps_gets | intros newTokens; apply keeps_ret].
Qed.

Lemma keeps_logout (options : LogoutOptions) :
  keeps jwt_implies_authenticated (OAuthClient.logout P config env options).
Proof.
  unfold OAuthClient.logout.
  apply keeps_bind; [apply keeps_lift|]. intros _.
  apply keeps_setState. intros s _ Hjwt. cbn in Hjwt. congruence.
Qed.

Lemma keeps_perform (op : OAuthClient.operation) (c : Client TJwt TUser) :
  jwt_implies_authenticated (state c) ->
  jwt_implies_authenticated (state (OAuthClient.perform P jwtDecode config env op c)).
Proof.
  intros H. destruct op; cbn [OAuthClient.perform].
  - apply keeps_initialize, H.
  - apply (keeps_lift jwt_implies_authenticated), H.
  - apply keeps_handleCallback, H.
  - apply keeps_refreshToken, H.
  - apply keeps_getAccessToken, H.
  - apply keeps_logout, H.
  - exact H.
  - exact H.
Qed.

End PerOperation.

End AuthStateInvariant.

(** The state after [setState], whether a subscriber threw or not. *)
Lemma setState_state {TJwt TUser : Type} (config : OAuthClientConfig TJwt TUser)
    (updates : AuthStateUpdate TJwt TUser) (c : Client TJwt TUser) :
  state (fst (OAuthClient.setState config updates c)) = apply_updates (state c) updates.
Proof.
  unfold OAuthClient.setState. unfold_monad.
  cbn [listeners state OAuthClient.set_state].
  destruct (call_all _ _) as [[]|reason]; [|reflexivity].
  destruct (call_optional _ _) as [[]|reason]; reflexivity.
Qed.

(** C8 (amended).  In every state a client can reach, a decoded JWT is only
    present when [isAuthenticated] is [true].  The converse fails because
    loading tokens always sets [isAuthenticated] to [true], and sets the JWT
    to the decoded ID token, which is [null] when the tokens have no ID
    token or it does not decode. *)
Theorem jwt_present_implies_isAuthenticated {TJwt TUser : Type} (P : Platform)
    (jwtDecode : string -> completion TJwt) (config : OAuthClientConfig TJwt TUser)
    (c : Client TJwt TUser) :
  OAuthClient.reachable P jwtDecode config c ->
  (jwt (state c) <> None -> isAuthenticated (state c) = true)
  /\ (forall env tokens,
        isAuthenticated
          (state (fst (OAuthClient.loadUserFromTokens jwtDecode config env tokens c))) = true
        /\ jwt (state (fst (OAuthClient.loadUserFromTokens jwtDecode config env tokens c)))
           = if truthy (idToken tokens)
             then OAuthClient.decodeJwt jwtDecode (nullish (idToken tokens) "")
             else None).
Proof.
  intros Hreach. split.
  - change (jwt_implies_authenticated (state c)).
    induction Hreach as [s|env op c Hreach IH].
    + intros H. cbn in H. congruence.
    + apply keeps_perform, IH.
  - intros env tokens. unfold OAuthClient.loadUserFromTokens.
    rewrite setState_state. split; reflexivity.
Qed.

(** C8 at the callback of [client.test.ts]: the ID token of the response
    decodes, and the state is authenticated. *)
Lemma jwt_present_implies_isAuthenticated_witness :
  jwt (state (OAuthClient.perform Mock.platform Mock.jwtDecode Fixture.config
                (Fixture.surroundings Fixture.at_callback
                   (Fixture.answering 200 Fixture.mockTokenResponse))
                (OAuthClient.HandleCallback None)
                (OAuthClient.createOAuthClient (storage Fixture.flow_ready))))
    = Some "user-123"
  /\ isAuthenticated
       (state (OAuthClient.perform Mock.platform Mock.jwtDecode Fixture.config
                 (Fixture.surroundings Fixture.at_callback
                    (Fixture.answering 200 Fixture.mockTokenResponse))
                 (OAuthClient.HandleCallback None)
                 (OAuthClient.createOAuthClient (storage Fixture.flow_ready))))
     = true.
Proof.
  split; [vm_compute; reflexivity|].
  apply (jwt_present_implies_isAuthenticated Mock.platform Mock.jwtDecode Fixture.config).
  - apply OAuthClient.reachable_perform, OAuthClient.reachable_create.
  - vm_compute. discriminate.
Defined.

(** C8, as stated, fails: after the callback of a token response that has
    no ID token the client is authenticated and holds no JWT. *)
Lemma isAuthenticated_without_jwt :
  exists c : Client string string,
    OAuthClient.reachable Mock.platform Mock.jwtDecode Fixture.config c
    /\ isAuthenticated (state c) = true
    /\ jwt (state c) = None.
Proof.
  exists (OAuthClient.perform Mock.platform Mock.jwtDecode Fixture.config
            (Fixture.surroundings Fixture.at_callback
               (Fixture.answering 200 Fixture.response_without_id_token))
            (OAuthClient.HandleCallback None)
            (OAuthClient.createOAuthClient (storage Fixture.flow_ready))).
  split; [apply OAuthClient.reachable_perform, OAuthClient.reachable_create|].
  split; vm_compute; reflexivity.
Qed.

(* ===================================================================== *)
(** ** Properties of oauth/client.ts: getAccessToken *)
(* ===================================================================== *)

Section AccessToken.

Context {TJwt TUser : Type}.
Variable P : Platform.
Variable jwtDecode : string -> completion TJwt.
Variable config : OAuthClientConfig TJwt TUser.
Variable env : Env TJwt TUser.

Lemma call_all_quiet {A : Type} (callbacks : list (A -> completion unit)) (a : A) :
  (forall l, l ∈ callbacks -> l a = Returned tt) -> call_all callbacks a = Returned tt.
Proof.
  induction callbacks as [|f rest IH]; intros H; [reflexivity|].
  cbn. rewrite (H f) by left. apply IH. intros l Hl. apply H. right. exact Hl.
Qed.

Lemma refresh_callbacks_quiet fresh c :
  quiet config c -> refresh_callbacks config fresh (loaded jwtDecode env fresh c) = Returned tt.
Proof.
  intros (Hl & Hs & Ht). unfold refresh_callbacks.
  rewrite call_all_quiet by (intros l Hin; apply Hl; exact Hin).
  rewrite Hs. apply Ht.
Qed.

(** [refreshToken] by the answer of [refreshAccessToken]. *)
Lemma refreshToken_unfold (c : Client TJwt TUser) :
  OAuthClient.refreshToken P jwtDecode config env c =
    match refreshAccessToken P (now_parse env) (provider config) (httpClient env) (world c) with
    | (w', Returned (Some fresh)) =>
        let c' := loaded jwtDecode env fresh (OAuthClient.set_world (fun _ => w') c) in
        (c', match refresh_callbacks config fresh c' with
             | Returned _ => Returned true
             | Thrown reason => Thrown reason
             end)
    | (w', Returned None) => (OAuthClient.set_world (fun _ => w') c, Returned false)
    | (w', Thrown reason) => (OAuthClient.set_world (fun _ => w') c, Thrown reason)
    end.
Proof.
  unfold OAuthClient.refreshToken, OAuthClient.lift, bind at 1.
  destruct (refreshAccessToken P (now_parse env) (provider config) (httpClient env) (world c))
    as [w' [[fresh|]|reason]]; [|reflexivity|reflexivity].
  unfold OAuthClient.loadUserFromTokens, OAuthClient.setState, refresh_callbacks, loaded.
  unfold_monad. cbn [fst snd state listeners OAuthClient.set_state OAuthClient.set_world].
  destruct (call_all _ _) as [[]|reason]; [|reflexivity].
  destruct (call_optional (onAuthStateChange config) _) as [[]|reason]; [|reflexivity].
  destruct (call_optional (onTokenRefresh config) fresh) as [[]|reason]; reflexivity.
Qed.

(** [getAccessToken] by the stored tokens and the outcome of the refresh. *)
Lemma getAccessToken_unfold (c : Client TJwt TUser) :
  OAuthClient.getAccessToken P jwtDecode config env c =
    match getStoredTokens P (storage (world c)) with
    | None => (c, Returned None)
    | Some stored =>
        if truthyZ (expiresAt stored)
           && Z.ltb (nullish (expiresAt stored) 0 - 60 * 1000) (now env)
        then
          match OAuthClient.refreshToken P jwtDecode config env c with
          | (c', Returned true) =>
              (c', Returned (accessToken <$> getStoredTokens P (storage (world c'))))
          | (c', Returned false) => (c', Returned None)
          | (c', Thrown reason) => (c', Thrown reason)
          end
        else (c, Returned (Some (accessToken stored)))
    end.
Proof.
  unfold OAuthClient.getAccessToken. unfold bind at 1. unfold gets at 1.
  destruct (getStoredTokens P (storage (world c))) as [stored|]; [|reflexivity].
  cbn zeta. destruct (truthyZ (expiresAt stored) && _); [|reflexivity].
  unfold bind at 1.
  destruct (OAuthClient.refreshToken P jwtDecode config env c) as [c' [[|]|reason]];
    reflexivity.
Qed.

(** A refresh that answered with tokens sent one request that came back
    with status 200, and the entry of token storage is what it stored. *)
Lemma refreshAccessToken_some_inv (w w' : World) (fresh : TokenState) :
  refreshAccessToken P (now_parse env) (provider config) (httpClient env) w
    = (w', Returned (Some fresh)) ->
  exists refresh response,
    httpClient env (refresh_request (provider config) refresh) = Resolves response
    /\ status response = 200
    /\ fresh = parseTokenResponse (now_parse env) (data response)
    /\ tokenStorage (storage w') !! STORAGE_KEYS.TOKENS = Some (JSON_stringify P fresh).
Proof.
  intros Hrun.
  destruct (truthy (getStoredTokens P (storage w) ≫= refreshToken)) eqn:Hrt.
  - apply truthy_true in Hrt as (refresh & Hne & Hrt).
    rewrite (refreshAccessToken_with_refresh_token P _ _ _ w refresh Hrt Hne) in Hrun.
    cbn zeta in Hrun.
    destruct (httpClient env (refresh_request (provider config) refresh))
      as [response|err] eqn:Hreq; [|discriminate].
    destruct (Z.eqb_spec (status response) 200) as [H200|H200]; [|discriminate].
    injection Hrun as <- <-.
    exists refresh, response. repeat split; auto. apply lookup_insert_eq.
  - rewrite (refreshAccessToken_no_refresh_token P _ _ _ w Hrt) in Hrun. discriminate.
Qed.

Lemma refreshAccessToken_returns (w : World) :
  exists w' result,
    refreshAccessToken P (now_parse env) (provider config) (httpClient env) w
      = (w', Returned result).
Proof.
  destruct (truthy (getStoredTokens P (storage w) ≫= refreshToken)) eqn:Hrt.
  - apply truthy_true in Hrt as (refresh & Hne & Hrt).
    rewrite (refreshAccessToken_with_refresh_token P _ _ _ w refresh Hrt Hne). cbn zeta.
    destruct (httpClient env _) as [response|err]; [|eauto].
    destruct (Z.eqb (status response) 200); eauto.
  - rewrite (refreshAccessToken_no_refresh_token P _ _ _ w Hrt). eauto.
Qed.

End AccessToken.

(** C3 (amended).  [getAccessToken] returns [null] when no tokens are
    stored.  When the stored expiry is [null] or at least 60 seconds ahead
    of the clock it returns the stored access token and changes nothing.
    When the stored expiry is a non-zero timestamp less than 60 seconds
    ahead or in the past, it runs the refresh of [refreshToken]: if that
    refresh fails it returns [null]; if it succeeds and no subscriber or
    callback throws, it returns the access token read back from token
    storage, whose entry is the serialisation of the refreshed tokens.  It
    returns, rather than throws, whenever no subscriber or callback throws.
    A token it returns is either the stored one, with an expiry that is
    [null], zero or at least 60 seconds ahead, or the one a refresh of this
    call has just stored, whose expiry lies ahead of the clock whenever the
    server's [expires_in] is positive. *)
Theorem getAccessToken_spec {TJwt TUser : Type} (P : Platform)
    (jwtDecode : string -> completion TJwt) (config : OAuthClientConfig TJwt TUser)
    (env : Env TJwt TUser) (c : Client TJwt TUser) :
  let stored := getStoredTokens P (storage (world c)) in
  let call := OAuthClient.getAccessToken P jwtDecode config env c in
  let refreshed :=
    refreshAccessToken P (now_parse env) (provider config) (httpClient env) (world c) in
  (stored = None -> call = (c, Returned None))
  /\ (forall t, stored = Some t ->
        expiresAt t = None \/ (exists e, expiresAt t = Some e /\ now env + 60000 <= e) ->
        call = (c, Returned (Some (accessToken t))))
  /\ (forall t e, stored = Some t -> expiresAt t = Some e -> e <> 0 ->
        e < now env + 60000 ->
        fst call = fst (OAuthClient.refreshToken P jwtDecode config env c)
        /\ (forall w', refreshed = (w', Returned None) ->
              call = (OAuthClient.set_world (fun _ => w') c, Returned None))
        /\ (forall w' fresh, refreshed = (w', Returned (Some fresh)) -> quiet config c ->
              call = (loaded jwtDecode env fresh (OAuthClient.set_world (fun _ => w') c),
                      Returned (accessToken <$> getStoredTokens P (storage w')))
              /\ tokenStorage (storage w') !! STORAGE_KEYS.TOKENS
                 = Some (JSON_stringify P fresh)))
  /\ (quiet config c -> exists c' result, call = (c', Returned result))
  /\ (forall c' tok, call = (c', Returned (Some tok)) ->
        (c' = c
         /\ exists t, stored = Some t /\ tok = accessToken t
            /\ forall e, expiresAt t = Some e -> e <> 0 -> now env + 60000 <= e)
        \/ (exists response fresh,
              status response = 200
              /\ fresh = parseTokenResponse (now_parse env) (data response)
              /\ tokenStorage (storage (world c')) !! STORAGE_KEYS.TOKENS
                 = Some (JSON_stringify P fresh)
              /\ Some tok = accessToken <$> getStoredTokens P (storage (world c'))
              /\ forall seconds, expires_in (data response) = Some seconds -> 0 < seconds ->
                   expiresAt fresh = Some (now_parse env + seconds * 1000)
                   /\ now_parse env < now_parse env + seconds * 1000)).
Proof.
  cbn zeta. rewrite getAccessToken_unfold, refreshToken_unfold.
  split; [|split; [|split; [|split]]].
  - intros ->. reflexivity.
  - intros t -> Hexp.
    assert (truthyZ (expiresAt t) && Z.ltb (nullish (expiresAt t) 0 - 60 * 1000) (now env)
            = false) as ->; [|reflexivity].
    destruct Hexp as [->|(e & -> & He)]; [reflexivity|].
    apply andb_false_iff. right. apply Z.ltb_ge. cbn [nullish]. lia.
  - intros t e -> He Hnz Hlt.
    assert (truthyZ (expiresAt t) && Z.ltb (nullish (expiresAt t) 0 - 60 * 1000) (now env)
            = true) as ->.
    { rewrite He. apply andb_true_iff. split.
      - destruct e; [congruence | reflexivity | reflexivity].
      - apply Z.ltb_lt. cbn [nullish]. lia. }
    destruct (refreshAccessToken P (now_parse env) (provider config) (httpClient env) (world c))
      as [w1 [[fresh1|]|reason]] eqn:Hrun; cbn zeta.
    + split; [destruct (refresh_callbacks _ _ _) as [[]|]; reflexivity|].
      split; [discriminate|].
      intros w' fresh [= <- <-] Hquiet.
      rewrite (refresh_callbacks_quiet jwtDecode config env fresh1
                 (OAuthClient.set_world (fun _ => w1) c) Hquiet).
      split; [reflexivity|].
      apply (refreshAccessToken_some_inv P config env) in Hrun
        as (refresh & response & _ & _ & _ & Hstored).
      exact Hstored.
    + split; [reflexivity|]. split; [|discriminate].
      intros w' [= <-]. reflexivity.
    + split; [reflexivity|]. split; discriminate.
  - intros Hquiet.
    destruct (getStoredTokens P (storage (world c))) as [t|]; [|eauto].
    destruct (truthyZ (expiresAt t) && _); [|eauto].
    destruct (refreshAccessToken_returns P config env (world c)) as (w' & result & ->).
    destruct result as [fresh|]; [|eauto].
    cbn zeta.
    rewrite (refresh_callbacks_quiet jwtDecode config env fresh
               (OAuthClient.set_world (fun _ => w') c) Hquiet). eauto.
  - intros c' tok.
    destruct (getStoredTokens P (storage (world c))) as [t|]; [|discriminate].
    destruct (truthyZ (expiresAt t) && Z.ltb (nullish (expiresAt t) 0 - 60 * 1000) (now env))
      eqn:Hcheck.
    + destruct (refreshAccessToken P (now_parse env) (provider config) (httpClient env)
                  (world c)) as [w1 [[fresh1|]|reason]] eqn:Hrun; cbn zeta;
        [|discriminate|discriminate].
      destruct (refresh_callbacks _ _ _) as [[]|]; [|discriminate].
      intros [= <- Htok]. right.
      apply (refreshAccessToken_some_inv P config env) in Hrun
        as (refresh & response & _ & H200 & Hfresh & Hstored).
      exists response, fresh1. cbn [world loaded OAuthClient.set_state OAuthClient.set_world].
      split; [exact H200|]. split; [exact Hfresh|]. split; [exact Hstored|].
      split; [symmetry; exact Htok|].
      intros seconds Hsec Hpos. split; [|lia].
      rewrite Hfresh. unfold parseTokenResponse; cbn. rewrite Hsec.
      destruct seconds; [lia | reflexivity | lia].
    + intros [= <- <-]. left. split; [reflexivity|].
      exists t. split; [reflexivity|]. split; [reflexivity|].
      intros e He Hnz. rewrite He in Hcheck. cbn [nullish] in Hcheck.
      apply andb_false_iff in Hcheck as [Hfalsy|Hge].
      * destruct e; [congruence | discriminate | discriminate].
      * apply Z.ltb_ge in Hge. lia.
Qed.

(** [client.test.ts]: with tokens that expired a second ago and a refresh
    token, [getAccessToken] refreshes and returns the new access token. *)
Example getAccessToken_refreshes_expired_tokens :
  snd (OAuthClient.getAccessToken Mock.platform Mock.jwtDecode Fixture.config
         (Fixture.surroundings None (Fixture.answering 200 Fixture.mockTokenResponse))
         (OAuthClient.createOAuthClient Fixture.storage_with_expired_tokens))
  = Returned (Some "mock-access-token")
  /\ snd (OAuthClient.getAccessToken Mock.platform Mock.jwtDecode Fixture.config
            (Fixture.surroundings None Fixture.rejecting)
            (OAuthClient.createOAuthClient Fixture.storage_with_expired_tokens))
     = Returned None
  /\ snd (OAuthClient.getAccessToken Mock.platform Mock.jwtDecode Fixture.config
            (Fixture.surroundings None Fixture.rejecting)
            (OAuthClient.createOAuthClient createMemoryStorageConfig))
     = Returned None.
Proof. vm_compute. repeat split. Qed.

(** C3 on the test "should refresh token when near expiration". *)
Lemma getAccessToken_spec_witness :
  snd (OAuthClient.getAccessToken Mock.platform Mock.jwtDecode Fixture.config
         (Fixture.surroundings None (Fixture.answering 200 Fixture.mockTokenResponse))
         (OAuthClient.createOAuthClient Fixture.storage_with_expired_tokens))
  = Returned (Some "mock-access-token").
Proof.
  destruct (getAccessToken_spec Mock.platform Mock.jwtDecode Fixture.config
              (Fixture.surroundings None (Fixture.answering 200 Fixture.mockTokenResponse))
              (OAuthClient.createOAuthClient Fixture.storage_with_expired_tokens))
    as (_ & _ & Hrefresh & _).
  destruct (Hrefresh Fixture.expired_tokens (Fixture.today - 1000)) as (_ & _ & Hfresh).
  - vm_compute. reflexivity.
  - reflexivity.
  - discriminate.
  - reflexivity.
  - destruct (Hfresh
                (fst (refreshAccessToken Mock.platform (Fixture.today + 200)
                        Fixture.mockProvider
                        (Fixture.answering 200 Fixture.mockTokenResponse)
                        {| storage := Fixture.storage_with_expired_tokens; requests := [];
                           navigation := [] |}))
                (parseTokenResponse (Fixture.today + 200) Fixture.mockTokenResponse))
      as (-> & _).
    + vm_compute. reflexivity.
    + split; [intros l s Hin; cbn in Hin; apply elem_of_nil in Hin; contradiction|].
      split; reflexivity.
    + vm_compute. reflexivity.
Defined.

(** C3, as stated, fails twice.  A subscriber that throws makes
    [getAccessToken] throw once the refresh has succeeded; and when the
    server answers the refresh with a negative [expires_in], the token
    returned is one whose stored expiry is already in the past. *)
Lemma getAccessToken_throws_and_returns_expired :
  snd (OAuthClient.getAccessToken Mock.platform Mock.jwtDecode Fixture.config
         (Fixture.surroundings None (Fixture.answering 200 Fixture.mockTokenResponse))
         (OAuthClient.perform Mock.platform Mock.jwtDecode Fixture.config
            (Fixture.surroundings None Fixture.rejecting)
            (OAuthClient.Subscribe 0 Fixture.failing_listener)
            (OAuthClient.createOAuthClient Fixture.storage_with_expired_tokens)))
  = Thrown "listener failed"
  /\ (exists c' t,
        OAuthClient.getAccessToken Mock.platform Mock.jwtDecode Fixture.config
          (Fixture.surroundings None (Fixture.answering 200 Fixture.response_already_expired))
          (OAuthClient.createOAuthClient Fixture.storage_with_expired_tokens)
        = (c', Returned (Some "mock-access-token"))
        /\ getStoredTokens Mock.platform (storage (world c')) = Some t
        /\ accessToken t = "mock-access-token"
        /\ expiresAt t = Some (Fixture.today + 200 - 5000)
        /\ Fixture.today + 200 - 5000 < Fixture.today).
Proof.
  split; [vm_compute; reflexivity|].
  exists (fst (OAuthClient.getAccessToken Mock.platform Mock.jwtDecode Fixture.config
                 (Fixture.surroundings None
                    (Fixture.answering 200 Fixture.response_already_expired))
                 (OAuthClient.createOAuthClient Fixture.storage_with_expired_tokens))),
    (parseTokenResponse (Fixture.today + 200) Fixture.response_already_expired).
  split; [vm_compute; reflexivity|].
  split; [vm_compute; reflexivity|].
  split; [reflexivity|]. split; [reflexivity|]. reflexivity.
Qed.

(* ===================================================================== *)
(** ** Further properties of the engine *)
(* ===================================================================== *)

(** X1.  [getAndClearPreAuthPath] returns the stored path, or ["/"] when
    none is stored, and removes it; every later call returns ["/"] and
    changes nothing. *)
Theorem getAndClearPreAuthPath_then_default (w : World) :
  let cleared :=
    set_storage (set_flowStorage (Storage.remove STORAGE_KEYS.PRE_AUTH_PATH)) w in
  getAndClearPreAuthPath w
    = (cleared,
       Returned (nullish (flowStorage (storage w) !! STORAGE_KEYS.PRE_AUTH_PATH) "/"))
  /\ getAndClearPreAuthPath cleared = (cleared, Returned "/").
Proof.
  cbn zeta. unfold getAndClearPreAuthPath. unfold_monad. split; [reflexivity|].
  cbn [storage flowStorage set_storage set_flowStorage]. unfold Storage.get, Storage.remove.
  rewrite lookup_delete_eq. unfold set_storage, set_flowStorage. cbn.
  rewrite delete_delete_eq. reflexivity.
Qed.

(** X2.  A successful exchange returns the pre-auth path read before the
    flow keys were removed, and leaves flow storage without verifier, state,
    redirect URI and pre-auth path, the replay guard holding the code. *)
Theorem exchangeCodeForTokens_success_clears_flow (P : Platform) (window : option Location)
    (now : Z) (provider : ProviderConfig) (httpClient : HttpClient) (url : option string)
    (w w1 : World) (tokens : TokenState) (path : string) :
  exchangeCodeForTokens P window now provider httpClient url w
    = (w1, Returned (ExchangeOk tokens path)) ->
  path = nullish (flowStorage (storage w) !! STORAGE_KEYS.PRE_AUTH_PATH) "/"
  /\ flowStorage (storage w1) !! STORAGE_KEYS.CODE_VERIFIER = None
  /\ flowStorage (storage w1) !! STORAGE_KEYS.STATE = None
  /\ flowStorage (storage w1) !! STORAGE_KEYS.REDIRECT_URI = None
  /\ flowStorage (storage w1) !! STORAGE_KEYS.PRE_AUTH_PATH = None
  /\ flowStorage (storage w1) !! STORAGE_KEYS.PREVIOUS_AUTH_CODE
     = cb_code (parseCallbackUrl P window url)
  /\ getStoredTokens P (storage w1)
     = (if negb (truthy (Some (JSON_stringify P tokens))) then None
        else JSON_parse P (JSON_stringify P tokens)).
Proof.
  intros Hok.
  apply exchangeCodeForTokens_ok_inv in Hok
    as (c & verifier & response & _ & Hcode & _ & _ & _ & _ & _ & _ & _ & _ & Hpath & ->).
  split; [exact Hpath|]. rewrite Hcode.
  unfold getStoredTokens.
  cbn [exchanged storage flowStorage tokenStorage set_storage set_flowStorage storeTokens
       set_tokenStorage log_request guard_written].
  unfold Storage.remove, Storage.set, Storage.get.
  repeat split.
  - rewrite !lookup_delete_ne by discriminate. apply lookup_delete_eq.
  - rewrite !lookup_delete_ne by discriminate. apply lookup_delete_eq.
  - rewrite !lookup_delete_ne by discriminate. apply lookup_delete_eq.
  - apply lookup_delete_eq.
  - rewrite !lookup_delete_ne by discriminate. apply lookup_insert_eq.
  - rewrite lookup_insert_eq. reflexivity.
Qed.

(** X2 on the end-to-end scenario of the tests: the path
    [/dashboard?tab=settings] stored by [authorize] comes back from the
    exchange. *)
Lemma exchangeCodeForTokens_success_clears_flow_witness :
  exists w1,
    exchangeCodeForTokens Mock.platform Fixture.at_callback Fixture.today
      Fixture.mockProvider (Fixture.answering 200 Fixture.mockTokenResponse) None
      Fixture.flow_with_path
    = (w1, Returned (ExchangeOk (parseTokenResponse Fixture.today Fixture.mockTokenResponse)
                       "/dashboard?tab=settings"))
    /\ flowStorage (storage w1) !! STORAGE_KEYS.CODE_VERIFIER = None
    /\ flowStorage (storage w1) !! STORAGE_KEYS.STATE = None.
Proof.
  exists (fst (exchangeCodeForTokens Mock.platform Fixture.at_callback Fixture.today
                 Fixture.mockProvider (Fixture.answering 200 Fixture.mockTokenResponse) None
                 Fixture.flow_with_path)).
  assert (Hrun :
    exchangeCodeForTokens Mock.platform Fixture.at_callback Fixture.today
      Fixture.mockProvider (Fixture.answering 200 Fixture.mockTokenResponse) None
      Fixture.flow_with_path
    = (fst (exchangeCodeForTokens Mock.platform Fixture.at_callback Fixture.today
              Fixture.mockProvider (Fixture.answering 200 Fixture.mockTokenResponse) None
              Fixture.flow_with_path),
       Returned (ExchangeOk (parseTokenResponse Fixture.today Fixture.mockTokenResponse)
                   "/dashboard?tab=settings")))
    by (vm_compute; reflexivity).
  split; [exact Hrun|].
  destruct (exchangeCodeForTokens_success_clears_flow _ _ _ _ _ _ _ _ _ _ Hrun)
    as (_ & Hverifier & Hstate & _).
  split; [exact Hverifier | exact Hstate].
Defined.

Section ClientProperties.

Context {TJwt TUser : Type}.
Variable P : Platform.
Variable jwtDecode : string -> completion TJwt.
Variable config : OAuthClientConfig TJwt TUser.
Variable env : Env TJwt TUser.

Lemma setState_quiet (updates : AuthStateUpdate TJwt TUser) (c : Client TJwt TUser) :
  quiet config c ->
  OAuthClient.setState config updates c
    = (OAuthClient.set_state (fun s => apply_updates s updates) c, Returned tt).
Proof.
  intros (Hl & Hs & _). unfold OAuthClient.setState. unfold_monad.
  cbn [listeners state OAuthClient.set_state].
  rewrite call_all_quiet by (intros l Hin; apply Hl; exact Hin).
  rewrite Hs. reflexivity.
Qed.

End ClientProperties.

(** X3.  [initialize] is idempotent: whenever a call of [initialize]
    returns, the client is initialized, and a later call, in whatever
    surroundings, returns at once and changes nothing. *)
Theorem initialize_idempotent {TJwt TUser : Type} (P : Platform)
    (jwtDecode : string -> completion TJwt) (config : OAuthClientConfig TJwt TUser)
    (env env' : Env TJwt TUser) (c c' : Client TJwt TUser) :
  OAuthClient.initialize P jwtDecode config env c = (c', Returned tt) ->
  isInitialized c' = true
  /\ OAuthClient.initialize P jwtDecode config env' c' = (c', Returned tt).
Proof.
  intros Hrun.
  assert (Hdone : isInitialized c' = true).
  { revert Hrun. unfold OAuthClient.initialize. unfold bind at 1. unfold gets at 1.
    cbv beta iota. destruct (isInitialized c) eqn:Hinit.
    - intros [= <-]. exact Hinit.
    - unfold bind at 1.
      match goal with
      | |- match ?x with _ => _ end = _ -> _ => destruct x as [c1 [[]|reason]]
      end; [|discriminate].
      unfold modify. intros [= <-]. reflexivity. }
  split; [exact Hdone|].
  unfold OAuthClient.initialize. unfold bind at 1. unfold gets at 1.
  rewrite Hdone. reflexivity.
Qed.

(** X3 on a new client over empty storage, away from the callback page. *)
Lemma initialize_idempotent_witness :
  exists c' : Client string string,
    OAuthClient.initialize Mock.platform Mock.jwtDecode Fixture.config
      (Fixture.surroundings None Fixture.rejecting)
      (OAuthClient.createOAuthClient createMemoryStorageConfig) = (c', Returned tt)
    /\ isLoading (state c') = false
    /\ OAuthClient.initialize Mock.platform Mock.jwtDecode Fixture.config
         (Fixture.surroundings Fixture.at_callback
            (Fixture.answering 200 Fixture.mockTokenResponse)) c'
       = (c', Returned tt).
Proof.
  exists (fst (OAuthClient.initialize Mock.platform Mock.jwtDecode Fixture.config
                 (Fixture.surroundings None Fixture.rejecting)
                 (OAuthClient.createOAuthClient createMemoryStorageConfig))).
  assert (Hrun :
    OAuthClient.initialize Mock.platform Mock.jwtDecode Fixture.config
      (Fixture.surroundings None Fixture.rejecting)
      (OAuthClient.createOAuthClient createMemoryStorageConfig)
    = (fst (OAuthClient.initialize Mock.platform Mock.jwtDecode Fixture.config
              (Fixture.surroundings None Fixture.rejecting)
              (OAuthClient.createOAuthClient createMemoryStorageConfig)), Returned tt))
    by (vm_compute; reflexivity).
  split; [exact Hrun|]. split; [vm_compute; reflexivity|].
  exact (proj2 (initialize_idempotent Mock.platform Mock.jwtDecode Fixture.config _
                  (Fixture.surroundings Fixture.at_callback
                     (Fixture.answering 200 Fixture.mockTokenResponse)) _ _ Hrun)).
Defined.



(** X5.  When the exchange fails, [handleCallback] leaves the error in the
    state with [isLoading] false, and the authentication status, the JWT and
    the user as they were. *)
Theorem handleCallback_error_state {TJwt TUser : Type} (P : Platform)
    (jwtDecode : string -> completion TJwt) (config : OAuthClientConfig TJwt TUser)
    (env : Env TJwt TUser) (url : option string) (c : Client TJwt TUser)
    (w' : World) (err : AuthError) :
  isAuthenticated (state c) = false ->
  quiet config c ->
  call_optional (onError config) err = Returned tt ->
  exchangeCodeForTokens P (window env) (now_parse env) (provider config) (httpClient env)
    url (world c) = (w', Returned (ExchangeError err)) ->
  exists c',
    OAuthClient.handleCallback P jwtDecode config env url c = (c', Returned tt)
    /\ world c' = w'
    /\ error (state c') = Some err
    /\ isLoading (state c') = false
    /\ isAuthenticated (state c') = false
    /\ jwt (state c') = jwt (state c)
    /\ user (state c') = user (state c).
Proof.
  intros Hauth Hquiet Hcallback Hexchange.
  unfold OAuthClient.handleCallback. unfold bind at 1. unfold gets at 1.
  cbv beta iota. rewrite Hauth.
  unfold bind at 1. rewrite (setState_quiet config _ c Hquiet).
  unfold bind at 1. unfold OAuthClient.lift.
  cbn [world OAuthClient.set_state]. rewrite Hexchange.
  unfold OAuthClient.handleError. unfold bind at 1.
  rewrite setState_quiet by exact Hquiet.
  unfold complete. rewrite Hcallback.
  eexists. split; [reflexivity|]. cbn. rewrite Hauth. repeat split; reflexivity.
Qed.

(** X5 on the test "should handle callback error". *)
Lemma handleCallback_error_state_witness :
  exists c' : Client string string,
    OAuthClient.handleCallback Mock.platform Mock.jwtDecode Fixture.config
      (Fixture.surroundings Fixture.at_callback Fixture.rejecting) None
      (OAuthClient.createOAuthClient (storage Fixture.flow_other_state)) = (c', Returned tt)
    /\ error (state c') = Some state_failure
    /\ isAuthenticated (state c') = false.
Proof.
  destruct (handleCallback_error_state Mock.platform Mock.jwtDecode Fixture.config
              (Fixture.surroundings Fixture.at_callback Fixture.rejecting) None
              (OAuthClient.createOAuthClient (storage Fixture.flow_other_state))
              Fixture.flow_other_state state_failure)
    as (c' & Hrun & _ & Herror & _ & Hauth & _).
  - reflexivity.
  - split; [intros l s Hin; cbn in Hin; apply elem_of_nil in Hin; contradiction|].
    split; reflexivity.
  - reflexivity.
  - vm_compute. reflexivity.
  - exists c'. split; [exact Hrun|]. split; [exact Herror | exact Hauth].
Defined.

(** X6.  [initialize] away from the callback page, with stored tokens whose
    non-zero expiry is in the past and a refresh token, the token endpoint
    answering 200 and no subscriber or callback throwing: the client ends
    authenticated and initialized after exactly one request, the refresh,
    and no navigation. *)
Theorem initialize_refreshes_expired_tokens {TJwt TUser : Type} (P : Platform)
    (jwtDecode : string -> completion TJwt) (config : OAuthClientConfig TJwt TUser)
    (env : Env TJwt TUser) (c : Client TJwt TUser) (stored : TokenState) (e : Z)
    (refresh : string) (response : HttpResponse) :
  isInitialized c = false ->
  isCallbackUrl P (window env) (redirectUri (provider config)) None = false ->
  getStoredTokens P (storage (world c)) = Some stored ->
  expiresAt stored = Some e -> e <> 0 -> e < now env ->
  refreshToken stored = Some refresh -> refresh <> "" ->
  httpClient env (refresh_request (provider config) refresh) = Resolves response ->
  status response = 200 ->
  quiet config c ->
  exists c',
    OAuthClient.initialize P jwtDecode config env c = (c', Returned tt)
    /\ isAuthenticated (state c') = true
    /\ isLoading (state c') = false
    /\ isInitialized c' = true
    /\ requests (world c')
       = (requests (world c) ++ [refresh_request (provider config) refresh])%list
    /\ navigation (world c') = navigation (world c)
    /\ tokenStorage (storage (world c')) !! STORAGE_KEYS.TOKENS
       = Some (JSON_stringify P (parseTokenResponse (now_parse env) (data response))).
Proof.
  intros Hinit Hpage Hstored Hexp Hnz Hpast Hrefresh Hne Hreq H200 Hquiet.
  unfold OAuthClient.initialize. unfold bind at 1. unfold gets at 1.
  cbv beta iota. rewrite Hinit, Hpage.
  unfold bind at 1. unfold bind at 1. unfold gets at 1. cbv beta iota.
  rewrite Hstored, Hexp.
  assert (truthyZ (Some e) && Z.ltb (nullish (Some e) 0) (now env) = true) as ->.
  { apply andb_true_iff. split.
    - destruct e; [congruence | reflexivity | reflexivity].
    - apply Z.ltb_lt. exact Hpast. }
  unfold bind at 1. rewrite refreshToken_unfold.
  rewrite (refreshAccessToken_with_refresh_token P _ _ _ (world c) refresh)
    by (rewrite ?Hstored; auto).
  cbn zeta. rewrite Hreq. rewrite (proj2 (Z.eqb_eq _ _) H200).
  rewrite (refresh_callbacks_quiet jwtDecode config env _
             (OAuthClient.set_world _ c) Hquiet).
  cbn [negb].
  rewrite setState_quiet by exact Hquiet.
  unfold modify. eexists. split; [reflexivity|]. cbn.
  repeat split; try reflexivity. unfold Storage.set. apply lookup_insert_eq.
Qed.

(** X6 on the end-to-end scenario of the tests. *)
Lemma initialize_refreshes_expired_tokens_witness :
  exists c' : Client string string,
    OAuthClient.initialize Mock.platform Mock.jwtDecode Fixture.config
      (Fixture.surroundings None (Fixture.answering 200 Fixture.mockTokenResponse))
      (OAuthClient.createOAuthClient Fixture.storage_with_expired_tokens) = (c', Returned tt)
    /\ isAuthenticated (state c') = true
    /\ length (requests (world c')) = 1%nat
    /\ navigation (world c') = [].
Proof.
  destruct (initialize_refreshes_expired_tokens Mock.platform Mock.jwtDecode Fixture.config
              (Fixture.surroundings None (Fixture.answering 200 Fixture.mockTokenResponse))
              (OAuthClient.createOAuthClient Fixture.storage_with_expired_tokens)
              Fixture.expired_tokens (Fixture.today - 1000) "refresh-token"
              {| status := 200; data := Fixture.mockTokenResponse |})
    as (c' & Hrun & Hauth & _ & _ & Hreq & Hnav & _).
  - reflexivity.
  - reflexivity.
  - vm_compute. reflexivity.
  - reflexivity.
  - discriminate.
  - reflexivity.
  - reflexivity.
  - discriminate.
  - reflexivity.
  - reflexivity.
  - split; [intros l s Hin; cbn in Hin; apply elem_of_nil in Hin; contradiction|].
    split; reflexivity.
  - exists c'. split; [exact Hrun|]. split; [exact Hauth|].
    split; [rewrite Hreq; reflexivity | exact Hnav].
Defined.

(** X7.  [logout] with default options in a browser, on a provider whose
    logout endpoint is a URL, no subscriber or callback throwing: both
    storages are emptied, the state is unauthenticated, and there is exactly
    one navigation, to the logout endpoint, with [id_token_hint] set to the
    stored ID token when there is one and left as the endpoint has it
    otherwise. *)
Theorem logout_clears_and_navigates {TJwt TUser : Type} (P : Platform)
    (config : OAuthClientConfig TJwt TUser) (env : Env TJwt TUser) (c : Client TJwt TUser)
    (location : Location) (endpoint : string) (base : URL) :
  window env = Some location ->
  logoutEndpoint (endpoints (provider config)) = Some endpoint -> endpoint <> "" ->
  URL_new P endpoint None = Some base ->
  quiet config c ->
  exists c' target,
    OAuthClient.logout P config env {| redirect := None; localOnly := None |} c
      = (c', Returned tt)
    /\ tokenStorage (storage (world c')) = ∅
    /\ flowStorage (storage (world c')) = ∅
    /\ navigation (world c') = (navigation (world c) ++ [LocationReplace target])%list
    /\ requests (world c') = requests (world c)
    /\ origin target = origin base /\ pathname target = pathname base
    /\ (forall hint, getStoredTokens P (storage (world c)) ≫= idToken = Some hint ->
          hint <> "" ->
          searchParams_get "id_token_hint" (searchParams target) = Some hint)
    /\ (truthy (getStoredTokens P (storage (world c)) ≫= idToken) = false ->
          searchParams_get "id_token_hint" (searchParams target)
          = searchParams_get "id_token_hint" (searchParams base))
    /\ isAuthenticated (state c') = false
    /\ jwt (state c') = None /\ user (state c') = None /\ error (state c') = None.
Proof.
  intros Hwindow Hendpoint Hne Hurl Hquiet.
  assert (Htruthy : truthy (Some endpoint) = true) by (apply truthy_true; eauto).
  unfold OAuthClient.logout. unfold bind at 1. unfold OAuthClient.lift.
  unfold logout, buildLogoutUrl, buildUrl.
  rewrite Hwindow, Hendpoint, Htruthy. cbn [nullish negb andb].
  rewrite bool_decide_eq_true_2 by eauto. rewrite Hurl.
  unfold_monad.
  cbn [redirect localOnly nullish negb andb]. cbv beta iota.
  destruct (truthy (getStoredTokens P (storage (world c)) ≫= idToken)) eqn:Hid.
  all: rewrite setState_quiet by exact Hquiet;
    eexists _, _; split; [reflexivity|];
    cbn [world state storage navigation requests tokenStorage flowStorage origin pathname
         searchParams OAuthClient.set_state OAuthClient.set_world set_storage clearTokens
         set_tokenStorage set_flowStorage log_navigation apply_updates nullish
         isAuthenticated jwt user error upd_isAuthenticated upd_jwt upd_user upd_error];
    repeat (split; [reflexivity|]).
  - split.
    + intros hint Hhint Hhne. cbn [searchParams].
      rewrite buildUrl_loop_get, Hhint. reflexivity.
    + split; [discriminate | repeat split; reflexivity].
  - split.
    + intros hint Hhint Hhne. rewrite Hhint in Hid.
      assert (truthy (Some hint) = true) by (apply truthy_true; eauto). congruence.
    + split; [|repeat split; reflexivity].
      intros _. cbn [searchParams]. rewrite buildUrl_loop_get. reflexivity.
Qed.

(** X7 on [logout.test.ts]: stored tokens with an ID token. *)
Lemma logout_clears_and_navigates_witness :
  exists (c' : Client string string) target,
    OAuthClient.logout Mock.platform Fixture.config_with_logout
      (Fixture.surroundings Fixture.at_dashboard Fixture.rejecting) Fixture.default_logout
      (OAuthClient.createOAuthClient
         (storeTokens Mock.platform Fixture.tokens_with_id_token createMemoryStorageConfig))
    = (c', Returned tt)
    /\ navigation (world c') = [LocationReplace target]
    /\ pathname target = "/logout"
    /\ searchParams_get "id_token_hint" (searchParams target) = Some "mock-id-token".
Proof.
  destruct (logout_clears_and_navigates Mock.platform Fixture.config_with_logout
              (Fixture.surroundings Fixture.at_dashboard Fixture.rejecting)
              (OAuthClient.createOAuthClient
                 (storeTokens Mock.platform Fixture.tokens_with_id_token
                    createMemoryStorageConfig))
              {| href := "http://localhost:3000/dashboard";
                 location_origin := "http://localhost:3000";
                 location_pathname := "/dashboard";
                 location_search := "";
                 location_hash := "" |}
              "https://auth.example.com/logout"
              {| origin := "https://auth.example.com"; pathname := "/logout";
                 searchParams := [] |})
    as (c' & target & Hrun & _ & _ & Hnav & _ & _ & Hpath & Hhint & _).
  - reflexivity.
  - reflexivity.
  - discriminate.
  - reflexivity.
  - split; [intros l s Hin; cbn in Hin; apply elem_of_nil in Hin; contradiction|].
    split; reflexivity.
  - exists c', target. split; [exact Hrun|]. split; [exact Hnav|].
    split; [exact Hpath|]. apply Hhint; [vm_compute; reflexivity | discriminate].
Defined.

(* ===================================================================== *)
(** ** Further properties of oauth/token.ts and oauth/authorize.ts *)
(* ===================================================================== *)

(** X8.  Where [JSON.parse] reads back what [JSON.stringify] wrote for the
    tokens, [getStoredTokens] after [storeTokens] gives the tokens; storing
    leaves flow storage alone and replaces what was stored before; after
    [clearTokens] there are no stored tokens. *)
Theorem storeTokens_getStoredTokens (P : Platform) (tokens : TokenState) (s : StorageConfig) :
  JSON_stringify P tokens <> "" ->
  JSON_parse P (JSON_stringify P tokens) = Some tokens ->
  getStoredTokens P (storeTokens P tokens s) = Some tokens
  /\ flowStorage (storeTokens P tokens s) = flowStorage s
  /\ (forall earlier, storeTokens P tokens (storeTokens P earlier s) = storeTokens P tokens s)
  /\ getStoredTokens P (clearTokens (storeTokens P tokens s)) = None.
Proof.
  intros Hne Hparse.
  assert (Htruthy : truthy (Some (JSON_stringify P tokens)) = true)
    by (apply truthy_true; eauto).
  unfold getStoredTokens, storeTokens, clearTokens, set_tokenStorage, set_flowStorage,
    Storage.get, Storage.set, Storage.clear.
  cbn [tokenStorage flowStorage].
  rewrite lookup_insert_eq, Htruthy. cbn [negb].
  split; [exact Hparse|]. split; [reflexivity|].
  split; [intros earlier; rewrite insert_insert_eq; reflexivity|].
  rewrite lookup_empty. reflexivity.
Qed.

(** X8 on the tokens of [logout.test.ts]. *)
Lemma storeTokens_getStoredTokens_witness :
  getStoredTokens Mock.platform
    (storeTokens Mock.platform Fixture.tokens_with_id_token
       Fixture.storage_with_expired_tokens)
  = Some Fixture.tokens_with_id_token.
Proof.
  destruct (storeTokens_getStoredTokens Mock.platform Fixture.tokens_with_id_token
              Fixture.storage_with_expired_tokens) as (Hread & _).
  - vm_compute. discriminate.
  - vm_compute. reflexivity.
  - exact Hread.
Defined.

(** X9.  [exchangeCodeForTokens] returns, whatever the callback and the
    server do, and never navigates.  It sends at most one request, and only
    with a non-empty code from the callback and a non-empty stored verifier:
    the request of the authorization-code grant, with the stored redirect
    URI when there is one and the provider's otherwise, the code having been
    written to the replay guard.  Unless it succeeds, token storage is
    untouched and flow storage changes at the replay guard only. *)
Theorem exchangeCodeForTokens_effects (P : Platform) (window : option Location) (now : Z)
    (provider : ProviderConfig) (httpClient : HttpClient) (url : option string) (w : World) :
  exists w1 result,
    exchangeCodeForTokens P window now provider httpClient url w = (w1, Returned result)
    /\ navigation w1 = navigation w
    /\ (requests w1 = requests w
        \/ exists code verifier,
             cb_code (parseCallbackUrl P window url) = Some code /\ code <> ""
             /\ flowStorage (storage w) !! STORAGE_KEYS.CODE_VERIFIER = Some verifier
             /\ verifier <> ""
             /\ requests w1
                = (requests w ++
                   [exchange_request provider
                      (nullish (flowStorage (storage w) !! STORAGE_KEYS.REDIRECT_URI)
                         (redirectUri provider)) code verifier])%list
             /\ flowStorage (storage w1) !! STORAGE_KEYS.PREVIOUS_AUTH_CODE = Some code)
    /\ ((forall tokens path, result <> ExchangeOk tokens path) ->
        tokenStorage (storage w1) = tokenStorage (storage w)
        /\ forall key, key <> STORAGE_KEYS.PREVIOUS_AUTH_CODE ->
             flowStorage (storage w1) !! key = flowStorage (storage w) !! key).
Proof.
  rewrite exchangeCodeForTokens_unfold. cbn zeta.
  destruct (truthy (cb_error _)); [eexists _, _; split; [reflexivity|]; auto|].
  destruct (truthy (cb_code _)) eqn:Hcode; cbn [negb];
    [|eexists _, _; split; [reflexivity|]; auto].
  destruct (validateState _ _); cbn [negb]; [|eexists _, _; split; [reflexivity|]; auto].
  destruct (truthy (flowStorage (storage w) !! STORAGE_KEYS.CODE_VERIFIER)) eqn:Hver;
    cbn [negb]; [|eexists _, _; split; [reflexivity|]; auto].
  apply truthy_true in Hcode as (code & Hc & Hcode).
  apply truthy_true in Hver as (verifier & Hv & Hver).
  rewrite Hcode, Hver. cbn [nullish].
  case_bool_decide as Hprev; [eexists _, _; split; [reflexivity|]; auto|].
  assert (Hguard : forall key, key <> STORAGE_KEYS.PREVIOUS_AUTH_CODE ->
            flowStorage (storage (guard_written code w)) !! key
            = flowStorage (storage w) !! key).
  { intros key Hkey. cbn. unfold Storage.set. apply lookup_insert_ne.
    intros Heq. apply Hkey. rewrite <- Heq. reflexivity. }
  destruct (httpClient _) as [response|err].
  - destruct (Z.eqb (status response) 200); cbn [negb].
    + eexists _, _. split; [reflexivity|]. split; [reflexivity|]. split.
      * right. exists code, verifier. repeat split; auto.
        cbn. unfold Storage.remove, Storage.set.
        rewrite !lookup_delete_ne by discriminate. apply lookup_insert_eq.
      * intros Hnot. exfalso. eapply Hnot. reflexivity.
    + eexists _, _. split; [reflexivity|]. split; [reflexivity|]. split.
      * right. exists code, verifier. repeat split; auto.
        cbn. unfold Storage.set. apply lookup_insert_eq.
      * intros _. split; [reflexivity | exact Hguard].
  - eexists _, _. split; [reflexivity|]. split; [reflexivity|]. split.
    + right. exists code, verifier. repeat split; auto.
      cbn. unfold Storage.set. apply lookup_insert_eq.
    + intros _. split; [reflexivity | exact Hguard].
Qed.

Section AuthorizeEffects.

Variable P : Platform.
Variable window : option Location.

(** [buildAuthorizationUrl] writes the flow state, then builds the URL. *)
Lemma buildAuthorizationUrl_unfold entropy provider options w :
  buildAuthorizationUrl P window entropy provider options w
  = (flow_written window entropy provider options w,
     match URL_new P (authorizationEndpoint (endpoints provider)) None with
     | None => Thrown "TypeError: Invalid URL"
     | Some u =>
         Returned
           {| origin := origin u;
              pathname := pathname u;
              searchParams :=
                fold_left
                  (fun sp entry =>
                     match snd entry with
                     | Some value => searchParams_set (fst entry) value sp
                     | None => sp
                     end)
                  (authorization_params entropy provider options) (searchParams u) |}
     end).
Proof.
  unfold buildAuthorizationUrl, buildUrl, flow_written. cbn zeta.
  destruct (nullish (preservePath options) false);
    [destruct (truthy (Some (getCurrentPath window))) eqn:Hpath|];
    destruct (URL_new P (authorizationEndpoint (endpoints provider)) None);
    unfold_monad; cbn [andb nullish]; rewrite ?Hpath; reflexivity.
Qed.

Lemma flow_written_lookup entropy provider options w :
  let flow := flowStorage (storage (flow_written window entropy provider options w)) in
  flow !! STORAGE_KEYS.CODE_VERIFIER = Some (codeVerifier (fresh_pkce entropy))
  /\ flow !! STORAGE_KEYS.STATE = Some (fresh_state entropy)
  /\ flow !! STORAGE_KEYS.REDIRECT_URI = Some (redirectUri provider)
  /\ flow !! STORAGE_KEYS.PRE_AUTH_PATH
     = (if nullish (preservePath options) false && truthy (Some (getCurrentPath window))
        then Some (getCurrentPath window)
        else flowStorage (storage w) !! STORAGE_KEYS.PRE_AUTH_PATH)
  /\ flow !! STORAGE_KEYS.PREVIOUS_AUTH_CODE
     = flowStorage (storage w) !! STORAGE_KEYS.PREVIOUS_AUTH_CODE.
Proof.
  cbn zeta. unfold flow_written. cbn zeta.
  destruct (nullish (preservePath options) false && truthy (Some (getCurrentPath window)));
    cbn [storage flowStorage set_storage set_flowStorage]; unfold Storage.set;
    repeat split;
    rewrite ?(lookup_insert_ne _ STORAGE_KEYS.PRE_AUTH_PATH) by discriminate;
    rewrite ?(lookup_insert_ne _ STORAGE_KEYS.REDIRECT_URI) by discriminate;
    rewrite ?(lookup_insert_ne _ STORAGE_KEYS.STATE) by discriminate;
    rewrite ?(lookup_insert_ne _ STORAGE_KEYS.CODE_VERIFIER) by discriminate;
    rewrite ?lookup_insert_eq; reflexivity.
Qed.

Lemma flow_written_rest entropy provider options w :
  tokenStorage (storage (flow_written window entropy provider options w))
  = tokenStorage (storage w)
  /\ requests (flow_written window entropy provider options w) = requests w
  /\ navigation (flow_written window entropy provider options w) = navigation w.
Proof.
  unfold flow_written. cbn zeta.
  destruct (nullish (preservePath options) false && truthy (Some (getCurrentPath window)));
    repeat split.
Qed.

End AuthorizeEffects.

(** X10.  [authorize] writes the drawn verifier, the drawn state and the
    provider's redirect URI into flow storage, and the current path when
    [preservePath] is set (a path stored earlier stays otherwise); it leaves
    the replay guard and token storage alone and sends no request.  With an
    authorization endpoint that is a URL it returns, and in a browser
    navigates exactly once, to the URL [buildAuthorizationUrl] returns;
    outside a browser it does not navigate.  With an endpoint that is not a
    URL it throws a [TypeError] without navigating, the flow state having
    been written all the same. *)
Theorem authorize_effects (P : Platform) (window : option Location) (entropy : Entropy)
    (provider : ProviderConfig) (options : AuthorizeOptions) (w : World) :
  exists w1 result,
    authorize P window entropy provider options w = (w1, result)
    /\ flowStorage (storage w1) !! STORAGE_KEYS.CODE_VERIFIER
       = Some (codeVerifier (fresh_pkce entropy))
    /\ flowStorage (storage w1) !! STORAGE_KEYS.STATE = Some (fresh_state entropy)
    /\ flowStorage (storage w1) !! STORAGE_KEYS.REDIRECT_URI = Some (redirectUri provider)
    /\ flowStorage (storage w1) !! STORAGE_KEYS.PRE_AUTH_PATH
       = (if nullish (preservePath options) false && truthy (Some (getCurrentPath window))
          then Some (getCurrentPath window)
          else flowStorage (storage w) !! STORAGE_KEYS.PRE_AUTH_PATH)
    /\ flowStorage (storage w1) !! STORAGE_KEYS.PREVIOUS_AUTH_CODE
       = flowStorage (storage w) !! STORAGE_KEYS.PREVIOUS_AUTH_CODE
    /\ tokenStorage (storage w1) = tokenStorage (storage w)
    /\ requests w1 = requests w
    /\ (URL_new P (authorizationEndpoint (endpoints provider)) None = None ->
          result = Thrown "TypeError: Invalid URL" /\ navigation w1 = navigation w)
    /\ (forall base, URL_new P (authorizationEndpoint (endpoints provider)) None = Some base ->
          result = Returned tt
          /\ match window with
             | None => navigation w1 = navigation w
             | Some _ =>
                 exists target,
                   navigation w1 = (navigation w ++ [LocationReplace target])%list
                   /\ origin target = origin base /\ pathname target = pathname base
                   /\ snd (buildAuthorizationUrl P window entropy provider options w)
                      = Returned target
             end).
Proof.
  destruct (flow_written_lookup window entropy provider options w)
    as (Hv & Hs & Hr & Hp & Hg).
  destruct (flow_written_rest window entropy provider options w) as (Ht & Hq & Hn).
  unfold authorize. unfold bind at 1. rewrite buildAuthorizationUrl_unfold.
  destruct (URL_new P (authorizationEndpoint (endpoints provider)) None) as [base|].
  - destruct window as [location|].
    + rewrite bool_decide_eq_true_2 by eauto. unfold modify.
      eexists _, _. split; [reflexivity|].
      cbn [storage log_navigation requests navigation].
      repeat (split; [assumption|]). split; [discriminate|].
      intros base' [= <-]. split; [reflexivity|].
      eexists. split; [rewrite Hn; reflexivity|]. repeat split.
    + rewrite bool_decide_eq_false_2 by (intros [? ?]; discriminate). unfold ret.
      eexists _, _. split; [reflexivity|].
      repeat (split; [assumption|]). split; [discriminate|].
      intros base' [= <-]. split; [reflexivity | exact Hn].
  - eexists _, _. split; [reflexivity|].
    repeat (split; [assumption|]). split; [|discriminate].
    intros _. split; [reflexivity | exact Hn].
Qed.

(** X11.  The flow from [authorize] to the callback.  After [authorize]
    with a non-empty drawn state and verifier, take a callback without an
    error parameter, with a non-empty code that the replay guard does not
    hold.  If its state is not the drawn one, [exchangeCodeForTokens]
    answers [invalid_state] and changes nothing.  If it is, exactly one
    request leaves, carrying the code, the provider's redirect URI and the
    verifier [authorize] stored; when the server answers 200 the parsed
    tokens are returned and stored, together with the path to go back to:
    the page [authorize] was called from when [preservePath] was set, else
    a path left in flow storage earlier, else ["/"]. *)
Theorem authorize_then_callback (P : Platform) (window page : option Location) (now : Z)
    (entropy : Entropy) (provider : ProviderConfig) (options : AuthorizeOptions)
    (httpClient : HttpClient) (url : option string) (w : World) (code : string) :
  fresh_state entropy <> "" -> codeVerifier (fresh_pkce entropy) <> "" ->
  truthy (cb_error (parseCallbackUrl P page url)) = false ->
  cb_code (parseCallbackUrl P page url) = Some code -> code <> "" ->
  flowStorage (storage w) !! STORAGE_KEYS.PREVIOUS_AUTH_CODE <> Some code ->
  let w1 := fst (authorize P window entropy provider options w) in
  let req :=
    exchange_request provider (redirectUri provider) code
      (codeVerifier (fresh_pkce entropy)) in
  (cb_state (parseCallbackUrl P page url) <> Some (fresh_state entropy) ->
     exchangeCodeForTokens P page now provider httpClient url w1
     = (w1, Returned (ExchangeError state_failure)))
  /\ (cb_state (parseCallbackUrl P page url) = Some (fresh_state entropy) ->
      forall response, httpClient req = Resolves response -> status response = 200 ->
      exists w2,
        exchangeCodeForTokens P page now provider httpClient url w1
        = (w2, Returned
                 (ExchangeOk (parseTokenResponse now (data response))
                    (if nullish (preservePath options) false
                        && truthy (Some (getCurrentPath window))
                     then getCurrentPath window
                     else nullish (flowStorage (storage w) !! STORAGE_KEYS.PRE_AUTH_PATH)
                            "/")))
        /\ requests w2 = (requests w ++ [req])%list
        /\ tokenStorage (storage w2) !! STORAGE_KEYS.TOKENS
           = Some (JSON_stringify P (parseTokenResponse now (data response)))).
Proof.
  intros Hstate Hverifier Herr Hcode Hne Hprev. cbn zeta.
  assert (Hw1 : fst (authorize P window entropy provider options w)
                = (if bool_decide (is_Some window) then
                     match URL_new P (authorizationEndpoint (endpoints provider)) None with
                     | Some u =>
                         log_navigation
                           (LocationReplace
                              {| origin := origin u;
                                 pathname := pathname u;
                                 searchParams :=
                                   fold_left
                                     (fun sp entry =>
                                        match snd entry with
                                        | Some value => searchParams_set (fst entry) value sp
                                        | None => sp
                                        end)
                                     (authorization_params entropy provider options)
                                     (searchParams u) |})
                     | None => fun w => w
                     end
                   else fun w => w) (flow_written window entropy provider options w)).
  { unfold authorize. unfold bind at 1. rewrite buildAuthorizationUrl_unfold.
    destruct (URL_new P _ None), (bool_decide (is_Some window)); reflexivity. }
  destruct (flow_written_lookup window entropy provider options w)
    as (Hv & Hs & Hr & Hp & Hg). cbn zeta in Hv, Hs, Hr, Hp, Hg.
  destruct (flow_written_rest window entropy provider options w) as (Ht & Hq & Hn).
  assert (Hflow : flowStorage (storage (fst (authorize P window entropy provider options w)))
                  = flowStorage (storage (flow_written window entropy provider options w))).
  { rewrite Hw1. destruct (bool_decide _); [destruct (URL_new P _ None)|]; reflexivity. }
  assert (Hreqs : requests (fst (authorize P window entropy provider options w))
                  = requests w).
  { rewrite Hw1, <- Hq. destruct (bool_decide _); [destruct (URL_new P _ None)|];
      reflexivity. }
  assert (Htruthy : truthy (Some code) = true) by (apply truthy_true; eauto).
  split.
  - intros Hother. apply exchangeCodeForTokens_invalid_state.
    + exact Herr.
    + rewrite Hcode. exact Htruthy.
    + rewrite Hflow, Hs. apply validateState_ne. exact Hother.
  - intros Hsame response Hresponse H200.
    rewrite exchangeCodeForTokens_unfold. cbn zeta.
    rewrite Herr, Hcode, Htruthy, Hflow, Hv, Hs, Hr, Hp, Hg, Hsame.
    assert (validateState (Some (fresh_state entropy)) (Some (fresh_state entropy)) = true)
      as -> by (apply validateState_true_iff; eauto).
    assert (truthy (Some (codeVerifier (fresh_pkce entropy))) = true) as ->
      by (apply truthy_true; eauto).
    cbn [negb nullish]. rewrite bool_decide_eq_false_2 by exact Hprev.
    rewrite Hresponse, (proj2 (Z.eqb_eq _ _) H200). cbn [negb].
    eexists. split.
    + f_equal. f_equal. f_equal.
      destruct (nullish (preservePath options) false
                && truthy (Some (getCurrentPath window))); reflexivity.
    + cbn [exchanged storage requests tokenStorage set_storage set_flowStorage storeTokens
           set_tokenStorage log_request guard_written]. rewrite Hreqs.
      split; [reflexivity|]. unfold Storage.set. apply lookup_insert_eq.
Qed.

(** X11 end to end: [authorize] with [preservePath] from [/dashboard], then
    the callback of [token.test.ts]. *)
Lemma authorize_then_callback_witness :
  exists w2,
    exchangeCodeForTokens Mock.platform Fixture.at_callback Fixture.today
      Fixture.mockProvider (Fixture.answering 200 Fixture.mockTokenResponse) None
      (fst (authorize Mock.platform Fixture.at_dashboard Fixture.drawn_for_callback
              Fixture.mockProvider Fixture.options_preserving_path Fixture.fresh_world))
    = (w2, Returned (ExchangeOk (parseTokenResponse Fixture.today Fixture.mockTokenResponse)
                       "/dashboard"))
    /\ length (requests w2) = 1%nat.
Proof.
  destruct (authorize_then_callback Mock.platform Fixture.at_dashboard Fixture.at_callback
              Fixture.today Fixture.drawn_for_callback Fixture.mockProvider
              Fixture.options_preserving_path
              (Fixture.answering 200 Fixture.mockTokenResponse) None Fixture.fresh_world
              "auth-code-123") as (_ & Hflow).
  - discriminate.
  - discriminate.
  - reflexivity.
  - reflexivity.
  - discriminate.
  - vm_compute. discriminate.
  - destruct (Hflow eq_refl {| status := 200; data := Fixture.mockTokenResponse |}
                eq_refl eq_refl) as (w2 & Hrun & Hreqs & _).
    exists w2. split; [exact Hrun|]. rewrite Hreqs. reflexivity.
Defined.

(* ===================================================================== *)
(** ** Further properties of utils/url.ts and oauth/logout.ts *)
(* ===================================================================== *)

Section UrlProperties.

Lemma count_key_filter (key other : string) (params : list (string * string)) :
  count_key key (filter (fun p => negb (String.eqb (fst p) other)) params)
  = if String.eqb other key then 0%nat else count_key key params.
Proof.
  induction params as [|[k v] rest IH].
  - destruct (String.eqb other key); reflexivity.
  - rewrite filter_cons. cbn [fst].
    destruct (String.eqb_spec k other) as [->|Hk]; cbn [negb].
    + rewrite decide_False by (cbn; auto). rewrite IH. cbn [count_key].
      destruct (String.eqb other key); reflexivity.
    + rewrite decide_True by (cbn; auto). cbn [count_key]. rewrite IH.
      destruct (String.eqb_spec other key) as [->|Hne]; [|reflexivity].
      destruct (String.eqb_spec k key); [contradiction | reflexivity].
Qed.

(** [searchParams.set] leaves one pair under its key. *)
Lemma count_key_set (key other value : string) (params : list (string * string)) :
  count_key key (searchParams_set other value params)
  = if String.eqb other key then 1%nat else count_key key params.
Proof.
  induction params as [|[k v] rest IH]; cbn [searchParams_set count_key].
  - destruct (String.eqb other key); reflexivity.
  - destruct (String.eqb_spec k other) as [->|Hk]; cbn [count_key].
    + rewrite count_key_filter. destruct (String.eqb other key); reflexivity.
    + rewrite IH. destruct (String.eqb_spec other key) as [->|Hne]; [|reflexivity].
      destruct (String.eqb_spec k key); [contradiction | reflexivity].
Qed.

Lemma buildUrl_loop_count_one (key : string) (entries : list (string * option string))
    (params : list (string * string)) :
  count_key key params = 1%nat ->
  count_key key
    (fold_left
       (fun sp entry =>
          match snd entry with
          | Some value => searchParams_set (fst entry) value sp
          | None => sp
          end) entries params) = 1%nat.
Proof.
  revert params. induction entries as [|[k v] rest IH]; intros params H; [exact H|].
  cbn [fold_left fst snd]. apply IH. destruct v as [value|]; [|exact H].
  rewrite count_key_set. destruct (String.eqb k key); [reflexivity | exact H].
Qed.

Lemma buildUrl_loop_count_present (key value : string)
    (entries : list (string * option string)) (params : list (string * string)) :
  (key, Some value) ∈ entries ->
  count_key key
    (fold_left
       (fun sp entry =>
          match snd entry with
          | Some value => searchParams_set (fst entry) value sp
          | None => sp
          end) entries params) = 1%nat.
Proof.
  revert params. induction entries as [|[k v] rest IH]; intros params Hin.
  - apply elem_of_nil in Hin. contradiction.
  - cbn [fold_left fst snd]. apply elem_of_cons in Hin as [[= <- <-]|Hin].
    + apply buildUrl_loop_count_one. rewrite count_key_set, String.eqb_refl. reflexivity.
    + apply IH. exact Hin.
Qed.

Lemma buildUrl_loop_count_absent (key : string) (entries : list (string * option string))
    (params : list (string * string)) :
  (forall value, (key, Some value) ∉ entries) ->
  count_key key
    (fold_left
       (fun sp entry =>
          match snd entry with
          | Some value => searchParams_set (fst entry) value sp
          | None => sp
          end) entries params) = count_key key params.
Proof.
  revert params. induction entries as [|[k v] rest IH]; intros params H; [reflexivity|].
  cbn [fold_left fst snd].
  rewrite IH by (intros value Hin; apply (H value); right; exact Hin).
  destruct v as [value|]; [|reflexivity].
  rewrite count_key_set. destruct (String.eqb_spec k key) as [->|]; [|reflexivity].
  exfalso. apply (H value). left.
Qed.

Lemma last_defined_absent (key : string) (entries : list (string * option string))
    (init : option string) :
  (forall value, (key, Some value) ∉ entries) -> last_defined key entries init = init.
Proof.
  revert init. induction entries as [|[k v] rest IH]; intros init H; [reflexivity|].
  cbn [last_defined]. rewrite IH by (intros value Hin; apply (H value); right; exact Hin).
  destruct (String.eqb_spec k key) as [->|]; [|reflexivity].
  destruct v as [value|]; [|reflexivity]. exfalso. apply (H value). left.
Qed.

Lemma last_defined_unique (key value : string) (entries : list (string * option string))
    (init : option string) :
  NoDup (map fst entries) -> (key, Some value) ∈ entries ->
  last_defined key entries init = Some value.
Proof.
  revert init. induction entries as [|[k v] rest IH]; intros init Hnd Hin.
  - apply elem_of_nil in Hin. contradiction.
  - cbn [map fst] in Hnd. apply NoDup_cons in Hnd as [Hk Hnd].
    cbn [last_defined]. apply elem_of_cons in Hin as [[= <- <-]|Hin].
    + rewrite String.eqb_refl. apply last_defined_absent.
      intros value' Hin. apply Hk. apply list_elem_of_In, in_map_iff.
      exists (key, Some value'). split; [reflexivity | apply list_elem_of_In; exact Hin].
    + apply IH; assumption.
Qed.

End UrlProperties.

(** X12.  [buildUrl] on the entries of an object (its keys are distinct):
    with a base that is not a URL it throws a [TypeError]; otherwise it
    returns the base URL, origin and path kept, in whose query every key
    given with a defined value occurs exactly once, with that value,
    whatever the base had under it, while a key given no value or
    [undefined] is as in the base.  The state is untouched either way. *)
Theorem buildUrl_spec {S : Type} (P : Platform) (baseUrl : string)
    (params : list (string * option string)) (s : S) :
  NoDup (map fst params) ->
  (URL_new P baseUrl None = None ->
     buildUrl P baseUrl params s = (s, Thrown "TypeError: Invalid URL"))
  /\ (forall base, URL_new P baseUrl None = Some base ->
        exists target,
          buildUrl P baseUrl params s = (s, Returned target)
          /\ origin target = origin base /\ pathname target = pathname base
          /\ (forall key value, (key, Some value) ∈ params ->
                searchParams_get key (searchParams target) = Some value
                /\ count_key key (searchParams target) = 1%nat)
          /\ (forall key, (forall value, (key, Some value) ∉ params) ->
                searchParams_get key (searchParams target)
                = searchParams_get key (searchParams base)
                /\ count_key key (searchParams target) = count_key key (searchParams base))).
Proof.
  intros Hnd. unfold buildUrl. split; [intros ->; reflexivity|].
  intros base ->. eexists. split; [reflexivity|]. cbn [origin pathname searchParams].
  split; [reflexivity|]. split; [reflexivity|]. split.
  - intros key value Hin. rewrite buildUrl_loop_get.
    split; [apply last_defined_unique; assumption|].
    apply (buildUrl_loop_count_present key value). exact Hin.
  - intros key Habsent. rewrite buildUrl_loop_get.
    split; [apply last_defined_absent; assumption|].
    apply buildUrl_loop_count_absent. exact Habsent.
Qed.

(** X12 on [url.test.ts]: a parameter given a value, over a base that has
    the key already, and a parameter that is [undefined]. *)
Lemma buildUrl_spec_witness :
  exists target,
    buildUrl Mock.platform
      "http://localhost:3000/callback?code=auth-code-123&state=test-state"
      [("state", Some "other"); ("prompt", None)] tt
    = (tt, Returned target)
    /\ searchParams target = [("code", "auth-code-123"); ("state", "other")]
    /\ searchParams_get "state" (searchParams target) = Some "other"
    /\ count_key "state" (searchParams target) = 1%nat.
Proof.
  destruct (buildUrl_spec Mock.platform
              "http://localhost:3000/callback?code=auth-code-123&state=test-state"
              [("state", Some "other"); ("prompt", None)] tt) as (_ & Hbuilt).
  - cbn. repeat constructor; rewrite ?not_elem_of_cons; repeat split;
      try discriminate; apply not_elem_of_nil.
  - destruct (Hbuilt (Mock.callback_url [("code", "auth-code-123"); ("state", "test-state")])
                eq_refl) as (target & Hrun & _ & _ & Hgiven & _).
    exists target. split; [exact Hrun|].
    split; [vm_compute in Hrun; injection Hrun as <-; reflexivity|].
    apply Hgiven. left.
Defined.

(** X13.  [buildLogoutUrl] returns [null] where the provider has no logout
    endpoint (or an empty one), and throws a [TypeError] where the endpoint
    is not a URL.  Otherwise it returns the endpoint with
    [post_logout_redirect_uri] set to the configured URI, the page's origin
    when none is configured, and with [id_token_hint] set to the ID token
    when one is given and non-empty; without one the parameter is as the
    endpoint has it.  Nothing is stored and nothing is sent. *)
Theorem buildLogoutUrl_spec (P : Platform) (window : option Location)
    (provider : ProviderConfig) (idToken : option string) (w : World) :
  (truthy (logoutEndpoint (endpoints provider)) = false ->
     buildLogoutUrl P window provider idToken w = (w, Returned None))
  /\ (forall endpoint, logoutEndpoint (endpoints provider) = Some endpoint ->
        endpoint <> "" ->
        (URL_new P endpoint None = None ->
           buildLogoutUrl P window provider idToken w = (w, Thrown "TypeError: Invalid URL"))
        /\ (forall base, URL_new P endpoint None = Some base ->
              exists target,
                buildLogoutUrl P window provider idToken w = (w, Returned (Some target))
                /\ origin target = origin base /\ pathname target = pathname base
                /\ searchParams_get "post_logout_redirect_uri" (searchParams target)
                   = Some (nullish (postLogoutRedirectUri provider)
                             (getCurrentOrigin window))
                /\ searchParams_get "id_token_hint" (searchParams target)
                   = (if truthy idToken then idToken
                      else searchParams_get "id_token_hint" (searchParams base)))).
Proof.
  unfold buildLogoutUrl, buildUrl. split.
  - intros ->. reflexivity.
  - intros endpoint Hendpoint Hne.
    assert (truthy (Some endpoint) = true) as Htruthy by (apply truthy_true; eauto).
    rewrite Hendpoint, Htruthy. cbn [negb nullish]. split.
    + intros ->. unfold_monad. reflexivity.
    + intros base ->. unfold_monad. eexists. split; [reflexivity|].
      cbn [origin pathname searchParams].
      split; [reflexivity|]. split; [reflexivity|].
      rewrite !buildUrl_loop_get.
      destruct (truthy idToken) eqn:Hid.
      * apply truthy_true in Hid as (hint & Hhne & ->). split; reflexivity.
      * split; reflexivity.
Qed.

(** X14.  [logout] that is asked not to redirect ([redirect: false] or
    [localOnly: true]), or that runs outside a browser, or for a provider
    without a logout endpoint: both storages are emptied and that is all;
    there is no navigation and no request, and it returns even where the
    logout endpoint is not a URL. *)
Theorem logout_without_redirect (P : Platform) (window : option Location)
    (provider : ProviderConfig) (options : LogoutOptions) (w : World) :
  redirect options = Some false \/ localOnly options = Some true \/ window = None
  \/ truthy (logoutEndpoint (endpoints provider)) = false ->
  logout P window provider options w = (set_storage clearTokens w, Returned tt)
  /\ tokenStorage (storage (set_storage clearTokens w)) = ∅
  /\ flowStorage (storage (set_storage clearTokens w)) = ∅
  /\ navigation (set_storage clearTokens w) = navigation w
  /\ requests (set_storage clearTokens w) = requests w.
Proof.
  intros Hcase. split; [|repeat split].
  unfold logout. unfold_monad.
  destruct (nullish (redirect options) true && negb (nullish (localOnly options) false)
            && bool_decide (is_Some window)) eqn:Hgo; [|reflexivity].
  apply andb_true_iff in Hgo as [Hgo Hwin]. apply andb_true_iff in Hgo as [Hred Hloc].
  destruct Hcase as [H|[H|[H|H]]].
  - rewrite H in Hred. discriminate.
  - rewrite H in Hloc. discriminate.
  - rewrite H in Hwin. apply bool_decide_eq_true in Hwin as [? ?]. discriminate.
  - unfold buildLogoutUrl. rewrite H. reflexivity.
Qed.

(** X14 on [logout.test.ts]: [{ localOnly: true }] with stored tokens, for
    a provider whose logout endpoint is not a URL. *)
Lemma logout_without_redirect_witness :
  logout Mock.platform Fixture.at_dashboard Fixture.provider_with_relative_logout
    Fixture.local_logout Fixture.world_with_tokens
  = ({| storage := createMemoryStorageConfig; requests := []; navigation := [] |},
     Returned tt).
Proof.
  destruct (logout_without_redirect Mock.platform Fixture.at_dashboard
              Fixture.provider_with_relative_logout Fixture.local_logout
              Fixture.world_with_tokens) as (Hrun & _).
  - right. left. reflexivity.
  - exact Hrun.
Defined.

(** X15.  The [logout] of a client in a browser, asked to redirect, for a
    provider whose logout endpoint is not a URL: the call throws a
    [TypeError] once both storages are emptied, so the state of the client
    is not reset (an authenticated client stays authenticated over empty
    storage) and there is no navigation. *)
Theorem logout_invalid_endpoint {TJwt TUser : Type} (P : Platform)
    (config : OAuthClientConfig TJwt TUser) (env : Env TJwt TUser) (c : Client TJwt TUser)
    (options : LogoutOptions) (endpoint : string) :
  is_Some (window env) ->
  nullish (redirect options) true = true -> nullish (localOnly options) false = false ->
  logoutEndpoint (endpoints (provider config)) = Some endpoint -> endpoint <> "" ->
  URL_new P endpoint None = None ->
  exists c',
    OAuthClient.logout P config env options c = (c', Thrown "TypeError: Invalid URL")
    /\ state c' = state c
    /\ tokenStorage (storage (world c')) = ∅
    /\ flowStorage (storage (world c')) = ∅
    /\ navigation (world c') = navigation (world c).
Proof.
  intros Hwindow Hred Hloc Hendpoint Hne Hurl.
  assert (truthy (Some endpoint) = true) as Htruthy by (apply truthy_true; eauto).
  unfold OAuthClient.logout. unfold bind at 1. unfold OAuthClient.lift.
  unfold logout, buildLogoutUrl, buildUrl.
  rewrite Hred, Hloc, Hendpoint, Htruthy. cbn [nullish negb andb].
  rewrite bool_decide_eq_true_2 by exact Hwindow. rewrite Hurl.
  unfold_monad.
  destruct (truthy (getStoredTokens P (storage (world c)) ≫= idToken));
    (eexists; split; [reflexivity|]; repeat split).
Qed.

(** X15 on a client that has loaded its stored tokens. *)
Lemma logout_invalid_endpoint_witness :
  exists c' : Client string string,
    OAuthClient.logout Mock.platform Fixture.config_with_relative_logout
      (Fixture.surroundings Fixture.at_dashboard Fixture.rejecting) Fixture.default_logout
      (OAuthClient.perform Mock.platform Mock.jwtDecode Fixture.config_with_relative_logout
         (Fixture.surroundings Fixture.at_dashboard Fixture.rejecting)
         OAuthClient.Initialize
         (OAuthClient.createOAuthClient Fixture.storage_with_tokens))
    = (c', Thrown "TypeError: Invalid URL")
    /\ isAuthenticated (state c') = true
    /\ tokenStorage (storage (world c')) = ∅.
Proof.
  destruct (logout_invalid_endpoint Mock.platform Fixture.config_with_relative_logout
              (Fixture.surroundings Fixture.at_dashboard Fixture.rejecting)
              (OAuthClient.perform Mock.platform Mock.jwtDecode
                 Fixture.config_with_relative_logout
                 (Fixture.surroundings Fixture.at_dashboard Fixture.rejecting)
                 OAuthClient.Initialize
                 (OAuthClient.createOAuthClient Fixture.storage_with_tokens))
              Fixture.default_logout "/logout")
    as (c' & Hrun & Hstate & Htokens & _).
  - eexists. reflexivity.
  - reflexivity.
  - reflexivity.
  - reflexivity.
  - discriminate.
  - reflexivity.
  - exists c'. split; [exact Hrun|]. split; [|exact Htokens].
    rewrite Hstate. vm_compute. reflexivity.
Defined.

(* ===================================================================== *)
(** ** Further properties of oauth/client.ts *)
(* ===================================================================== *)

Section MoreClientProperties.

Context {TJwt TUser : Type}.
Variable P : Platform.
Variable jwtDecode : string -> completion TJwt.
Variable config : OAuthClientConfig TJwt TUser.
Variable env : Env TJwt TUser.


(** A refresh that gives nothing leaves both storages as they were. *)
Lemma refreshAccessToken_none_storage now provider httpClient (w w' : World) :
  refreshAccessToken P now provider httpClient w = (w', Returned None) ->
  storage w' = storage w /\ navigation w' = navigation w.
Proof.
  intros Hrun.
  destruct (truthy (getStoredTokens P (storage w) ≫= refreshToken)) eqn:Hrt.
  - apply truthy_true in Hrt as (refresh & Hne & Hrt).
    rewrite (refreshAccessToken_with_refresh_token P _ _ _ w refresh Hrt Hne) in Hrun.
    cbn zeta in Hrun.
    destruct (httpClient (refresh_request provider refresh)) as [response|err].
    + destruct (Z.eqb (status response) 200); [discriminate|].
      injection Hrun as <-. split; reflexivity.
    + injection Hrun as <-. split; reflexivity.
  - rewrite (refreshAccessToken_no_refresh_token P _ _ _ w Hrt) in Hrun.
    injection Hrun as <-. split; reflexivity.
Qed.

End MoreClientProperties.

(** The clients of the examples have no subscriber and no callback. *)
Lemma quiet_without_callbacks {TJwt TUser : Type} (provider : ProviderConfig)
    (c : Client TJwt TUser) :
  listeners c = [] ->
  quiet {| provider := provider; onAuthStateChange := None; onTokenRefresh := None;
           onError := None |} c.
Proof.
  intros Hnone. split; [|split; reflexivity].
  intros l s Hin. rewrite Hnone in Hin. apply elem_of_nil in Hin. contradiction.
Qed.



(** X17.  [initialize] away from the callback page with stored tokens
    whose non-zero expiry has passed, when the refresh gives nothing (no
    refresh token, a rejected request, a status other than 200): both
    storages are emptied, the loading state ends, the client is initialized
    and is as authenticated as it was; the only request is the one of the
    refresh, and there is no navigation. *)
Theorem initialize_failed_refresh {TJwt TUser : Type} (P : Platform)
    (jwtDecode : string -> completion TJwt) (config : OAuthClientConfig TJwt TUser)
    (env : Env TJwt TUser) (c : Client TJwt TUser) (stored : TokenState) (e : Z)
    (w' : World) :
  isInitialized c = false ->
  isCallbackUrl P (window env) (redirectUri (provider config)) None = false ->
  getStoredTokens P (storage (world c)) = Some stored ->
  expiresAt stored = Some e -> e <> 0 -> e < now env ->
  refreshAccessToken P (now_parse env) (provider config) (httpClient env) (world c)
    = (w', Returned None) ->
  quiet config c ->
  exists c',
    OAuthClient.initialize P jwtDecode config env c = (c', Returned tt)
    /\ tokenStorage (storage (world c')) = ∅
    /\ flowStorage (storage (world c')) = ∅
    /\ requests (world c') = requests w'
    /\ navigation (world c') = navigation (world c)
    /\ isInitialized c' = true
    /\ isLoading (state c') = false
    /\ isAuthenticated (state c') = isAuthenticated (state c)
    /\ error (state c') = error (state c).
Proof.
  intros Hinit Hpage Hstored Hexp Hnz Hpast Hrefresh Hquiet.
  unfold OAuthClient.initialize. unfold bind at 1. unfold gets at 1.
  cbv beta iota. rewrite Hinit, Hpage.
  unfold bind at 1. unfold bind at 1. unfold gets at 1. cbv beta iota.
  rewrite Hstored, Hexp.
  assert (truthyZ (Some e) && Z.ltb (nullish (Some e) 0) (now env) = true) as ->.
  { apply andb_true_iff. split.
    - destruct e; [congruence | reflexivity | reflexivity].
    - apply Z.ltb_lt. exact Hpast. }
  unfold bind at 1. rewrite refreshToken_unfold, Hrefresh. cbn [negb].
  unfold bind at 1. unfold OAuthClient.lift, modify.
  rewrite setState_quiet by exact Hquiet.
  eexists. split; [reflexivity|].
  destruct (refreshAccessToken_none_storage P _ _ _ _ _ Hrefresh) as [_ Hnav].
  cbn. repeat split. exact Hnav.
Qed.

(** X17 on [client.test.ts]: "should clear state when refresh fails on
    initialize". *)
Lemma initialize_failed_refresh_witness :
  exists c' : Client string string,
    OAuthClient.initialize Mock.platform Mock.jwtDecode Fixture.config
      (Fixture.surroundings Fixture.at_dashboard Fixture.rejecting)
      (OAuthClient.createOAuthClient Fixture.storage_with_expired_tokens)
    = (c', Returned tt)
    /\ tokenStorage (storage (world c')) = ∅
    /\ isAuthenticated (state c') = false
    /\ isLoading (state c') = false.
Proof.
  destruct (initialize_failed_refresh Mock.platform Mock.jwtDecode Fixture.config
              (Fixture.surroundings Fixture.at_dashboard Fixture.rejecting)
              (OAuthClient.createOAuthClient Fixture.storage_with_expired_tokens)
              Fixture.expired_tokens (Fixture.today - 1000)
              (fst (refreshAccessToken Mock.platform (Fixture.today + 200)
                      Fixture.mockProvider Fixture.rejecting
                      {| storage := Fixture.storage_with_expired_tokens; requests := [];
                         navigation := [] |})))
    as (c' & Hrun & Htokens & _ & _ & _ & _ & Hloading & Hauth & _).
  - reflexivity.
  - reflexivity.
  - vm_compute. reflexivity.
  - reflexivity.
  - discriminate.
  - reflexivity.
  - vm_compute. reflexivity.
  - apply quiet_without_callbacks. reflexivity.
  - exists c'. split; [exact Hrun|]. split; [exact Htokens|].
    split; [rewrite Hauth; reflexivity | exact Hloading].
Defined.

(** X18.  [initialize] on the callback page when the exchange fails, no
    subscriber or callback throwing: the error is left in the state with
    the loading state ended, and the client is initialized all the same, so
    a later [initialize] does not try the callback again. *)
Theorem initialize_at_callback_failure {TJwt TUser : Type} (P : Platform)
    (jwtDecode : string -> completion TJwt) (config : OAuthClientConfig TJwt TUser)
    (env env' : Env TJwt TUser) (c : Client TJwt TUser) (w' : World) (err : AuthError) :
  isInitialized c = false ->
  isAuthenticated (state c) = false ->
  isCallbackUrl P (window env) (redirectUri (provider config)) None = true ->
  quiet config c ->
  call_optional (onError config) err = Returned tt ->
  exchangeCodeForTokens P (window env) (now_parse env) (provider config) (httpClient env)
    None (world c) = (w', Returned (ExchangeError err)) ->
  exists c',
    OAuthClient.initialize P jwtDecode config env c = (c', Returned tt)
    /\ world c' = w'
    /\ isInitialized c' = true
    /\ error (state c') = Some err
    /\ isLoading (state c') = false
    /\ isAuthenticated (state c') = false
    /\ OAuthClient.initialize P jwtDecode config env' c' = (c', Returned tt).
Proof.
  intros Hinit Hauth Hpage Hquiet Hcallback Hexchange.
  unfold OAuthClient.initialize at 1. unfold bind at 1. unfold gets at 1.
  cbv beta iota. rewrite Hinit, Hpage.
  unfold bind at 1.
  unfold OAuthClient.handleCallback. unfold bind at 1. unfold gets at 1.
  cbv beta iota. rewrite Hauth.
  unfold bind at 1. rewrite (setState_quiet config _ c Hquiet).
  unfold bind at 1. unfold OAuthClient.lift.
  cbn [world OAuthClient.set_state]. rewrite Hexchange.
  unfold OAuthClient.handleError. unfold bind at 1.
  rewrite setState_quiet by exact Hquiet.
  unfold complete. rewrite Hcallback. unfold modify.
  eexists. split; [reflexivity|]. cbn. rewrite Hauth. repeat split.
Qed.

(** X18 on the callback of [client.test.ts] with another state in flow
    storage. *)
Lemma initialize_at_callback_failure_witness :
  exists c' : Client string string,
    OAuthClient.initialize Mock.platform Mock.jwtDecode Fixture.config
      (Fixture.surroundings Fixture.at_callback
         (Fixture.answering 200 Fixture.mockTokenResponse))
      (OAuthClient.createOAuthClient (storage Fixture.flow_other_state)) = (c', Returned tt)
    /\ isInitialized c' = true
    /\ error (state c') = Some state_failure
    /\ requests (world c') = [].
Proof.
  destruct (initialize_at_callback_failure Mock.platform Mock.jwtDecode Fixture.config
              (Fixture.surroundings Fixture.at_callback
                 (Fixture.answering 200 Fixture.mockTokenResponse))
              (Fixture.surroundings Fixture.at_callback
                 (Fixture.answering 200 Fixture.mockTokenResponse))
              (OAuthClient.createOAuthClient (storage Fixture.flow_other_state))
              Fixture.flow_other_state state_failure)
    as (c' & Hrun & Hworld & Hinit & Herror & _).
  - reflexivity.
  - reflexivity.
  - reflexivity.
  - apply quiet_without_callbacks. reflexivity.
  - reflexivity.
  - vm_compute. reflexivity.
  - exists c'. split; [exact Hrun|]. split; [exact Hinit|]. split; [exact Herror|].
    rewrite Hworld. reflexivity.
Defined.



(** X20.  A refresh that gives nothing does not end the session:
    [refreshToken] returns [false] and the state of the client, both
    storages, the subscribers and the navigation are as before; no
    subscriber and no callback is involved. *)
Theorem refreshToken_failure_keeps_session {TJwt TUser : Type} (P : Platform)
    (jwtDecode : string -> completion TJwt) (config : OAuthClientConfig TJwt TUser)
    (env : Env TJwt TUser) (c : Client TJwt TUser) (w' : World) :
  refreshAccessToken P (now_parse env) (provider config) (httpClient env) (world c)
    = (w', Returned None) ->
  exists c',
    OAuthClient.refreshToken P jwtDecode config env c = (c', Returned false)
    /\ state c' = state c
    /\ storage (world c') = storage (world c)
    /\ navigation (world c') = navigation (world c)
    /\ listeners c' = listeners c
    /\ isInitialized c' = isInitialized c.
Proof.
  intros Hrefresh. rewrite refreshToken_unfold, Hrefresh.
  destruct (refreshAccessToken_none_storage P _ _ _ _ _ Hrefresh) as [Hsto Hnav].
  eexists. split; [reflexivity|]. cbn. repeat split; assumption.
Qed.

(** X20 on [client.test.ts]: "should return false when refresh fails", on a
    client that has loaded its tokens. *)
Lemma refreshToken_failure_keeps_session_witness :
  exists c' : Client string string,
    OAuthClient.refreshToken Mock.platform Mock.jwtDecode Fixture.config
      (Fixture.surroundings Fixture.at_dashboard Fixture.rejecting)
      (OAuthClient.perform Mock.platform Mock.jwtDecode Fixture.config
         (Fixture.surroundings Fixture.at_dashboard Fixture.rejecting)
         OAuthClient.Initialize
         (OAuthClient.createOAuthClient Fixture.storage_with_tokens))
    = (c', Returned false)
    /\ isAuthenticated (state c') = true
    /\ storage (world c') = Fixture.storage_with_tokens
    /\ length (requests (world c')) = 1%nat.
Proof.
  destruct (refreshToken_failure_keeps_session Mock.platform Mock.jwtDecode Fixture.config
              (Fixture.surroundings Fixture.at_dashboard Fixture.rejecting)
              (OAuthClient.perform Mock.platform Mock.jwtDecode Fixture.config
                 (Fixture.surroundings Fixture.at_dashboard Fixture.rejecting)
                 OAuthClient.Initialize
                 (OAuthClient.createOAuthClient Fixture.storage_with_tokens))
              (fst (refreshAccessToken Mock.platform (Fixture.today + 200)
                      Fixture.mockProvider Fixture.rejecting Fixture.world_with_tokens)))
    as (c' & Hrun & Hstate & Hstorage & _).
  - vm_compute. reflexivity.
  - exists c'. split; [exact Hrun|].
    split; [rewrite Hstate; vm_compute; reflexivity|].
    split; [rewrite Hstorage; vm_compute; reflexivity|].
    vm_compute in Hrun. injection Hrun as <-. reflexivity.
Defined.

(* ===================================================================== *)
(** ** Properties of utils/jwt.ts *)
(* ===================================================================== *)




(* ===================================================================== *)
(** ** Properties of the storage adapters *)
(* ===================================================================== *)

Section StringLemmas.

Lemma append_cons (c : ascii) (s t : string) : String c s +:+ t = String c (s +:+ t).
Proof. reflexivity. Qed.

Lemma append_nil_l (t : string) : "" +:+ t = t.
Proof. reflexivity. Qed.

Lemma append_nil_r (s : string) : s +:+ "" = s.
Proof. induction s as [|c s IH]; [reflexivity | rewrite append_cons, IH; reflexivity]. Qed.

Lemma append_assoc (a b c : string) : (a +:+ b) +:+ c = a +:+ b +:+ c.
Proof.
  induction a as [|x a IH]; [reflexivity | rewrite !append_cons, IH; reflexivity].
Qed.

Lemma append_eq_nil (a b : string) : a +:+ b = "" -> a = "" /\ b = "".
Proof. destruct a; [rewrite append_nil_l; auto | rewrite append_cons; discriminate]. Qed.

Lemma prefix_app (a b : string) : String.prefix a (a +:+ b) = true.
Proof.
  induction a as [|c a IH]; [destruct b; reflexivity|].
  rewrite append_cons. cbn [String.prefix].
  destruct (ascii_dec c c); [exact IH | contradiction].
Qed.

Lemma prefix_app_l (n a b : string) :
  String.prefix n a = true -> String.prefix n (a +:+ b) = true.
Proof.
  revert a. induction n as [|c n IH]; intros a H; [destruct (a +:+ b); reflexivity|].
  destruct a as [|d a]; [discriminate|].
  rewrite append_cons. cbn [String.prefix] in *.
  destruct (ascii_dec c d); [apply IH; exact H | discriminate].
Qed.

Lemma includes_prefix (n s : string) : String.prefix n s = true -> includes n s = true.
Proof. intros H. destruct s; cbn [includes]; rewrite H; reflexivity. Qed.

Lemma includes_app_l (n a b : string) : includes n a = true -> includes n (a +:+ b) = true.
Proof.
  induction a as [|c a IH]; cbn [includes]; intros H.
  - rewrite orb_false_r in H. apply includes_prefix.
    apply (prefix_app_l n "" b H).
  - rewrite append_cons. cbn [includes]. apply orb_true_iff in H as [H|H].
    + apply orb_true_iff. left. apply (prefix_app_l n (String c a) b H).
    + apply orb_true_iff. right. apply IH. exact H.
Qed.

Lemma includes_app_r (n a b : string) : includes n b = true -> includes n (a +:+ b) = true.
Proof.
  intros H. induction a as [|c a IH]; [exact H|].
  rewrite append_cons. cbn [includes]. rewrite IH. apply orb_true_r.
Qed.

Lemma includes_middle (n a b : string) : includes n (a +:+ n +:+ b) = true.
Proof. apply includes_app_r, includes_prefix, prefix_app. Qed.

(** [includes] for a needle of one character. *)
Lemma includes_char_cons (x c : ascii) (s : string) :
  includes (String x "") (String c s) = Ascii.eqb c x || includes (String x "") s.
Proof.
  cbn [includes String.prefix]. f_equal.
  destruct (ascii_dec x c) as [Heq|Hne].
  - subst c. rewrite Ascii.eqb_refl. destruct s; reflexivity.
  - destruct (Ascii.eqb_spec c x); [congruence | reflexivity].
Qed.

End StringLemmas.

Section WebStorageProperties.

Variable namespace : string.

Lemma getKey_inj (k1 k2 : string) :
  NamespacedAdapter.getKey namespace k1 = NamespacedAdapter.getKey namespace k2 -> k1 = k2.
Proof.
  unfold NamespacedAdapter.getKey. intros H.
  apply (String.app_inj namespace) in H. apply (String.app_inj "::") in H. exact H.
Qed.

Lemma get_permitted (st : WebStorage) (key : string) :
  permitted st = true ->
  NamespacedAdapter.get namespace key st = (st, Returned (shown namespace st key)).
Proof.
  intros Hp. unfold NamespacedAdapter.get, try_catch, Web.getItem. rewrite Hp. reflexivity.
Qed.

(** The loop of [clear] over any list of keys. *)
Lemma clear_loop (st : WebStorage) (l : list string) :
  permitted st = true ->
  exists st',
    for_of l
      (fun key =>
         if String.prefix (namespace +:+ "::") key then Web.removeItem key else ret tt) st
    = (st', Returned tt)
    /\ permitted st' = true /\ accepts st' = accepts st
    /\ forall key,
         items st' !! key
         = if String.prefix (namespace +:+ "::") key && bool_decide (key ∈ l)
           then None else items st !! key.
Proof.
  revert st. induction l as [|k l IH]; intros st Hp.
  - exists st. cbn. repeat split; auto. intros key.
    rewrite bool_decide_eq_false_2 by apply not_elem_of_nil.
    rewrite andb_false_r. reflexivity.
  - cbn [for_of]. unfold bind at 1.
    destruct (String.prefix (namespace +:+ "::") k) eqn:Hk.
    + unfold Web.removeItem at 1. rewrite Hp.
      destruct (IH (Web.set_items (delete k) st) Hp) as (st' & -> & Hp' & Hacc & Hlook).
      exists st'. repeat split; auto. intros key. rewrite Hlook.
      cbn [Web.set_items items].
      destruct (decide (key = k)) as [->|Hne].
      * rewrite Hk, lookup_delete_eq. cbn [andb].
        rewrite (bool_decide_eq_true_2 (k ∈ k :: l)) by left.
        destruct (bool_decide (k ∈ l)); reflexivity.
      * rewrite lookup_delete_ne by congruence.
        rewrite (bool_decide_ext (key ∈ k :: l) (key ∈ l)); [reflexivity|].
        rewrite elem_of_cons. tauto.
    + unfold ret at 1.
      destruct (IH st Hp) as (st' & -> & Hp' & Hacc & Hlook).
      exists st'. repeat split; auto. intros key. rewrite Hlook.
      destruct (decide (key = k)) as [->|Hne].
      * rewrite Hk. reflexivity.
      * rewrite (bool_decide_ext (key ∈ k :: l) (key ∈ l)); [reflexivity|].
        rewrite elem_of_cons. tauto.
Qed.

Lemma clear_permitted (st : WebStorage) :
  permitted st = true ->
  exists st',
    NamespacedAdapter.clear namespace st = (st', Returned tt)
    /\ permitted st' = true /\ accepts st' = accepts st
    /\ forall key,
         items st' !! key
         = if String.prefix (namespace +:+ "::") key then None else items st !! key.
Proof.
  intros Hp. unfold NamespacedAdapter.clear, try_catch. cbn zeta.
  unfold bind at 1. unfold Web.keys. rewrite Hp.
  destruct (clear_loop st (map fst (map_to_list (items st))) Hp)
    as (st' & -> & Hp' & Hacc & Hlook).
  exists st'. repeat split; auto. intros key. rewrite Hlook.
  destruct (String.prefix (namespace +:+ "::") key); [|reflexivity]. cbn [andb].
  case_bool_decide as Hin; [reflexivity|].
  destruct (items st !! key) as [v|] eqn:Hv; [|reflexivity].
  exfalso. apply Hin. apply list_elem_of_In, in_map_iff. exists (key, v).
  split; [reflexivity|]. apply list_elem_of_In, elem_of_map_to_list. exact Hv.
Qed.

(** Every method of the adapter returns, whatever the storage does. *)
Lemma adapter_returns (st : WebStorage) (key value : string) :
  (exists result, NamespacedAdapter.get namespace key st = (st, Returned result)
                  /\ (permitted st = false -> result = None))
  /\ (exists st', NamespacedAdapter.set namespace key value st = (st', Returned tt)
                  /\ (permitted st = false -> st' = st))
  /\ (exists st', NamespacedAdapter.remove namespace key st = (st', Returned tt)
                  /\ (permitted st = false -> st' = st))
  /\ (exists st', NamespacedAdapter.clear namespace st = (st', Returned tt)
                  /\ (permitted st = false -> st' = st)).
Proof.
  destruct (permitted st) eqn:Hp.
  - split; [rewrite get_permitted by exact Hp; eexists; split; [reflexivity | discriminate]|].
    split.
    { unfold NamespacedAdapter.set, try_catch, Web.setItem. rewrite Hp. cbn [negb].
      destruct (accepts st _ _ _); eexists; (split; [reflexivity | discriminate]). }
    split.
    { unfold NamespacedAdapter.remove, try_catch, Web.removeItem. rewrite Hp.
      eexists; split; [reflexivity | discriminate]. }
    destruct (clear_permitted st Hp) as (st' & Hrun & _).
    exists st'. split; [exact Hrun | discriminate].
  - unfold NamespacedAdapter.get, NamespacedAdapter.set, NamespacedAdapter.remove,
      NamespacedAdapter.clear, try_catch, Web.getItem, Web.setItem, Web.removeItem.
    cbn zeta. unfold bind at 1. unfold Web.keys. rewrite Hp. cbn [negb].
    repeat split; eexists; split; reflexivity || auto.
Qed.

End WebStorageProperties.

(** Namespaces without a colon are told apart by the keys they make. *)
Lemma namespace_of_key (n1 n2 key : string) :
  includes ":" n1 = false -> includes ":" n2 = false ->
  String.prefix (n1 +:+ "::") (NamespacedAdapter.getKey n2 key) = true -> n1 = n2.
Proof.
  unfold NamespacedAdapter.getKey.
  revert n2. induction n1 as [|c n1 IH]; intros n2 H1 H2 Hpre.
  - destruct n2 as [|d n2]; [reflexivity|].
    rewrite includes_char_cons in H2. apply orb_false_iff in H2 as [Hd _].
    rewrite append_nil_l, append_cons in Hpre. cbn [String.prefix] in Hpre.
    destruct (ascii_dec ":" d) as [<-|]; [discriminate | discriminate].
  - rewrite includes_char_cons in H1. apply orb_false_iff in H1 as [Hc H1].
    destruct n2 as [|d n2].
    + rewrite append_nil_l, append_cons in Hpre.
      change ("::" +:+ key) with (String ":" (":" +:+ key)) in Hpre.
      cbn [String.prefix] in Hpre.
      destruct (ascii_dec c ":") as [->|]; [discriminate | discriminate].
    + rewrite includes_char_cons in H2. apply orb_false_iff in H2 as [_ H2].
      rewrite !append_cons in Hpre. cbn [String.prefix] in Hpre.
      destruct (ascii_dec c d) as [->|]; [|discriminate].
      f_equal. apply IH; assumption.
Qed.

(** X22.  Over a storage the page may use, the adapter of a namespace
    behaves as the in-memory adapter does: [get] reads the entry under the
    prefixed key and changes nothing; after [remove] the key reads [null]
    and after an accepted [set] it reads the value, every other key of the
    adapter reading as before.  A write the storage refuses is dropped
    without an exception, the storage left as it was. *)
Theorem namespaced_adapter_round_trip (namespace : string) (st : WebStorage)
    (key value : string) :
  permitted st = true ->
  NamespacedAdapter.get namespace key st = (st, Returned (shown namespace st key))
  /\ (exists st',
        NamespacedAdapter.remove namespace key st = (st', Returned tt)
        /\ forall other,
             NamespacedAdapter.get namespace other st'
             = (st', Returned (if bool_decide (other = key) then None
                               else shown namespace st other)))
  /\ (accepts st (items st) (NamespacedAdapter.getKey namespace key) value = true ->
      exists st',
        NamespacedAdapter.set namespace key value st = (st', Returned tt)
        /\ forall other,
             NamespacedAdapter.get namespace other st'
             = (st', Returned (if bool_decide (other = key) then Some value
                               else shown namespace st other)))
  /\ (accepts st (items st) (NamespacedAdapter.getKey namespace key) value = false ->
      NamespacedAdapter.set namespace key value st = (st, Returned tt)).
Proof.
  intros Hp. split; [apply get_permitted; exact Hp|].
  split.
  { eexists. unfold NamespacedAdapter.remove, try_catch, Web.removeItem. rewrite Hp.
    split; [reflexivity|].
    intros other. rewrite get_permitted by exact Hp. f_equal. f_equal.
    unfold shown. cbn [Web.set_items items].
    case_bool_decide as Heq.
    - subst other. apply lookup_delete_eq.
    - apply lookup_delete_ne. intros H. apply Heq. symmetry.
      apply (getKey_inj namespace). exact H. }
  split.
  { intros Hacc. eexists.
    unfold NamespacedAdapter.set, try_catch, Web.setItem. rewrite Hp, Hacc. cbn [negb].
    split; [reflexivity|].
    intros other. rewrite get_permitted by exact Hp. f_equal. f_equal.
    unfold shown. cbn [Web.set_items items].
    case_bool_decide as Heq.
    - subst other. apply lookup_insert_eq.
    - apply lookup_insert_ne. intros H. apply Heq. symmetry.
      apply (getKey_inj namespace). exact H. }
  intros Hacc. unfold NamespacedAdapter.set, try_catch, Web.setItem.
  rewrite Hp, Hacc. reflexivity.
Qed.

(** X22 on the default namespace: the tokens written are the tokens read,
    and the state stored before is still there. *)
Lemma namespaced_adapter_round_trip_witness :
  exists st',
    NamespacedAdapter.set DEFAULT_NAMESPACE "tokens" "serialised" Fixture.page_storage
    = (st', Returned tt)
    /\ NamespacedAdapter.get DEFAULT_NAMESPACE "tokens" st' = (st', Returned (Some "serialised"))
    /\ NamespacedAdapter.get DEFAULT_NAMESPACE "state" st' = (st', Returned (Some "test-state")).
Proof.
  destruct (namespaced_adapter_round_trip DEFAULT_NAMESPACE Fixture.page_storage "tokens"
              "serialised" eq_refl) as (_ & _ & Hset & _).
  destruct (Hset eq_refl) as (st' & Hrun & Hget).
  exists st'. split; [exact Hrun|]. split; rewrite Hget; reflexivity.
Defined.

(** X23.  Adapters of two different namespaces that hold no colon do not
    see each other: whatever [set], [remove] or [clear] does through one of
    them, every key of the other reads as before. *)
Theorem namespaces_are_isolated (n1 n2 : string) (st : WebStorage) (key value : string) :
  includes ":" n1 = false -> includes ":" n2 = false -> n1 <> n2 ->
  forall st',
    NamespacedAdapter.set n1 key value st = (st', Returned tt)
    \/ NamespacedAdapter.remove n1 key st = (st', Returned tt)
    \/ NamespacedAdapter.clear n1 st = (st', Returned tt) ->
    forall other, shown n2 st' other = shown n2 st other.
Proof.
  intros H1 H2 Hne st' Hrun other.
  assert (Hkey : forall k, NamespacedAdapter.getKey n2 other <> NamespacedAdapter.getKey n1 k).
  { intros k Heq. apply Hne. apply (namespace_of_key n1 n2 other H1 H2).
    rewrite Heq. unfold NamespacedAdapter.getKey. rewrite <- append_assoc. apply prefix_app. }
  destruct (permitted st) eqn:Hp.
  - destruct Hrun as [Hrun|[Hrun|Hrun]].
    + unfold NamespacedAdapter.set, try_catch, Web.setItem in Hrun. rewrite Hp in Hrun.
      cbn [negb] in Hrun. destruct (accepts st _ _ _); injection Hrun as <-; [|reflexivity].
      unfold shown. cbn [Web.set_items items]. apply lookup_insert_ne. auto.
    + unfold NamespacedAdapter.remove, try_catch, Web.removeItem in Hrun. rewrite Hp in Hrun.
      injection Hrun as <-. unfold shown. cbn [Web.set_items items].
      apply lookup_delete_ne. auto.
    + destruct (clear_permitted n1 st Hp) as (st1 & Hrun1 & _ & _ & Hlook).
      rewrite Hrun1 in Hrun. injection Hrun as <-. unfold shown. rewrite Hlook.
      destruct (String.prefix _ _) eqn:Hpre; [|reflexivity].
      exfalso. apply Hne. exact (namespace_of_key n1 n2 other H1 H2 Hpre).
  - destruct (adapter_returns n1 st key value) as (_ & (s1 & Hs & Hs') & (s2 & Hr & Hr')
                                                     & (s3 & Hc & Hc')).
    destruct Hrun as [Hrun|[Hrun|Hrun]].
    + rewrite Hs in Hrun. injection Hrun as <-. rewrite Hs' by exact Hp. reflexivity.
    + rewrite Hr in Hrun. injection Hrun as <-. rewrite Hr' by exact Hp. reflexivity.
    + rewrite Hc in Hrun. injection Hrun as <-. rewrite Hc' by exact Hp. reflexivity.
Qed.

(** X23: clearing the library's namespace leaves the theme another
    application stored. *)
Lemma namespaces_are_isolated_witness :
  shown "other-app"
    (fst (NamespacedAdapter.clear DEFAULT_NAMESPACE Fixture.page_storage)) "theme"
  = Some "dark".
Proof.
  transitivity (shown "other-app" Fixture.page_storage "theme"); [|reflexivity].
  apply (namespaces_are_isolated DEFAULT_NAMESPACE "other-app" Fixture.page_storage "" "").
  - reflexivity.
  - reflexivity.
  - discriminate.
  - right. right. vm_compute. reflexivity.
Defined.

(** X24.  [clear] over a storage the page may use removes exactly the
    entries whose key starts with the namespace and ["::"], and keeps every
    other entry of the storage.  So the adapter reads [null] under every key
    afterwards, and so does the adapter of any namespace that extends this
    one by ["::"] and more. *)
Theorem namespaced_adapter_clear (namespace : string) (st : WebStorage) :
  permitted st = true ->
  exists st',
    NamespacedAdapter.clear namespace st = (st', Returned tt)
    /\ (forall key,
          items st' !! key
          = if String.prefix (namespace +:+ "::") key then None else items st !! key)
    /\ (forall key, shown namespace st' key = None)
    /\ (forall sub key, shown (namespace +:+ "::" +:+ sub) st' key = None).
Proof.
  intros Hp. destruct (clear_permitted namespace st Hp) as (st' & Hrun & _ & _ & Hlook).
  exists st'. split; [exact Hrun|]. split; [exact Hlook|].
  split; intros; unfold shown, NamespacedAdapter.getKey; rewrite Hlook.
  - rewrite <- append_assoc, prefix_app. reflexivity.
  - rewrite <- (append_assoc namespace "::" sub), append_assoc, prefix_app. reflexivity.
Qed.

(** X24 on the storage of the examples. *)
Lemma namespaced_adapter_clear_witness :
  exists st',
    NamespacedAdapter.clear DEFAULT_NAMESPACE Fixture.page_storage = (st', Returned tt)
    /\ items st' !! "@auth-code-pkce::state" = None
    /\ items st' !! "@auth-code-pkce::codeVerifier" = None
    /\ items st' !! "other-app::theme" = Some "dark".
Proof.
  destruct (namespaced_adapter_clear DEFAULT_NAMESPACE Fixture.page_storage eq_refl)
    as (st' & Hrun & Hlook & _).
  exists st'. split; [exact Hrun|]. rewrite !Hlook. repeat split.
Defined.

Lemma on_sessionStorage_run {A : Type} (m : M WebStorage A) (b : Browser) st result :
  m (sessionStorage b) = (st, result) ->
  on_sessionStorage m b = ({| sessionStorage := st; localStorage := localStorage b |}, result).
Proof. intros H. unfold on_sessionStorage. rewrite H. reflexivity. Qed.

Lemma on_localStorage_run {A : Type} (m : M WebStorage A) (b : Browser) st result :
  m (localStorage b) = (st, result) ->
  on_localStorage m b = ({| sessionStorage := sessionStorage b; localStorage := st |}, result).
Proof. intros H. unfold on_localStorage. rewrite H. reflexivity. Qed.

(** X25.  No method of the two adapters of [createDefaultStorageConfig]
    throws, whatever the browser's storages do (disabled, full): [get]
    returns and changes nothing, and [set], [remove] and [clear] return.
    The token adapter never touches [localStorage] and the flow adapter
    never touches [sessionStorage]. *)
Theorem default_storage_config_never_throws (b : Browser) (key value : string) :
  let config := createDefaultStorageConfig in
  (exists result, adapter_get (tokenAdapter config) key b = (b, Returned result))
  /\ (exists result, adapter_get (flowAdapter config) key b = (b, Returned result))
  /\ (forall op, op ∈ [adapter_set (tokenAdapter config) key value;
                       adapter_remove (tokenAdapter config) key;
                       adapter_clear (tokenAdapter config)] ->
        exists b', op b = (b', Returned tt) /\ localStorage b' = localStorage b)
  /\ (forall op, op ∈ [adapter_set (flowAdapter config) key value;
                       adapter_remove (flowAdapter config) key;
                       adapter_clear (flowAdapter config)] ->
        exists b', op b = (b', Returned tt) /\ sessionStorage b' = sessionStorage b).
Proof.
  cbn zeta. unfold createDefaultStorageConfig, createSessionStorageAdapter,
    createLocalStorageAdapter.
  cbn [tokenAdapter flowAdapter adapter_get adapter_set adapter_remove adapter_clear nullish].
  destruct (adapter_returns DEFAULT_NAMESPACE (sessionStorage b) key value)
    as ((r1 & Hg1 & _) & (s1 & Hs1 & _) & (s2 & Hr1 & _) & (s3 & Hc1 & _)).
  destruct (adapter_returns DEFAULT_NAMESPACE (localStorage b) key value)
    as ((r2 & Hg2 & _) & (l1 & Hs2 & _) & (l2 & Hr2 & _) & (l3 & Hc2 & _)).
  split; [exists r1; rewrite (on_sessionStorage_run _ _ _ _ Hg1); destruct b; reflexivity|].
  split; [exists r2; rewrite (on_localStorage_run _ _ _ _ Hg2); destruct b; reflexivity|].
  split; intros op Hop; rewrite !elem_of_cons in Hop;
    destruct Hop as [->|[->|[->|Hop]]]; try (apply elem_of_nil in Hop; contradiction).
  - rewrite (on_sessionStorage_run _ _ _ _ Hs1). eauto.
  - rewrite (on_sessionStorage_run _ _ _ _ Hr1). eauto.
  - rewrite (on_sessionStorage_run _ _ _ _ Hc1). eauto.
  - rewrite (on_localStorage_run _ _ _ _ Hs2). eauto.
  - rewrite (on_localStorage_run _ _ _ _ Hr2). eauto.
  - rewrite (on_localStorage_run _ _ _ _ Hc2). eauto.
Qed.

(* ===================================================================== *)
(** ** Properties of the provider presets *)
(* ===================================================================== *)

Section PresetLemmas.

Lemma replace_trailing_slash_app (s : string) : replace_trailing_slash (s +:+ "/") = s.
Proof.
  induction s as [|c s IH]; [reflexivity|].
  rewrite append_cons. cbn [replace_trailing_slash]. rewrite IH.
  destruct (s +:+ "/") eqn:Hs; [apply append_eq_nil in Hs as [_ Hs]; discriminate|].
  cbn [String.eqb]. rewrite andb_false_r. reflexivity.
Qed.

Lemma replace_trailing_slash_id (s : string) :
  (forall t, s <> t +:+ "/") -> replace_trailing_slash s = s.
Proof.
  induction s as [|c s IH]; intros H; [reflexivity|].
  cbn [replace_trailing_slash].
  destruct (Ascii.eqb_spec c "/") as [->|Hc]; cbn [andb].
  - destruct s as [|d s]; [exfalso; apply (H ""); reflexivity|].
    cbn [String.eqb]. f_equal. apply IH. intros t Heq. apply (H (String "/" t)).
    rewrite Heq. reflexivity.
  - f_equal. apply IH. intros t Heq. apply (H (String c t)). rewrite Heq. reflexivity.
Qed.

(** A string that ends with a non-empty string without slashes does not end
    with a slash. *)
Lemma no_trailing_slash (slug : string) :
  slug <> "" -> includes "/" slug = false -> forall a t, a +:+ slug <> t +:+ "/".
Proof.
  induction slug as [|c slug IH]; [congruence|].
  intros _ Hslug a t Heq.
  rewrite includes_char_cons in Hslug. apply orb_false_iff in Hslug as [Hc Hrest].
  destruct slug as [|d slug].
  - clear IH. revert t Heq. induction a as [|x a IHa]; intros t Heq.
    + destruct t as [|y t].
      * injection Heq as ->. discriminate.
      * rewrite append_nil_l, append_cons in Heq. injection Heq as _ Heq.
        symmetry in Heq. apply append_eq_nil in Heq as [_ Heq]. discriminate.
    + destruct t as [|y t].
      * rewrite append_nil_l, append_cons in Heq. injection Heq as _ Heq.
        apply append_eq_nil in Heq as [_ Heq]. discriminate.
      * rewrite !append_cons in Heq. injection Heq as _ Heq. apply (IHa t Heq).
  - apply (IH ltac:(discriminate) Hrest (a +:+ String c "") t).
    rewrite append_assoc. exact Heq.
Qed.

Lemma replace_last_segment_app (base slug : string) :
  slug <> "" -> includes "/" slug = false ->
  replace_last_segment (base +:+ "/" +:+ slug) = base.
Proof.
  intros Hne Hslug. induction base as [|c base IH].
  - rewrite append_nil_l, append_cons, append_nil_l.
    cbn [replace_last_segment]. rewrite Hslug.
    destruct slug; [congruence | reflexivity].
  - rewrite append_cons. cbn [replace_last_segment]. rewrite IH.
    assert (includes "/" (base +:+ "/" +:+ slug) = true) as -> by apply includes_middle.
    cbn [negb]. rewrite andb_false_r. reflexivity.
Qed.

End PresetLemmas.

(** X26.  The presets [keycloak], [auth0], [okta] and [authentik] take an
    issuer with one slash at its end for the issuer without it: the two
    configurations are equal, endpoints included.  One slash only is
    removed: the issuer of a configuration made from a URL with two slashes
    at its end still ends with one. *)
Theorem presets_ignore_one_trailing_slash (url : string) (config : ProviderPresetConfig.t) :
  (forall t, url <> t +:+ "/") ->
  keycloak (with_issuer (url +:+ "/") config) = keycloak (with_issuer url config)
  /\ auth0 (with_issuer (url +:+ "/") config) = auth0 (with_issuer url config)
  /\ okta (with_issuer (url +:+ "/") config) = okta (with_issuer url config)
  /\ authentik (with_issuer (url +:+ "/") config) = authentik (with_issuer url config)
  /\ issuer (keycloak (with_issuer url config)) = url
  /\ issuer (keycloak (with_issuer (url +:+ "//") config)) = url +:+ "/".
Proof.
  intros Hurl. unfold keycloak, auth0, okta, authentik, with_issuer.
  cbn [ProviderPresetConfig.issuer ProviderPresetConfig.clientId
       ProviderPresetConfig.redirectUri ProviderPresetConfig.scopes
       ProviderPresetConfig.postLogoutRedirectUri issuer].
  rewrite replace_trailing_slash_app, (replace_trailing_slash_id url Hurl).
  repeat split.
  change "//" with ("/" +:+ "/"). rewrite <- append_assoc.
  apply replace_trailing_slash_app.
Qed.

(** X26 on the example of [keycloak.ts], the issuer written with a slash at
    its end. *)
Lemma presets_ignore_one_trailing_slash_witness :
  tokenEndpoint (endpoints
    (keycloak (with_issuer "https://keycloak.example.com/realms/myrealm/"
                 Fixture.preset_config)))
  = "https://keycloak.example.com/realms/myrealm/protocol/openid-connect/token".
Proof.
  destruct (presets_ignore_one_trailing_slash "https://keycloak.example.com/realms/myrealm"
              Fixture.preset_config) as (Hkeycloak & _).
  - intros t.
    apply (no_trailing_slash "myrealm" ltac:(discriminate) eq_refl
             "https://keycloak.example.com/realms/" t).
  - exact (f_equal (fun p => tokenEndpoint (endpoints p)) Hkeycloak).
Defined.

(** X27.  [authentik] on an issuer that is a base URL followed by a slash
    and the slug of the application (non-empty, without a slash), with or
    without a slash at its end: the authorization, token, user-info and
    revocation endpoints are those of the base URL, shared by all
    applications, and the logout endpoint is the one of the application. *)
Theorem authentik_endpoints (base slug : string) (config : ProviderPresetConfig.t) :
  slug <> "" -> includes "/" slug = false ->
  let app := authentik (with_issuer (base +:+ "/" +:+ slug) config) in
  authentik (with_issuer (base +:+ "/" +:+ slug +:+ "/") config) = app
  /\ issuer app = base +:+ "/" +:+ slug
  /\ authorizationEndpoint (endpoints app) = base +:+ "/authorize/"
  /\ tokenEndpoint (endpoints app) = base +:+ "/token/"
  /\ userInfoEndpoint (endpoints app) = Some (base +:+ "/userinfo/")
  /\ revocationEndpoint (endpoints app) = Some (base +:+ "/revoke/")
  /\ logoutEndpoint (endpoints app) = Some ((base +:+ "/" +:+ slug) +:+ "/end-session/").
Proof.
  intros Hne Hslug. cbn zeta. unfold authentik, with_issuer.
  cbn [ProviderPresetConfig.issuer ProviderPresetConfig.clientId
       ProviderPresetConfig.redirectUri ProviderPresetConfig.scopes
       ProviderPresetConfig.postLogoutRedirectUri issuer endpoints authorizationEndpoint
       tokenEndpoint userInfoEndpoint revocationEndpoint logoutEndpoint].
  assert (Hfix : replace_trailing_slash (base +:+ "/" +:+ slug) = base +:+ "/" +:+ slug).
  { apply replace_trailing_slash_id. intros t Heq.
    rewrite <- append_assoc in Heq. exact (no_trailing_slash slug Hne Hslug _ _ Heq). }
  assert (Hslash : replace_trailing_slash (base +:+ "/" +:+ slug +:+ "/")
                   = base +:+ "/" +:+ slug).
  { rewrite <- (append_assoc "/" slug "/"), <- (append_assoc base).
    apply replace_trailing_slash_app. }
  rewrite Hfix, Hslash, (replace_last_segment_app base slug Hne Hslug).
  repeat split.
Qed.

(** X27 on the issuer of the comment in [authentik.ts]. *)
Lemma authentik_endpoints_witness :
  let app :=
    authentik (with_issuer "http://localhost:9024/application/o/my-app"
                 Fixture.preset_config) in
  authorizationEndpoint (endpoints app) = "http://localhost:9024/application/o/authorize/"
  /\ tokenEndpoint (endpoints app) = "http://localhost:9024/application/o/token/"
  /\ logoutEndpoint (endpoints app)
     = Some "http://localhost:9024/application/o/my-app/end-session/".
Proof.
  destruct (authentik_endpoints "http://localhost:9024/application/o" "my-app"
              Fixture.preset_config) as (_ & _ & Hauthorize & Htoken & _ & _ & Hlogout).
  - discriminate.
  - reflexivity.
  - split; [exact Hauthorize|]. split; [exact Htoken | exact Hlogout].
Defined.

(** X28.  Every endpoint that [okta] makes lies under an authorization
    server: the authorization and token endpoints contain ["/oauth2/"].
    Where the issuer, its final slash removed, names a custom authorization
    server (it contains ["/oauth2/"]) the endpoints are under the issuer;
    otherwise they are under the issuer's [/oauth2/default], and then
    naming that default server in the issuer gives the same endpoints. *)
Theorem okta_authorization_server (config : ProviderPresetConfig.t) :
  let server := okta config in
  let normalizedIssuer := replace_trailing_slash (ProviderPresetConfig.issuer config) in
  includes "/oauth2/" (authorizationEndpoint (endpoints server)) = true
  /\ includes "/oauth2/" (tokenEndpoint (endpoints server)) = true
  /\ (includes "/oauth2/" normalizedIssuer = true ->
        tokenEndpoint (endpoints server) = normalizedIssuer +:+ "/v1/token")
  /\ (includes "/oauth2/" normalizedIssuer = false ->
        tokenEndpoint (endpoints server) = normalizedIssuer +:+ "/oauth2/default/v1/token"
        /\ endpoints (okta (with_issuer (normalizedIssuer +:+ "/oauth2/default") config))
           = endpoints server).
Proof.
  cbn zeta. unfold okta at 1 2 3 4.
  cbn [endpoints authorizationEndpoint tokenEndpoint].
  destruct (includes "/oauth2/" (replace_trailing_slash (ProviderPresetConfig.issuer config)))
    eqn:Hcustom.
  - split; [apply includes_app_l; exact Hcustom|].
    split; [apply includes_app_l; exact Hcustom|].
    split; [reflexivity | discriminate].
  - split; [rewrite append_assoc; apply (includes_middle "/oauth2/" _ "default/v1/authorize")|].
    split; [rewrite append_assoc; apply (includes_middle "/oauth2/" _ "default/v1/token")|].
    split; [discriminate|]. intros _.
    split; [apply append_assoc|].
    unfold okta, with_issuer.
    cbn [ProviderPresetConfig.issuer ProviderPresetConfig.clientId
         ProviderPresetConfig.redirectUri ProviderPresetConfig.scopes
         ProviderPresetConfig.postLogoutRedirectUri endpoints].
    rewrite (replace_trailing_slash_id (_ +:+ "/oauth2/default")).
    + rewrite Hcustom.
      assert (includes "/oauth2/"
                (replace_trailing_slash (ProviderPresetConfig.issuer config)
                 +:+ "/oauth2/default") = true) as ->
        by apply (includes_middle "/oauth2/" _ "default").
      reflexivity.
    + intros t Heq.
      change "/oauth2/default" with ("/oauth2/" +:+ "default") in Heq.
      rewrite <- append_assoc in Heq.
      apply (no_trailing_slash "default" ltac:(discriminate) eq_refl _ _ Heq).
Qed.

(* ===================================================================== *)
(** ** A bound on the refreshes of the TokenRefreshCoordinator *)
(* ===================================================================== *)

Section CoordinatorBound.

Context {F : Type}.
Implicit Types (c : Coordinator.t F) (trace : list (Coordinator.event F)).

(** What a run adds to the counters of a coordinator. *)
Lemma run_counts trace c :
  let c' := Coordinator.run trace c in
  let busy (x : Coordinator.t F) : nat :=
    if Coordinator.isRefreshing x then 1%nat else 0%nat in
  (length (Coordinator.handed c') = length (Coordinator.handed c) + count_calls trace)%nat
  /\ (length (Coordinator.invoked c') + busy c
      <= length (Coordinator.invoked c) + count_settlements trace + busy c')%nat
  /\ (length (Coordinator.invoked c')
      <= length (Coordinator.invoked c) + count_calls trace)%nat
  /\ (length (Coordinator.promises c') + length (Coordinator.invoked c)
      = length (Coordinator.promises c) + length (Coordinator.invoked c'))%nat.
Proof.
  cbn zeta. revert c. induction trace as [|e trace IH]; intros c.
  - cbn. repeat split; lia.
  - cbn [Coordinator.run fold_left]. fold (Coordinator.run trace (Coordinator.step c e)).
    destruct (IH (Coordinator.step c e)) as (Hh & Hs & Hc & Hp).
    destruct e as [fn|o]; cbn [count_calls count_settlements Coordinator.step] in *.
    + unfold Coordinator.refresh in *.
      destruct (Coordinator.refreshPromise c) as [p|] eqn:Hrp;
        cbn [Coordinator.handed Coordinator.invoked Coordinator.promises] in *;
        unfold Coordinator.isRefreshing in *;
        cbn [Coordinator.refreshPromise] in *; rewrite ?Hrp in *;
        rewrite ?length_app in *; cbn [length] in *;
        repeat case_bool_decide; try congruence; repeat split; lia.
    + unfold Coordinator.settle in *.
      destruct (Coordinator.refreshPromise c) as [p|] eqn:Hrp;
        cbn [Coordinator.handed Coordinator.invoked Coordinator.promises] in *;
        unfold Coordinator.isRefreshing in *;
        cbn [Coordinator.refreshPromise] in *; rewrite ?Hrp in *;
        rewrite ?length_insert in *;
        repeat case_bool_decide; try congruence; repeat split; lia.
Qed.

End CoordinatorBound.

(** X29.  Over any sequence of calls of [refresh] and settlements, from a
    new coordinator: every call was handed a promise; the refresh functions
    invoked are at most as many as the calls and at most one more than the
    settlements, and no more than the settlements while no refresh is in
    flight; and every promise the coordinator made belongs to one
    invocation. *)
Theorem coordinator_invocations_bounded {F : Type} (trace : list (Coordinator.event F)) :
  let c := Coordinator.run trace Coordinator.create in
  length (Coordinator.handed c) = count_calls trace
  /\ (length (Coordinator.invoked c) <= count_calls trace)%nat
  /\ (length (Coordinator.invoked c) <= count_settlements trace + 1)%nat
  /\ (Coordinator.isRefreshing c = false ->
      (length (Coordinator.invoked c) <= count_settlements trace)%nat)
  /\ length (Coordinator.promises c) = length (Coordinator.invoked c).
Proof.
  cbn zeta. destruct (run_counts trace (@Coordinator.create F)) as (Hh & Hs & Hc & Hp).
  cbn [Coordinator.create Coordinator.handed Coordinator.invoked Coordinator.promises
       length] in *.
  unfold Coordinator.isRefreshing in *. cbn [Coordinator.refreshPromise] in *.
  rewrite bool_decide_eq_false_2 in Hs by auto.
  repeat split; try lia.
  - destruct (bool_decide _); lia.
  - intros Hidle. rewrite Hidle in Hs. lia.
Qed.

(* ===================================================================== *)
(** ** Properties of the mock server *)
(* ===================================================================== *)

Section MockServerProperties.

Variable P : Platform.
Variable sha256_base64url : string -> string.
Variable createJwt : MockOAuthServer.Claims -> string.

(** What an approved authorization request leaves in the server. *)
Lemma handleAuthorize_approved request code issued_at s s1 answer :
  MockOAuthServer.handleAuthorize P request code issued_at s = (s1, Returned answer) ->
  MockOAuthServer.status answer = 302 ->
  exists client redirect challenge,
    searchParams_get "client_id" request = Some client /\ client <> ""
    /\ searchParams_get "redirect_uri" request = Some redirect /\ redirect <> ""
    /\ searchParams_get "code_challenge" request = Some challenge /\ challenge <> ""
    /\ s1 = MockOAuthServer.set_authCodes
              (insert code
                 {| MockOAuthServer.AuthCode.code := code;
                    MockOAuthServer.AuthCode.codeChallenge := challenge;
                    MockOAuthServer.AuthCode.codeChallengeMethod :=
                      MockOAuthServer.or_else
                        (searchParams_get "code_challenge_method" request) "plain";
                    MockOAuthServer.AuthCode.redirectUri := redirect;
                    MockOAuthServer.AuthCode.clientId := client;
                    MockOAuthServer.AuthCode.scope :=
                      MockOAuthServer.or_else (searchParams_get "scope" request) "openid";
                    MockOAuthServer.AuthCode.nonce :=
                      MockOAuthServer.or_undefined (searchParams_get "nonce" request);
                    MockOAuthServer.AuthCode.state :=
                      MockOAuthServer.or_undefined (searchParams_get "state" request);
                    MockOAuthServer.AuthCode.userId := "user-123";
                    MockOAuthServer.AuthCode.createdAt := issued_at;
                    MockOAuthServer.AuthCode.used := false |}) s.
Proof.
  unfold MockOAuthServer.handleAuthorize. cbn zeta.
  destruct (truthy (searchParams_get "client_id" request)) eqn:Hclient; cbn [negb orb];
    [|intros [= <- <-]; discriminate].
  destruct (truthy (searchParams_get "redirect_uri" request)) eqn:Hredirect; cbn [negb orb];
    [|intros [= <- <-]; discriminate].
  destruct (bool_decide _); cbn [negb]; [|intros [= <- <-]; discriminate].
  destruct (truthy (searchParams_get "code_challenge" request)) eqn:Hchallenge; cbn [negb];
    [|intros [= <- <-]; discriminate].
  destruct (_ && _); [intros [= <- <-]; discriminate|].
  apply truthy_true in Hclient as (client & Hc & ->).
  apply truthy_true in Hredirect as (redirect & Hr & ->).
  apply truthy_true in Hchallenge as (challenge & Hch & ->).
  unfold_monad. cbn [nullish].
  destruct (MockOAuthServer.autoApprove s); [|intros [= <- <-]; discriminate].
  destruct (URL_new P redirect None); [|discriminate].
  intros [= <- <-] _. exists client, redirect, challenge. repeat split; assumption.
Qed.

(** [handleAuthCodeExchange] on a request whose four parameters are there
    and whose code the server knows. *)
Lemma handleAuthCodeExchange_known params fresh date_now s code redirect client verifier
    authCode :
  searchParams_get "code" params = Some code -> code <> "" ->
  searchParams_get "redirect_uri" params = Some redirect -> redirect <> "" ->
  searchParams_get "client_id" params = Some client -> client <> "" ->
  searchParams_get "code_verifier" params = Some verifier -> verifier <> "" ->
  MockOAuthServer.authCodes s !! code = Some authCode ->
  MockOAuthServer.handleAuthCodeExchange sha256_base64url createJwt params fresh date_now s
  = if MockOAuthServer.AuthCode.used authCode
    then (s, Returned (MockOAuthServer.bad_request "invalid_grant"
                         "Authorization code already used"))
    else if negb (String.eqb (MockOAuthServer.AuthCode.redirectUri authCode) redirect)
    then (s, Returned (MockOAuthServer.bad_request "invalid_grant" "redirect_uri mismatch"))
    else if negb (String.eqb (MockOAuthServer.AuthCode.clientId authCode) client)
    then (s, Returned (MockOAuthServer.bad_request "invalid_grant" "client_id mismatch"))
    else if negb (String.eqb
                    (if String.eqb (MockOAuthServer.AuthCode.codeChallengeMethod authCode)
                          "S256"
                     then sha256_base64url verifier else verifier)
                    (MockOAuthServer.AuthCode.codeChallenge authCode))
    then (s, Returned (MockOAuthServer.bad_request "invalid_grant"
                         "PKCE verification failed"))
    else if Z.ltb (5 * 60 * 1000) (date_now - MockOAuthServer.AuthCode.createdAt authCode)
    then (s, Returned (MockOAuthServer.bad_request "invalid_grant"
                         "Authorization code expired"))
    else
      let s1 :=
        MockOAuthServer.set_authCodes
          (insert code (MockOAuthServer.AuthCode.set_used authCode)) s in
      let issued :=
        if includes "offline_access" (MockOAuthServer.AuthCode.scope authCode)
        then Some fresh else None in
      (match issued with
       | Some token =>
           MockOAuthServer.set_refreshTokens
             (insert token
                {| MockOAuthServer.RefreshToken.token := token;
                   MockOAuthServer.RefreshToken.userId :=
                     MockOAuthServer.AuthCode.userId authCode;
                   MockOAuthServer.RefreshToken.clientId := client;
                   MockOAuthServer.RefreshToken.scope :=
                     MockOAuthServer.AuthCode.scope authCode;
                   MockOAuthServer.RefreshToken.createdAt := date_now;
                   MockOAuthServer.RefreshToken.expiresAt :=
                     date_now + MockOAuthServer.refreshTokenTtl s * 1000 |}) s1
       | None => s1
       end,
       Returned
         {| MockOAuthServer.status := 200;
            MockOAuthServer.location := None;
            MockOAuthServer.body :=
              MockOAuthServer.TokenBody
                {| access_token :=
                     createJwt
                       {| MockOAuthServer.claim_sub :=
                            MockOAuthServer.AuthCode.userId authCode;
                          MockOAuthServer.claim_iss := MockOAuthServer.issuer s;
                          MockOAuthServer.claim_aud := client;
                          MockOAuthServer.claim_iat := date_now / 1000;
                          MockOAuthServer.claim_exp :=
                            date_now / 1000 + MockOAuthServer.accessTokenTtl s;
                          MockOAuthServer.claim_scope :=
                            Some (MockOAuthServer.AuthCode.scope authCode);
                          MockOAuthServer.claim_nonce := None;
                          MockOAuthServer.claim_email := None;
                          MockOAuthServer.claim_name := None |};
                   token_type := "Bearer";
                   expires_in := Some (MockOAuthServer.accessTokenTtl s);
                   id_token :=
                     Some
                       (createJwt
                          {| MockOAuthServer.claim_sub :=
                               MockOAuthServer.AuthCode.userId authCode;
                             MockOAuthServer.claim_iss := MockOAuthServer.issuer s;
                             MockOAuthServer.claim_aud := client;
                             MockOAuthServer.claim_iat := date_now / 1000;
                             MockOAuthServer.claim_exp :=
                               date_now / 1000 + MockOAuthServer.accessTokenTtl s;
                             MockOAuthServer.claim_scope := None;
                             MockOAuthServer.claim_nonce :=
                               MockOAuthServer.AuthCode.nonce authCode;
                             MockOAuthServer.claim_email :=
                               MockOAuthServer.user_email
                                 <$> MockOAuthServer.users
                                       (MockOAuthServer.AuthCode.userId authCode);
                             MockOAuthServer.claim_name :=
                               MockOAuthServer.user_name
                                 <$> MockOAuthServer.users
                                       (MockOAuthServer.AuthCode.userId authCode) |});
                   scope := Some (MockOAuthServer.AuthCode.scope authCode);
                   refresh_token := if truthy issued then issued else None |} |}).
Proof.
  intros Hcode Hc Hredirect Hr Hclient Hcl Hverifier Hv Hfound.
  unfold MockOAuthServer.handleAuthCodeExchange. cbn zeta.
  rewrite Hcode, Hredirect, Hclient, Hverifier.
  assert (truthy (Some code) = true) as -> by (apply truthy_true; eauto).
  assert (truthy (Some redirect) = true) as -> by (apply truthy_true; eauto).
  assert (truthy (Some client) = true) as -> by (apply truthy_true; eauto).
  assert (truthy (Some verifier) = true) as -> by (apply truthy_true; eauto).
  cbn [negb orb nullish]. unfold_monad. rewrite Hfound.
  destruct (MockOAuthServer.AuthCode.used authCode); [reflexivity|].
  destruct (negb (String.eqb (MockOAuthServer.AuthCode.redirectUri authCode) redirect));
    [reflexivity|].
  destruct (negb (String.eqb (MockOAuthServer.AuthCode.clientId authCode) client));
    [reflexivity|].
  destruct (negb (String.eqb _ (MockOAuthServer.AuthCode.codeChallenge authCode)));
    [reflexivity|].
  destruct (Z.ltb _ _); [reflexivity|].
  destruct (includes "offline_access" (MockOAuthServer.AuthCode.scope authCode));
    reflexivity.
Qed.

End MockServerProperties.

(** X30.  The authorization-code grant of the mock server, end to end.
    Let [handleAuthorize] have answered a request with the redirect (302),
    issuing a non-empty code.  A token request that presents the code is
    answered 200 exactly when its redirect URI and its client are those of
    the authorization request, its verifier is non-empty and matches the
    challenge (hashed for [S256], as it is for [plain]), and no more than
    five minutes have passed since the code was issued.  After a 200 the
    same request is refused for ever with [invalid_grant], the code being
    used; and a request that is not answered 200 is answered 400 and leaves
    the server as it was. *)
Theorem mock_server_code_round_trip (P : Platform) (sha256_base64url : string -> string)
    (createJwt : MockOAuthServer.Claims -> string) (request : list (string * string))
    (code : string) (issued_at : Z) (s s1 : MockOAuthServer.t)
    (answer : MockOAuthServer.Response) :
  MockOAuthServer.handleAuthorize P request code issued_at s = (s1, Returned answer) ->
  MockOAuthServer.status answer = 302 ->
  code <> "" ->
  forall (params : list (string * string)) (fresh : string) (date_now : Z),
    searchParams_get "code" params = Some code ->
    exists s2 response,
      MockOAuthServer.handleAuthCodeExchange sha256_base64url createJwt params fresh
        date_now s1 = (s2, Returned response)
      /\ (MockOAuthServer.status response = 200 <->
          searchParams_get "redirect_uri" params = searchParams_get "redirect_uri" request
          /\ searchParams_get "client_id" params = searchParams_get "client_id" request
          /\ (exists verifier,
                searchParams_get "code_verifier" params = Some verifier /\ verifier <> ""
                /\ Some (if String.eqb
                               (MockOAuthServer.or_else
                                  (searchParams_get "code_challenge_method" request) "plain")
                               "S256"
                          then sha256_base64url verifier else verifier)
                   = searchParams_get "code_challenge" request)
          /\ date_now - issued_at <= 300000)
      /\ (MockOAuthServer.status response = 200 ->
          forall fresh' later,
            MockOAuthServer.handleAuthCodeExchange sha256_base64url createJwt params fresh'
              later s2
            = (s2, Returned (MockOAuthServer.bad_request "invalid_grant"
                               "Authorization code already used")))
      /\ (MockOAuthServer.status response <> 200 ->
          s2 = s1 /\ MockOAuthServer.status response = 400).
Proof.
  intros Hauthorize H302 Hcode params fresh date_now Hparam.
  apply (handleAuthorize_approved P) in Hauthorize
    as (client & redirect & challenge & Hclient & Hcl & Hredirect & Hr & Hchallenge & Hch
        & ->); [|exact H302].
  rewrite Hclient, Hredirect, Hchallenge.
  set (authCode := MockOAuthServer.AuthCode.mk _ _ _ _ _ _ _ _ _ _ _).
  set (s1 := MockOAuthServer.set_authCodes _ s).
  assert (Hfound : MockOAuthServer.authCodes s1 !! code = Some authCode)
    by apply lookup_insert_eq.
  (* a request that lacks a parameter *)
  assert (Hmissing :
    truthy (searchParams_get "redirect_uri" params) = false
    \/ truthy (searchParams_get "client_id" params) = false
    \/ truthy (searchParams_get "code_verifier" params) = false ->
    MockOAuthServer.handleAuthCodeExchange sha256_base64url createJwt params fresh
      date_now s1
    = (s1, Returned (MockOAuthServer.bad_request "invalid_request"
                       "Missing required parameters"))).
  { intros Hcase. unfold MockOAuthServer.handleAuthCodeExchange. cbn zeta.
    destruct Hcase as [-> | [-> | ->]]; cbn [negb orb]; rewrite ?orb_true_r; reflexivity. }
  destruct (truthy (searchParams_get "redirect_uri" params)) eqn:Hr'.
  2:{ rewrite Hmissing by auto. eexists _, _. split; [reflexivity|]. cbn.
      split; [|split; [discriminate | auto]].
      split; [discriminate|]. intros (Heq & _). rewrite Heq in Hr'.
      assert (truthy (Some redirect) = true) by (apply truthy_true; eauto). congruence. }
  destruct (truthy (searchParams_get "client_id" params)) eqn:Hc'.
  2:{ rewrite Hmissing by auto. eexists _, _. split; [reflexivity|]. cbn.
      split; [|split; [discriminate | auto]].
      split; [discriminate|]. intros (_ & Heq & _). rewrite Heq in Hc'.
      assert (truthy (Some client) = true) by (apply truthy_true; eauto). congruence. }
  destruct (truthy (searchParams_get "code_verifier" params)) eqn:Hv'.
  2:{ rewrite Hmissing by auto. eexists _, _. split; [reflexivity|]. cbn.
      split; [|split; [discriminate | auto]].
      split; [discriminate|]. intros (_ & _ & (verifier & Heq & Hne & _) & _).
      rewrite Heq in Hv'.
      assert (truthy (Some verifier) = true) by (apply truthy_true; eauto). congruence. }
  apply truthy_true in Hr' as (redirect' & Hrne & Hr').
  apply truthy_true in Hc' as (client' & Hcne & Hc').
  apply truthy_true in Hv' as (verifier & Hvne & Hv').
  rewrite (handleAuthCodeExchange_known sha256_base64url createJwt params fresh date_now s1 code redirect' client'
             verifier authCode) by assumption.
  subst authCode.
  cbn [MockOAuthServer.AuthCode.used MockOAuthServer.AuthCode.redirectUri
       MockOAuthServer.AuthCode.clientId MockOAuthServer.AuthCode.codeChallengeMethod
       MockOAuthServer.AuthCode.codeChallenge MockOAuthServer.AuthCode.createdAt].
  rewrite Hr', Hc', Hv'.
  destruct (String.eqb_spec redirect redirect') as [<-|Hrd]; cbn [negb].
  2:{ eexists _, _. split; [reflexivity|]. cbn.
      split; [|split; [discriminate | auto]].
      split; [discriminate|]. intros ([= ?] & _). congruence. }
  destruct (String.eqb_spec client client') as [<-|Hcd]; cbn [negb].
  2:{ eexists _, _. split; [reflexivity|]. cbn.
      split; [|split; [discriminate | auto]].
      split; [discriminate|]. intros (_ & [= ?] & _). congruence. }
  match goal with
  | |- context [String.eqb ?calc challenge] =>
      destruct (String.eqb_spec calc challenge) as [Hpkce|Hpkce]
  end; cbn [negb].
  2:{ eexists _, _. split; [reflexivity|]. cbn.
      split; [|split; [discriminate | auto]].
      split; [discriminate|]. intros (_ & _ & (v & [= <-] & _ & [= Heq]) & _).
      contradiction. }
  destruct (Z.ltb_spec (5 * 60 * 1000) (date_now - issued_at)) as [Hlate|Hintime].
  { eexists _, _. split; [reflexivity|]. cbn.
    split; [|split; [discriminate | auto]].
    split; [discriminate|]. intros (_ & _ & _ & Hle). lia. }
  cbn zeta. eexists _, _. split; [reflexivity|].
  cbn [MockOAuthServer.status].
  split; [|split; [|intros Hnot; exfalso; apply Hnot; reflexivity]].
  - split; [intros _|reflexivity].
    split; [reflexivity|]. split; [reflexivity|].
    split; [|lia]. exists verifier. rewrite Hpkce. auto.
  - intros _ fresh' later.
    match goal with
    | |- MockOAuthServer.handleAuthCodeExchange _ _ _ _ _ ?s2 = _ =>
        rewrite (handleAuthCodeExchange_known sha256_base64url createJwt params fresh' later s2 code redirect client
                   verifier
                   (MockOAuthServer.AuthCode.set_used
                      (MockOAuthServer.AuthCode.mk code challenge
                         (MockOAuthServer.or_else
                            (searchParams_get "code_challenge_method" request) "plain")
                         redirect client
                         (MockOAuthServer.or_else (searchParams_get "scope" request) "openid")
                         (MockOAuthServer.or_undefined (searchParams_get "nonce" request))
                         (MockOAuthServer.or_undefined (searchParams_get "state" request))
                         "user-123" issued_at false)))
    end; try assumption; [reflexivity|].
    destruct (includes "offline_access" _); apply lookup_insert_eq.
Qed.

(** X30 on a code issued for an S256 challenge: it is redeemed with the
    verifier of the challenge, once. *)
Lemma mock_server_code_round_trip_witness :
  let issued :=
    fst (MockOAuthServer.handleAuthorize Mock.platform Fixture.authorization_request
           "issued-code" Fixture.today Fixture.mock_server) in
  exists s2 response,
    MockOAuthServer.handleAuthCodeExchange Fixture.hash_of Fixture.jwt_of
      Fixture.token_request "issued-refresh-token" (Fixture.today + 1000) issued
    = (s2, Returned response)
    /\ MockOAuthServer.status response = 200
    /\ MockOAuthServer.handleAuthCodeExchange Fixture.hash_of Fixture.jwt_of
         Fixture.token_request "another-refresh-token" (Fixture.today + 2000) s2
       = (s2, Returned (MockOAuthServer.bad_request "invalid_grant"
                          "Authorization code already used")).
Proof.
  cbn zeta.
  destruct (mock_server_code_round_trip Mock.platform Fixture.hash_of Fixture.jwt_of
              Fixture.authorization_request "issued-code" Fixture.today Fixture.mock_server
              (fst (MockOAuthServer.handleAuthorize Mock.platform
                      Fixture.authorization_request "issued-code" Fixture.today
                      Fixture.mock_server))
              {| MockOAuthServer.status := 302;
                 MockOAuthServer.location :=
                   Some (Mock.callback_url [("code", "issued-code"); ("state", "test-state")]);
                 MockOAuthServer.body := MockOAuthServer.NoBody |}
              ltac:(vm_compute; reflexivity) eq_refl ltac:(discriminate)
              Fixture.token_request "issued-refresh-token" (Fixture.today + 1000) eq_refl)
    as (s2 & response & Hrun & Hok & Hreplay & _).
  assert (H200 : MockOAuthServer.status response = 200).
  { apply Hok. split; [reflexivity|]. split; [reflexivity|].
    split; [|vm_compute; discriminate].
    exists "test-verifier". split; [reflexivity|]. split; [discriminate | reflexivity]. }
  exists s2, response. split; [exact Hrun|]. split; [exact H200|].
  apply Hreplay. exact H200.
Defined.
